(** * GeoLife trajectory extraction: a shallow embedding of [data_extract.py]

    The development follows the three functions of the script:
    [try_parse_datetime], [parse_plt_file] and [process_geolife_dataset].

    Conventions of the embedding.
    - Text is a list of characters ([str]); characters are the 7/8-bit
      [ascii] of the standard library, so whitespace and digits are the
      ASCII ones of Python's [str.isspace] and of the [\d] class.
    - A Python call that may raise returns a [result]: [Ok v] or
      [Raise e];  [try]/[except] is a match on that result.
    - [float(...)] is a parameter of the development ([py_float]): what
      matters here is which text is converted and whether the conversion
      fails, not the binary value obtained.
    - [datetime.strptime] is modelled the way CPython implements it: the
      format is turned into a backtracking regular expression, the match is
      anchored at the start, the whole text has to be consumed, and the
      captured numbers are checked by the [datetime] constructor. *)

From Stdlib Require Import Ascii String Bool Arith NArith ZArith Lia List.
From Stdlib Require Import Sorting.Sorted Sorting.Permutation.
Import ListNotations.

Set Implicit Arguments.

(* ================================================================= *)
(** ** Text *)

Definition str := list ascii.

Definition txt (s : string) : str := list_ascii_of_string s.
Arguments txt s%_string.

(** [str.isspace] on the ASCII range: TAB..CR, FS..US and the blank. *)
Definition isspace (c : ascii) : bool :=
  let n := N_of_ascii c in
  (((9 <=? n) && (n <=? 13)) || ((28 <=? n) && (n <=? 32)))%N.

Fixpoint lstrip (s : str) : str :=
  match s with
  | c :: s' => if isspace c then lstrip s' else s
  | [] => []
  end.

Definition rstrip (s : str) : str := rev (lstrip (rev s)).

(** [s.strip()] *)
Definition strip (s : str) : str := rstrip (lstrip s).

(** [s.split(sep)] for a one-character separator: always at least one
    piece, empty pieces kept. *)
Fixpoint split (sep : ascii) (s : str) : list str :=
  match s with
  | [] => [[]]
  | c :: s' =>
      if Ascii.eqb c sep then [] :: split sep s'
      else match split sep s' with
           | p :: ps => (c :: p) :: ps
           | [] => [[c]]
           end
  end.

Definition is_empty (s : str) : bool :=
  match s with [] => true | _ :: _ => false end.

(** [c.lower()] on ASCII letters. *)
Definition lower (c : ascii) : ascii :=
  let n := N_of_ascii c in
  if ((65 <=? n) && (n <=? 90))%N then ascii_of_N (n + 32) else c.

(** [s.endswith(suffix)] *)
Definition endswith (s suffix : str) : bool :=
  let k := length s - length suffix in
  (length suffix <=? length s) &&
  (if list_eq_dec ascii_dec (skipn k s) suffix then true else false).

(** Comparison of two sequences of code points, the order of Python's
    [str] and tuple comparison: the first differing position decides and a
    proper prefix comes first. *)
Fixpoint lex_leb (a b : list N) : bool :=
  match a, b with
  | [], _ => true
  | _ :: _, [] => false
  | x :: a', y :: b' =>
      if (x <? y)%N then true
      else if (y <? x)%N then false
      else lex_leb a' b'
  end.

Definition codes (s : str) : list N := map N_of_ascii s.

Definition str_leb (a b : str) : bool := lex_leb (codes a) (codes b).

(* ================================================================= *)
(** ** Exceptions *)

(** The [ValueError]s of the program, by origin. *)
Inductive value_error : Type :=
| could_not_convert_to_float (s : str)
| bad_directive (fmt : str)
| time_data_does_not_match (ts fmt : str)
| unconverted_data_remains (rest : str)
| field_out_of_range (field : str)
| unknown_datetime_format (ts : str).

Inductive exn : Type :=
| ValueError (v : value_error)
| IndexError
| StopIteration
| OSError (msg : str)
| OtherException (name : str).

Inductive result (A : Type) : Type :=
| Ok (a : A)
| Raise (e : exn).

Arguments Ok {A} a.
Arguments Raise {A} e.

Definition bind {A B} (m : result A) (k : A -> result B) : result B :=
  match m with
  | Ok a => k a
  | Raise e => Raise e
  end.

Declare Scope py_scope.
Delimit Scope py_scope with py.
Notation "x <- m ;; k" := (bind m (fun x => k))
  (at level 61, m at next level, right associativity) : py_scope.
Open Scope py_scope.

(** [try: m  except Exception: h] *)
Definition try_except {A} (m : result A) (h : exn -> result A) : result A :=
  match m with
  | Ok a => Ok a
  | Raise e => h e
  end.

(** [try: m  except ValueError as ve: h ve]; any other exception goes on. *)
Definition try_except_ValueError {A}
  (m : result A) (h : value_error -> result A) : result A :=
  match m with
  | Ok a => Ok a
  | Raise (ValueError ve) => h ve
  | Raise e => Raise e
  end.

(** [l[i]] with Python's negative indices and its [IndexError]. *)
Definition py_index {A} (l : list A) (i : Z) : result A :=
  let n := Z.of_nat (length l) in
  let j := if (i <? 0)%Z then (i + n)%Z else i in
  if ((j <? 0) || (n <=? j))%Z then Raise IndexError
  else match nth_error l (Z.to_nat j) with
       | Some x => Ok x
       | None => Raise IndexError
       end.

(* ================================================================= *)
(** ** [datetime] and [datetime.strptime] *)

(** A [datetime] with second resolution (the microsecond is always 0
    here).  Comparison is that of the field tuples. *)
Record datetime : Type := mk_datetime
  { year : N; month : N; day : N; hour : N; minute : N; second : N }.

Definition dt_fields (t : datetime) : list N :=
  [year t; month t; day t; hour t; minute t; second t].

Definition datetime_leb (a b : datetime) : bool :=
  lex_leb (dt_fields a) (dt_fields b).

Definition is_leap (y : N) : bool :=
  ((y mod 4 =? 0) && (negb (y mod 100 =? 0) || (y mod 400 =? 0)))%N.

Definition days_in_month (y m : N) : N :=
  match m with
  | 2 => if is_leap y then 29 else 28
  | 4 | 6 | 9 | 11 => 30
  | _ => 31
  end%N.

(** The checks of the [datetime(...)] constructor. *)
Definition datetime_new (y m d H M S : N) : result datetime :=
  if negb ((1 <=? y) && (y <=? 9999))%N
  then Raise (ValueError (field_out_of_range (txt "year")))
  else if negb ((1 <=? m) && (m <=? 12))%N
  then Raise (ValueError (field_out_of_range (txt "month")))
  else if negb ((1 <=? d) && (d <=? days_in_month y m))%N
  then Raise (ValueError (field_out_of_range (txt "day")))
  else if negb (H <=? 23)%N
  then Raise (ValueError (field_out_of_range (txt "hour")))
  else if negb (M <=? 59)%N
  then Raise (ValueError (field_out_of_range (txt "minute")))
  else if negb (S <=? 59)%N
  then Raise (ValueError (field_out_of_range (txt "second")))
  else Ok (mk_datetime y m d H M S).

(** The directives used by the program's formats. *)
Inductive directive : Type := dY | dm | dd | dH | dM | dS.

Definition directive_eqb (a b : directive) : bool :=
  match a, b with
  | dY, dY | dm, dm | dd, dd | dH, dH | dM, dM | dS, dS => true
  | _, _ => false
  end.

Definition directive_of (c : ascii) : option directive :=
  match c with
  | "Y" => Some dY
  | "m" => Some dm
  | "d" => Some dd
  | "H" => Some dH
  | "M" => Some dM
  | "S" => Some dS
  | _ => None
  end%char.

(** A compiled format: directives, literal characters and [\s+]. *)
Inductive item : Type :=
| Dir (d : directive)
| Lit (c : ascii)
| Spaces.

(** Format to regular expression: [%x] becomes the group of [x], a run of
    whitespace becomes one [\s+], anything else stands for itself. *)
Fixpoint compile (fmt : str) : option (list item) :=
  match fmt with
  | [] => Some []
  | c :: rest =>
      if Ascii.eqb c "%" then
        match rest with
        | x :: rest' =>
            match directive_of x, compile rest' with
            | Some d, Some items => Some (Dir d :: items)
            | _, _ => None
            end
        | [] => None
        end
      else
        match compile rest with
        | Some items =>
            if isspace c then
              match items with
              | Spaces :: _ => Some items
              | _ => Some (Spaces :: items)
              end
            else Some (Lit c :: items)
        | None => None
        end
  end.

Definition digit_val (c : ascii) : option N :=
  let n := N_of_ascii c in
  if ((48 <=? n) && (n <=? 57))%N then Some (n - 48)%N else None.

(** One alternative of a group: two digits [a b] with [p1 a] and [p2 b]. *)
Definition two_digits (p1 p2 : N -> bool) (s : str) : list (N * str) :=
  match s with
  | c1 :: c2 :: r =>
      match digit_val c1, digit_val c2 with
      | Some a, Some b => if p1 a && p2 b then [((10 * a + b)%N, r)] else []
      | _, _ => []
      end
  | _ => []
  end.

(** One alternative of a group: one digit [a] with [p a]. *)
Definition one_digit (p : N -> bool) (s : str) : list (N * str) :=
  match s with
  | c1 :: r =>
      match digit_val c1 with
      | Some a => if p a then [(a, r)] else []
      | None => []
      end
  | [] => []
  end.

(** The alternative [ [1-9]] of [%d]: a blank, then a digit. *)
Definition blank_digit (p : N -> bool) (s : str) : list (N * str) :=
  match s with
  | c0 :: r => if Ascii.eqb c0 " " then one_digit p r else []
  | [] => []
  end.

Definition four_digits (s : str) : list (N * str) :=
  match s with
  | c1 :: c2 :: c3 :: c4 :: r =>
      match digit_val c1, digit_val c2, digit_val c3, digit_val c4 with
      | Some a, Some b, Some c, Some d =>
          [((1000 * a + 100 * b + 10 * c + d)%N, r)]
      | _, _, _, _ => []
      end
  | _ => []
  end.

Definition any (_ : N) : bool := true.
Definition exactly (k : N) (a : N) : bool := (a =? k)%N.
Definition upto (k : N) (a : N) : bool := (a <=? k)%N.
Definition between (lo hi : N) (a : N) : bool := ((lo <=? a) && (a <=? hi))%N.

(** The ways a directive can match at the start of [s], in the order the
    regular expression engine tries them, each with the number read and
    the text left:
    [%Y]: [\d\d\d\d];   [%m]: [1[0-2]|0[1-9]|[1-9]];
    [%d]: [3[0-1]|[1-2]\d|0[1-9]|[1-9]| [1-9]];
    [%H]: [2[0-3]|[0-1]\d|\d];   [%M]: [[0-5]\d|\d];
    [%S]: [6[0-1]|[0-5]\d|\d]. *)
Definition dir_alts (d : directive) (s : str) : list (N * str) :=
  match d with
  | dY => four_digits s
  | dm => two_digits (exactly 1) (upto 2) s ++ two_digits (exactly 0) (between 1 9) s
          ++ one_digit (between 1 9) s
  | dd => two_digits (exactly 3) (upto 1) s ++ two_digits (between 1 2) any s
          ++ two_digits (exactly 0) (between 1 9) s ++ one_digit (between 1 9) s
          ++ blank_digit (between 1 9) s
  | dH => two_digits (exactly 2) (upto 3) s ++ two_digits (upto 1) any s
          ++ one_digit any s
  | dM => two_digits (upto 5) any s ++ one_digit any s
  | dS => two_digits (exactly 6) (upto 1) s ++ two_digits (upto 5) any s
          ++ one_digit any s
  end.

(** [\s+]: the texts left after a greedy run of whitespace, longest run
    first, at least one character. *)
Fixpoint space_alts (s : str) : list str :=
  match s with
  | c :: s' => if isspace c then space_alts s' ++ [s'] else []
  | [] => []
  end.

(** The first alternative whose continuation succeeds. *)
Fixpoint first_match {A B} (k : A -> option B) (l : list A) : option B :=
  match l with
  | [] => None
  | a :: l' =>
      match k a with
      | Some b => Some b
      | None => first_match k l'
      end
  end.

Definition found_dict := list (directive * N).

(** The group of [d] read as the number [v], added to the rest of a
    match. *)
Definition capture (d : directive) (v : N) (m : option (found_dict * str))
  : option (found_dict * str) :=
  match m with
  | Some (found, rest) => Some ((d, v) :: found, rest)
  | None => None
  end.

(** [format_regex.match(data_string)]: anchored at the start, with
    backtracking, case-insensitive on literals; gives the captured groups
    and the text after the match. *)
Fixpoint re_match (items : list item) (s : str) : option (found_dict * str) :=
  match items with
  | [] => Some ([], s)
  | Lit c :: items' =>
      match s with
      | c' :: s' =>
          if Ascii.eqb (lower c') (lower c) then re_match items' s' else None
      | [] => None
      end
  | Spaces :: items' => first_match (re_match items') (space_alts s)
  | Dir d :: items' =>
      first_match
        (fun alt : N * str => capture d (fst alt) (re_match items' (snd alt)))
        (dir_alts d s)
  end.

Fixpoint group (d : directive) (found : found_dict) (default : N) : N :=
  match found with
  | [] => default
  | (d', v) :: found' => if directive_eqb d d' then v else group d found' default
  end.

(** [datetime.strptime(data_string, format)] for formats over the
    directives above, each used at most once. *)
Definition strptime (data_string format : str) : result datetime :=
  match compile format with
  | None => Raise (ValueError (bad_directive format))
  | Some items =>
      match re_match items data_string with
      | None => Raise (ValueError (time_data_does_not_match data_string format))
      | Some (found, rest) =>
          if is_empty rest then
            datetime_new (group dY found 1900) (group dm found 1)
                         (group dd found 1) (group dH found 0)
                         (group dM found 0) (group dS found 0)
          else Raise (ValueError (unconverted_data_remains rest))
      end
  end.

(* ================================================================= *)
(** ** [try_parse_datetime] *)

Definition candidates : list str :=
  [ txt "%Y-%m-%d %H:%M:%S";
    txt "%Y/%m/%d %H:%M:%S";
    txt "%d-%m-%Y %H:%M:%S";
    txt "%Y-%m-%d %H:%M" ].

(** The [for fmt in candidates] loop: return at the first format that
    parses, go on at any exception, raise after the last one. *)
Fixpoint try_formats (ts : str) (fmts : list str) : result datetime :=
  match fmts with
  | [] => Raise (ValueError (unknown_datetime_format ts))
  | fmt :: rest => try_except (strptime ts fmt) (fun _ => try_formats ts rest)
  end.

Definition try_parse_datetime (date_str time_str : str) : result datetime :=
  let ts := date_str ++ txt " " ++ time_str in
  try_formats ts candidates.

(* ================================================================= *)
(** ** Sorting *)

Section StableSort.

Variable A : Type.
Variable leb : A -> A -> bool.

(** [x] goes in front of the first element that is not below it, so
    before the elements that tie with it. *)
Fixpoint insert (x : A) (l : list A) : list A :=
  match l with
  | [] => [x]
  | y :: l' => if leb x y then x :: l else y :: insert x l'
  end.

(** A stable sort: each element, from the last to the first, is inserted
    in front of its ties. *)
Definition stable_sort (l : list A) : list A := fold_right insert [] l.

End StableSort.

(** A boolean comparison as a relation. *)
Definition holds {A} (leb : A -> A -> bool) (x y : A) : Prop := leb x y = true.

(** [numpy.lexsort], which [DataFrame.sort_values] uses for several
    columns: one stable pass per key, from the last key to the first, so
    the first key of [by] is the most significant. *)
Definition lexsort {A} (by_keys : list (A -> A -> bool)) (l : list A) : list A :=
  fold_right (fun leb acc => stable_sort leb acc) l by_keys.

(** [sorted(names)] on a listing that carries what each name denotes. *)
Definition sorted_by_name {B} (l : list (str * B)) : list (str * B) :=
  stable_sort (fun a b => str_leb (fst a) (fst b)) l.

(** [os.path.join(a, b)] for a relative [b], POSIX flavour. *)
Definition path_join (a b : str) : str :=
  if is_empty a || endswith a (txt "/") then a ++ b else a ++ txt "/" ++ b.

(* ================================================================= *)
(** ** [parse_plt_file]: one line *)

Section Program.

(** The type of Python floats and [float(s)] on text: [None] when
    [float] raises its [ValueError]. *)
Variable float : Type.
Variable py_float : str -> option float.

Definition float_of (s : str) : result float :=
  match py_float s with
  | Some x => Ok x
  | None => Raise (ValueError (could_not_convert_to_float s))
  end.

(** The dictionaries appended to [data]. *)
Record point : Type := mk_point
  { user_id : str;
    latitude : float;
    longitude : float;
    altitude : float;
    timestamp : datetime }.

(** [[p.strip() for p in raw.split(',') if p.strip() != ""]] *)
Definition split_fields (raw : str) : list str :=
  map strip (filter (fun p => negb (is_empty (strip p))) (split "," raw)).

(** Lines 59-65: the altitude of a line. *)
Definition extract_altitude (parts : list str) : result float :=
  if 3 <? length parts then
    try_except (p3 <- py_index parts 3 ;; float_of p3)
               (fun _ => q <- py_index parts (-3) ;; float_of q)
  else
    q <- py_index parts (-3) ;; float_of q.

(** Lines 55-79: the body of the inner [try]. *)
Definition extract (parts : list str) (uid : str) : result point :=
  p0 <- py_index parts 0 ;;
  lat <- float_of p0 ;;
  p1 <- py_index parts 1 ;;
  lon <- float_of p1 ;;
  alt <- extract_altitude parts ;;
  date_str <- py_index parts (-2) ;;
  time_str <- py_index parts (-1) ;;
  ts <- try_parse_datetime date_str time_str ;;
  Ok (mk_point uid lat lon alt ts).

(** What the loop does with a line it does not keep: a blank line is
    only counted; a short line is counted and sampled as it is; a line
    whose extraction raised [ValueError] is counted and sampled with the
    error. *)
Inductive skip_reason : Type :=
| empty
| insufficient_fields (raw : str)
| value_error_raised (raw : str) (ve : value_error).

Inductive outcome : Type :=
| PointRecord (p : point)
| Skip (r : skip_reason).

(** Lines 38-84: the classification of one line.  An exception that the
    inner handler does not catch leaves the function. *)
Definition parse_line (line : str) (uid : str) : result outcome :=
  let raw := strip line in
  if is_empty raw then Ok (Skip empty)
  else
    let parts := split_fields raw in
    if length parts <? 6 then Ok (Skip (insufficient_fields raw))
    else
      try_except_ValueError
        (p <- extract parts uid ;; Ok (PointRecord p))
        (fun ve => Ok (Skip (value_error_raised raw ve))).

(** An entry of [bad_lines]: the raw text, or [f"{raw}  <-- {ve}"]. *)
Inductive bad_line : Type :=
| bad_raw (raw : str)
| bad_value (raw : str) (ve : value_error).

(** The local variables of [parse_plt_file]. *)
Record state : Type := mk_state
  { data : list point;
    bad_lines : list bad_line;
    total_lines : nat;
    skipped : nat }.

Definition initial : state := mk_state [] [] 0 0.

(** [if len(bad_lines) < 5: bad_lines.append(b)] *)
Definition sample (bl : list bad_line) (b : bad_line) : list bad_line :=
  if length bl <? 5 then bl ++ [b] else bl.

Definition record_outcome (st : state) (o : outcome) : state :=
  match o with
  | PointRecord p =>
      mk_state (data st ++ [p]) (bad_lines st)
               (S (total_lines st)) (skipped st)
  | Skip empty =>
      mk_state (data st) (bad_lines st)
               (S (total_lines st)) (S (skipped st))
  | Skip (insufficient_fields raw) =>
      mk_state (data st) (sample (bad_lines st) (bad_raw raw))
               (S (total_lines st)) (S (skipped st))
  | Skip (value_error_raised raw ve) =>
      mk_state (data st) (sample (bad_lines st) (bad_value raw ve))
               (S (total_lines st)) (S (skipped st))
  end.

(** One turn of [for line in f]. *)
Definition step (uid : str) (st : state) (line : str) : result state :=
  o <- parse_line line uid ;;
  Ok (record_outcome st o).

(* ================================================================= *)
(** ** [parse_plt_file]: one file *)

(** What reading a text file gives, line after line: the end of the file,
    a line, or an exception raised by the read. *)
Inductive reads : Type :=
| EOF
| Line (line : str) (more : reads)
| ReadFails (e : exn).

(** [open(filepath, ...)]: an exception, or an iterator over the lines. *)
Inductive file : Type :=
| OpenFails (e : exn)
| Opened (r : reads).

(** [next(f)] *)
Definition next (r : reads) : result (str * reads) :=
  match r with
  | EOF => Raise StopIteration
  | Line l more => Ok (l, more)
  | ReadFails e => Raise e
  end.

(** Lines 30-34: up to [n] calls of [next(f)], stopping at
    [StopIteration]; any other exception goes on. *)
Fixpoint skip_header (n : nat) (r : reads) : result reads :=
  match n with
  | O => Ok r
  | S n' =>
      match next r with
      | Ok (_, more) => skip_header n' more
      | Raise StopIteration => Ok r
      | Raise e => Raise e
      end
  end.

(** Lines 36-84: [for line in f]. *)
Fixpoint read_lines (uid : str) (r : reads) (st : state) : result state :=
  match r with
  | EOF => Ok st
  | ReadFails StopIteration => Ok st
  | ReadFails e => Raise e
  | Line l more => st' <- step uid st l ;; read_lines uid more st'
  end.

(** What the program prints, one constructor for each [print]; the file
    summary shows the base name of the path it carries. *)
Inductive message : Type :=
| error_processing_file (filepath : str) (e : exn)
| file_summary (filepath : str) (total skipped : nat)
| sample_bad_lines_header
| sample_bad_line (b : bad_line)
| processing_user (uid : str)
| files_read_for_user (uid : str) (n : nat)
| total_collected (points users : nat)
| saved_to (filename : str)
| no_data_processed.

(** Lines 27-85: the body of the outer [try]. *)
Definition read_file (f : file) (uid : str) : result state :=
  match f with
  | OpenFails e => Raise e
  | Opened r => r' <- skip_header 6 r ;; read_lines uid r' initial
  end.

(** [parse_plt_file(filepath, user_id, verbose)], where [f] is what
    opening [filepath] gives: the messages printed and the list returned. *)
Definition parse_plt_file (f : file) (filepath uid : str) (verbose : bool)
  : list message * list point :=
  match read_file f uid with
  | Raise e => ([error_processing_file filepath e], [])
  | Ok st =>
      ((if verbose && ((0 <? skipped st) || (0 <? total_lines st)) then
          file_summary filepath (total_lines st) (skipped st)
          :: match bad_lines st with
             | [] => []
             | _ :: _ => sample_bad_lines_header
                         :: map sample_bad_line (bad_lines st)
             end
        else []),
       data st)
  end.

(* ================================================================= *)
(** ** [process_geolife_dataset] *)

(** An entry of [base_path]: not a directory, or a directory with, when
    it has a [Trajectory] sub-directory, the listing of that
    sub-directory (each name with what opening it gives). *)
Inductive entry : Type :=
| not_a_directory
| directory (trajectory : option (list (str * file))).

(** [limit_files_per_user and file_count >= limit_files_per_user] *)
Definition limit_reached (limit : option nat) (file_count : nat) : bool :=
  match limit with
  | None => false
  | Some O => false
  | Some n => n <=? file_count
  end.

(** Lines 117-126: the files of one user, already sorted; gives the
    messages, the points and the final [file_count]. *)
Fixpoint read_user_files (files : list (str * file))
  (trajectory_path uid : str) (verbose : bool) (limit : option nat)
  (file_count : nat) : list message * list point * nat :=
  match files with
  | [] => ([], [], file_count)
  | (filename, f) :: rest =>
      if negb (endswith (map lower filename) (txt ".plt")) then
        read_user_files rest trajectory_path uid verbose limit file_count
      else
        let '(msgs, file_data) :=
          parse_plt_file f (path_join trajectory_path filename) uid verbose in
        let file_count' := S file_count in
        if limit_reached limit file_count' then (msgs, file_data, file_count')
        else
          let '(msgs', data', n) :=
            read_user_files rest trajectory_path uid verbose limit file_count' in
          (msgs ++ msgs', file_data ++ data', n)
  end.

(** Lines 102-129: the entries of [base_path], already sorted; gives the
    messages, [all_data] and [users_processed]. *)
Fixpoint read_users (entries : list (str * entry)) (base_path : str)
  (verbose : bool) (limit : option nat) : list message * list point * nat :=
  match entries with
  | [] => ([], [], 0)
  | (user_dir_name, e) :: rest =>
      let '(msgs', data', users') := read_users rest base_path verbose limit in
      match e with
      | not_a_directory => (msgs', data', users')
      | directory None => (msgs', data', users')
      | directory (Some listing) =>
          let user_path := path_join base_path user_dir_name in
          let trajectory_path := path_join user_path (txt "Trajectory") in
          let uid := user_dir_name in
          let '(msgs, user_data, file_count) :=
            read_user_files (sorted_by_name listing) trajectory_path uid
                            verbose limit 0 in
          ((if verbose then [processing_user uid] else [])
             ++ msgs
             ++ (if verbose then [files_read_for_user uid file_count] else [])
             ++ msgs',
           user_data ++ data',
           S users')
      end
  end.

(** The two sort keys of line 134. *)
Definition by_user_id (p q : point) : bool := str_leb (user_id p) (user_id q).
Definition by_timestamp (p q : point) : bool :=
  datetime_leb (timestamp p) (timestamp q).

(** [df.sort_values(by=['user_id', 'timestamp'])] on the rows of [df]. *)
Definition sort_values (rows : list point) : list point :=
  lexsort [by_user_id; by_timestamp] rows.

(** A cell of the written table. *)
Inductive cell : Type :=
| cell_text (s : str)
| cell_float (x : float)
| cell_datetime (t : datetime).

Record csv : Type := mk_csv
  { header : list str;
    rows : list (list cell) }.

Definition csv_row (p : point) : list cell :=
  [ cell_text (user_id p); cell_float (latitude p); cell_float (longitude p);
    cell_float (altitude p); cell_datetime (timestamp p) ].

(** [df.to_csv(filename, index=False)]: the columns are the keys of the
    dictionaries, in their order. *)
Definition to_csv (df : list point) : csv :=
  mk_csv [ txt "user_id"; txt "latitude"; txt "longitude"; txt "altitude";
           txt "timestamp" ]
         (map csv_row df).

(** What a run leaves: the console output and, when a file is written,
    its name and content. *)
Record run : Type := mk_run
  { console : list message;
    written : option (str * csv) }.

(** Lines 131-138. *)
Definition finalize (msgs : list message) (all_data : list point)
  (users_processed : nat) (output_csv_filename : str) : run :=
  match all_data with
  | [] => mk_run (msgs ++ [no_data_processed]) None
  | _ :: _ =>
      let df := sort_values all_data in
      mk_run (msgs ++ [ total_collected (length all_data) users_processed;
                        saved_to output_csv_filename ])
             (Some (output_csv_filename, to_csv df))
  end.

(** [all_data] when the loop over the users is over. *)
Definition collect (listing : list (str * entry)) (base_path : str)
  (verbose : bool) (limit : option nat) : list point :=
  snd (fst (read_users (sorted_by_name listing) base_path verbose limit)).

(** [process_geolife_dataset(base_path, output_csv_filename, verbose,
    limit_files_per_user)], where [listing] is what [base_path] holds. *)
Definition process_geolife_dataset (listing : list (str * entry))
  (base_path output_csv_filename : str) (verbose : bool)
  (limit : option nat) : run :=
  let '(msgs, all_data, users_processed) :=
    read_users (sorted_by_name listing) base_path verbose limit in
  finalize msgs all_data users_processed output_csv_filename.

End Program.

Arguments PointRecord {float} p.
Arguments Skip {float} r.
Arguments initial {float}.
Arguments cell_text {float} s.
Arguments cell_datetime {float} t.

(* ================================================================= *)
(** ** Sample instance and notions used by the statements *)

(** A reader of plain decimal literals ([40], [-12.5], [+.5]): mantissa
    and number of decimal places.  Python's [float] accepts more; this
    instance of [py_float] is what the examples below run the program on. *)
Record decimal : Type := mk_decimal { mantissa : Z; places : nat }.

Fixpoint read_digits (acc : N) (s : str) : option N :=
  match s with
  | [] => Some acc
  | c :: s' =>
      match digit_val c with
      | Some a => read_digits (10 * acc + a)%N s'
      | None => None
      end
  end.

Definition decimal_float (s : str) : option decimal :=
  let '(negative, body) :=
    match s with
    | c :: r => if Ascii.eqb c "-" then (true, r)
                else if Ascii.eqb c "+" then (false, r)
                else (false, s)
    | [] => (false, s)
    end in
  let signed (n : N) : Z := if negative then (- Z.of_N n)%Z else Z.of_N n in
  match split "." body with
  | [ip] =>
      if is_empty ip then None
      else option_map (fun n => mk_decimal (signed n) 0) (read_digits 0 ip)
  | [ip; fp] =>
      if is_empty (ip ++ fp) then None
      else option_map (fun n => mk_decimal (signed n) (length fp))
                      (read_digits 0 (ip ++ fp))
  | _ => None
  end.

Definition is_ok {A} (r : result A) : bool :=
  match r with Ok _ => true | Raise _ => false end.

(** A calendar instant that [datetime] can hold. *)
Definition valid_instant (t : datetime) : Prop :=
  (1 <= year t <= 9999 /\ 1 <= month t <= 12
   /\ 1 <= day t <= days_in_month (year t) (month t)
   /\ hour t <= 23 /\ minute t <= 59 /\ second t <= 59)%N.

Definition digit (a : N) : ascii := ascii_of_N (48 + a).

Definition pad2 (n : N) : str := [digit (n / 10); digit (n mod 10)].

Definition pad4 (n : N) : str :=
  [digit (n / 1000); digit (n / 100 mod 10); digit (n / 10 mod 10);
   digit (n mod 10)].

(** The four layouts, in the order of [candidates]. *)
Inductive layout : Type := ymd_dash | ymd_slash | dmy_dash | ymd_dash_hm.

Definition hms (t : datetime) : str :=
  pad2 (hour t) ++ txt ":" ++ pad2 (minute t) ++ txt ":" ++ pad2 (second t).

(** An instant written in a layout, zero-padded, as the pair of a date
    text and a time text. *)
Definition render (l : layout) (t : datetime) : str * str :=
  match l with
  | ymd_dash =>
      (pad4 (year t) ++ txt "-" ++ pad2 (month t) ++ txt "-" ++ pad2 (day t),
       hms t)
  | ymd_slash =>
      (pad4 (year t) ++ txt "/" ++ pad2 (month t) ++ txt "/" ++ pad2 (day t),
       hms t)
  | dmy_dash =>
      (pad2 (day t) ++ txt "-" ++ pad2 (month t) ++ txt "-" ++ pad4 (year t),
       hms t)
  | ymd_dash_hm =>
      (pad4 (year t) ++ txt "-" ++ pad2 (month t) ++ txt "-" ++ pad2 (day t),
       pad2 (hour t) ++ txt ":" ++ pad2 (minute t))
  end.

Definition parse_rendered (l : layout) (t : datetime) : result datetime :=
  try_parse_datetime (fst (render l t)) (snd (render l t)).

(** An instant with its seconds set to 0. *)
Definition on_the_minute (t : datetime) : datetime :=
  mk_datetime (year t) (month t) (day t) (hour t) (minute t) 0.

(** The text [try_parse_datetime] builds from a rendered instant. *)
Definition joined (l : layout) (t : datetime) : str :=
  fst (render l t) ++ txt " " ++ snd (render l t).

(** The numbers a zero-padded field of a valid instant can hold. *)
Definition in_range (d : directive) (n : N) : Prop :=
  match d with
  | dY => n <= 9999
  | dm => 1 <= n <= 12
  | dd => 1 <= n <= 31
  | dH => n <= 23
  | dM => n <= 59
  | dS => n <= 59
  end%N.

Definition datetime_eqb (a b : datetime) : bool :=
  ((year a =? year b) && (month a =? month b) && (day a =? day b)
   && (hour a =? hour b) && (minute a =? minute b)
   && (second a =? second b))%N.

Definition str_eqb (a b : str) : bool :=
  if list_eq_dec ascii_dec a b then true else false.

(** [q] ties with [p]: both sort columns agree. *)
Definition ties_with {float} (p q : point float) : bool :=
  str_eqb (user_id q) (user_id p) && datetime_eqb (timestamp q) (timestamp p).

(** [p] is a row of the owner [u]. *)
Definition owned_by {float} (u : str) (p : point float) : bool :=
  str_eqb (user_id p) u.

(** The order of the rows of the written table: [p] may come before [q]
    when its owner is not after that of [q] and, for one owner, its
    timestamp is not after that of [q]. *)
Definition in_order {float} (p q : point float) : Prop :=
  str_leb (user_id p) (user_id q) = true
  /\ (user_id p = user_id q ->
      datetime_leb (timestamp p) (timestamp q) = true).

(** A stream of reads made of the lines [ls] followed by [r]. *)
Fixpoint lines_then (ls : list str) (r : reads) : reads :=
  match ls with
  | [] => r
  | l :: ls' => Line l (lines_then ls' r)
  end.

(** The record a line adds to [data], if it adds one. *)
Definition line_points {float} (py_float : str -> option float)
  (uid line : str) : list (point float) :=
  match parse_line py_float line uid with
  | Ok (PointRecord p) => [p]
  | _ => []
  end.

(** The entry a line offers to [bad_lines], if it offers one. *)
Definition line_samples {float} (py_float : str -> option float)
  (uid line : str) : list bad_line :=
  match parse_line py_float line uid with
  | Ok (Skip (insufficient_fields raw)) => [bad_raw raw]
  | Ok (Skip (value_error_raised raw ve)) => [bad_value raw ve]
  | _ => []
  end.

(** [filename.lower().endswith('.plt')] *)
Definition is_plt (filename : str) : bool :=
  endswith (map lower filename) (txt ".plt").

(** The records an entry of a [Trajectory] directory stands for. *)
Definition file_points {float} (py_float : str -> option float)
  (uid : str) (entry : str * file) : list (point float) :=
  if is_plt (fst entry)
  then snd (parse_plt_file py_float (snd entry) [] uid false)
  else [].

(** An entry of [base_path] that is read as an owner: a directory with a
    [Trajectory] sub-directory. *)
Definition is_owner (e : str * entry) : bool :=
  match snd e with
  | directory (Some _) => true
  | _ => false
  end.

(** The entries of a listing whose name ends in [.plt]. *)
Definition plt_entries (files : list (str * file)) : list (str * file) :=
  filter (fun e => is_plt (fst e)) files.

(** The records an entry of [base_path] stands for under a file limit:
    those of the files of its [Trajectory] directory, taken by name. *)
Definition owner_points {float} (py_float : str -> option float)
  (limit : option nat) (e : str * entry) : list (point float) :=
  match snd e with
  | directory (Some files) =>
      snd (fst (read_user_files py_float (sorted_by_name files) []
                                (fst e) false limit 0))
  | _ => []
  end.

(** The messages that are printed whatever [verbose] is: the failure of
    a file and the final summary. *)
Definition printed_when_quiet (m : message) : bool :=
  match m with
  | error_processing_file _ _ => true
  | total_collected _ _ => true
  | saved_to _ => true
  | no_data_processed => true
  | _ => false
  end.

(** A text with no whitespace at either end. *)
Definition trimmed (s : str) : Prop :=
  match s with
  | [] => True
  | c :: _ => isspace c = false /\ isspace (last s c) = false
  end.

(** A field as [split_fields] gives them: not empty, no whitespace at
    either end, no comma. *)
Definition clean (f : str) : Prop :=
  f <> [] /\ trimmed f /\ ~ In ","%char f.

(** Fields written on one line, a comma between two fields. *)
Fixpoint join_commas (fields : list str) : str :=
  match fields with
  | [] => []
  | [f] => f
  | f :: fields' => f ++ ","%char :: join_commas fields'
  end.

(** How many times the literal [c] stands in a compiled format. *)
Definition lits (c : ascii) (items : list item) : nat :=
  length (filter (fun it => match it with
                            | Lit c' => Ascii.eqb c' c
                            | _ => false
                            end) items).

(** Reading a row of a written table back: the record whose five values
    the row holds, in the order of the header row; nothing for a row of
    another shape. *)
Definition read_row {float} (r : list (cell float)) : option (point float) :=
  match r with
  | [ cell_text u; cell_float la; cell_float lo; cell_float al;
      cell_datetime t ] => Some (mk_point u la lo al t)
  | _ => None
  end.

(** The order of two rows of a written table: both read back as records,
    and the first may come before the second. *)
Definition rows_in_order {float} (r1 r2 : list (cell float)) : Prop :=
  match read_row r1, read_row r2 with
  | Some p, Some q => in_order p q
  | _, _ => False
  end.

(** The row [r] reads back as a record that ties with [p]. *)
Definition row_ties_with {float} (p : point float) (r : list (cell float))
  : bool :=
  match read_row r with
  | Some q => ties_with p q
  | None => false
  end.

(** The lines a stream of reads gives before it ends or fails. *)
Fixpoint lines_of (r : reads) : list str :=
  match r with
  | Line l more => l :: lines_of more
  | EOF | ReadFails _ => []
  end.

(* ================================================================= *)
(** * Properties *)

Unset Implicit Arguments.

(** ** Indexing *)

Lemma py_index_in_bounds A (l : list A) (i : Z) :
  (- Z.of_nat (length l) <= i < Z.of_nat (length l))%Z ->
  exists x, py_index l i = Ok x.
Proof.
  intros Hi. unfold py_index.
  set (n := Z.of_nat (length l)) in *.
  set (j := if (i <? 0)%Z then (i + n)%Z else i).
  assert (Hj : (0 <= j < n)%Z).
  { subst j. destruct (Z.ltb_spec i 0); lia. }
  destruct (Z.ltb_spec j 0); [lia|].
  destruct (Z.leb_spec n j); [lia|]. simpl.
  destruct (nth_error l (Z.to_nat j)) eqn:E; [eauto|].
  apply nth_error_None in E. lia.
Qed.

Lemma py_index_front A (l : list A) (k : nat) (i : Z) (d : A) :
  i = Z.of_nat k -> k < length l -> py_index l i = Ok (nth k l d).
Proof.
  intros -> Hk. unfold py_index. cbv zeta.
  assert (E0 : (Z.of_nat k <? 0)%Z = false) by (apply Z.ltb_ge; lia).
  assert (E1 : (Z.of_nat (length l) <=? Z.of_nat k)%Z = false)
    by (apply Z.leb_gt; lia).
  rewrite E0. cbv iota. rewrite E0, E1. simpl.
  rewrite Nat2Z.id. rewrite (nth_error_nth' l d Hk). reflexivity.
Qed.

Lemma py_index_back A (l : list A) (k : nat) (i : Z) (d : A) :
  i = (- Z.of_nat k)%Z -> 0 < k <= length l ->
  py_index l i = Ok (nth (length l - k) l d).
Proof.
  intros -> Hk. unfold py_index. cbv zeta.
  set (n := Z.of_nat (length l)).
  assert (E0 : (- Z.of_nat k <? 0)%Z = true) by (apply Z.ltb_lt; lia).
  assert (E1 : (- Z.of_nat k + n <? 0)%Z = false)
    by (apply Z.ltb_ge; lia).
  assert (E2 : (n <=? - Z.of_nat k + n)%Z = false) by (apply Z.leb_gt; lia).
  rewrite E0. cbv iota. rewrite E1, E2. simpl.
  replace (Z.to_nat (- Z.of_nat k + n)) with (length l - k) by lia.
  rewrite (nth_error_nth' l d); [reflexivity | lia].
Qed.

Lemma py_index_out_of_range A (l : list A) (i : Z) :
  (i < - Z.of_nat (length l) \/ Z.of_nat (length l) <= i)%Z ->
  py_index l i = Raise IndexError.
Proof.
  intros Hi. unfold py_index. cbv zeta.
  set (n := Z.of_nat (length l)) in *.
  destruct (Z.ltb_spec i 0) as [Hneg|Hpos]; cbv iota.
  - assert (E : (i + n <? 0)%Z = true) by (apply Z.ltb_lt; lia).
    rewrite E. reflexivity.
  - assert (E0 : (i <? 0)%Z = false) by (apply Z.ltb_ge; lia).
    assert (E1 : (n <=? i)%Z = true) by (apply Z.leb_le; lia).
    rewrite E0, E1. reflexivity.
Qed.

(** ** The timestamp loop *)

Lemma try_formats_result ts fmts :
  (exists t, try_formats ts fmts = Ok t)
  \/ try_formats ts fmts = Raise (ValueError (unknown_datetime_format ts)).
Proof.
  induction fmts as [|fmt rest IH]; simpl.
  - right. reflexivity.
  - destruct (strptime ts fmt); simpl; [left; eauto | exact IH].
Qed.

Lemma try_formats_find ts fmts :
  match find (fun fmt => is_ok (strptime ts fmt)) fmts with
  | Some fmt => try_formats ts fmts = strptime ts fmt
  | None => try_formats ts fmts = Raise (ValueError (unknown_datetime_format ts))
  end.
Proof.
  induction fmts as [|fmt rest IH]; simpl.
  - reflexivity.
  - destruct (strptime ts fmt) eqn:E; simpl.
    + symmetry. exact E.
    + exact IH.
Qed.

Section LineFacts.

Variable float : Type.
Variable py_float : str -> option float.

Lemma float_of_result s :
  (exists x, py_float s = Some x /\ float_of py_float s = Ok x)
  \/ (py_float s = None
      /\ float_of py_float s = Raise (ValueError (could_not_convert_to_float s))).
Proof.
  unfold float_of. destruct (py_float s); [left; eauto | right; auto].
Qed.

(** With three fields or more the altitude is a float or a
    [ValueError]. *)
Lemma extract_altitude_result parts :
  3 <= length parts ->
  (exists x, extract_altitude py_float parts = Ok x)
  \/ (exists ve, extract_altitude py_float parts = Raise (ValueError ve)).
Proof.
  intros Hlen. unfold extract_altitude.
  destruct (py_index_in_bounds _ parts (-3)%Z) as [q Hq]; [lia|].
  rewrite Hq. simpl.
  assert (Hback : (exists x, float_of py_float q = Ok x)
                  \/ (exists ve, float_of py_float q = Raise (ValueError ve))).
  { destruct (float_of_result q) as [(x & _ & ->) | (_ & ->)]; eauto. }
  destruct (3 <? length parts); [|exact Hback].
  destruct (py_index parts 3) as [p3|e]; simpl; [|exact Hback].
  destruct (float_of_result p3) as [(x & _ & ->) | (_ & ->)]; simpl; eauto.
Qed.

(** With six fields or more the inner [try] block ends with a point or
    with a [ValueError]. *)
Lemma extract_result parts uid :
  6 <= length parts ->
  (exists p, extract py_float parts uid = Ok p)
  \/ (exists ve, extract py_float parts uid = Raise (ValueError ve)).
Proof.
  intros Hlen. unfold extract.
  destruct (py_index_in_bounds _ parts 0%Z) as [p0 ->]; [lia|]. simpl.
  destruct (float_of_result p0) as [(lat & _ & ->) | (_ & ->)];
    simpl; [|eauto].
  destruct (py_index_in_bounds _ parts 1%Z) as [p1 ->]; [lia|]. simpl.
  destruct (float_of_result p1) as [(lon & _ & ->) | (_ & ->)];
    simpl; [|eauto].
  destruct (extract_altitude_result parts) as [(alt & ->) | (ve & ->)];
    [lia | | simpl; eauto]. simpl.
  destruct (py_index_in_bounds _ parts (-2)%Z) as [d ->]; [lia|]. simpl.
  destruct (py_index_in_bounds _ parts (-1)%Z) as [t ->]; [lia|]. simpl.
  unfold try_parse_datetime.
  destruct (try_formats_result (d ++ txt " " ++ t) candidates)
    as [(ts & ->) | ->]; simpl; eauto.
Qed.

Lemma parse_line_cases line uid :
  let raw := strip line in
  let parts := split_fields raw in
  (raw = [] /\ parse_line py_float line uid = Ok (Skip empty))
  \/ (raw <> [] /\ length parts < 6
      /\ parse_line py_float line uid = Ok (Skip (insufficient_fields raw)))
  \/ (raw <> [] /\ 6 <= length parts
      /\ ((exists p, extract py_float parts uid = Ok p
                     /\ parse_line py_float line uid = Ok (PointRecord p))
          \/ (exists ve, extract py_float parts uid = Raise (ValueError ve)
                         /\ parse_line py_float line uid
                            = Ok (Skip (value_error_raised raw ve))))).
Proof.
  intros raw parts. unfold parse_line. fold raw. fold parts.
  destruct raw as [|c r] eqn:Eraw; simpl is_empty; cbv iota.
  - left. auto.
  - right. assert (Hne : c :: r <> []) by discriminate.
    destruct (Nat.ltb_spec (length parts) 6).
    + left. auto.
    + right. do 2 (split; [assumption|]).
      destruct (extract_result parts uid) as [(p & Hp) | (ve & Hve)];
        [assumption | left | right].
      * exists p. rewrite Hp. auto.
      * exists ve. rewrite Hve. auto.
Qed.

End LineFacts.

Lemma bind_ok_inv A B (m : result A) (k : A -> result B) (b : B) :
  bind m k = Ok b -> exists a, m = Ok a /\ k a = Ok b.
Proof. destruct m as [a|e]; simpl; [eauto | discriminate]. Qed.

Ltac bind_inv H :=
  let a := fresh "v" in
  let Ha := fresh "Hv" in
  apply bind_ok_inv in H; destruct H as (a & Ha & H).

Section ExtractionFacts.

Variable float : Type.
Variable py_float : str -> option float.

Lemma float_of_ok_inv s x : float_of py_float s = Ok x -> py_float s = Some x.
Proof.
  unfold float_of. destruct (py_float s); [congruence | discriminate].
Qed.

Lemma float_of_some s x : py_float s = Some x -> float_of py_float s = Ok x.
Proof. unfold float_of. intros ->. reflexivity. Qed.

Lemma float_of_none s :
  py_float s = None ->
  float_of py_float s = Raise (ValueError (could_not_convert_to_float s)).
Proof. unfold float_of. intros ->. reflexivity. Qed.

(** What a successful extraction read, and from where. *)
Lemma extract_ok_inv parts uid p :
  extract py_float parts uid = Ok p ->
  exists p0 p1 d t,
    py_index parts 0 = Ok p0 /\ py_float p0 = Some (latitude p)
    /\ py_index parts 1 = Ok p1 /\ py_float p1 = Some (longitude p)
    /\ extract_altitude py_float parts = Ok (altitude p)
    /\ py_index parts (-2) = Ok d /\ py_index parts (-1) = Ok t
    /\ try_parse_datetime d t = Ok (timestamp p)
    /\ user_id p = uid.
Proof.
  unfold extract. intros H.
  bind_inv H. bind_inv H. bind_inv H. bind_inv H. bind_inv H.
  bind_inv H. bind_inv H. bind_inv H.
  injection H as <-. simpl.
  exists v, v1, v4, v5.
  repeat split; auto using float_of_ok_inv.
Qed.

Lemma parse_line_point_inv line uid p :
  parse_line py_float line uid = Ok (PointRecord p) ->
  strip line <> [] /\ 6 <= length (split_fields (strip line))
  /\ extract py_float (split_fields (strip line)) uid = Ok p.
Proof.
  intros H.
  destruct (parse_line_cases float py_float line uid)
    as [(_ & E) | [(_ & _ & E) | (Hne & Hlen & [(q & Hq & E) | (ve & _ & E)])]];
    rewrite E in H; try discriminate.
  injection H as ->. auto.
Qed.

End ExtractionFacts.

(* ================================================================= *)
(** ** The line parser *)

(** C1.  Whatever the line and the owner, the line parser returns a
    classified outcome, a point record or a skip with its reason, and
    raises nothing; and whenever the extraction of the fields of a line
    raises, the exception is a [ValueError] and the line is a skip
    carrying it. *)
Theorem parse_line_classified :
  forall (float : Type) (py_float : str -> option float) (line uid : str),
    (exists o, parse_line py_float line uid = Ok o)
    /\ (forall e,
          6 <= length (split_fields (strip line)) ->
          extract py_float (split_fields (strip line)) uid = Raise e ->
          exists ve,
            e = ValueError ve
            /\ parse_line py_float line uid
               = Ok (Skip (value_error_raised (strip line) ve))).
Proof.
  intros float py_float line uid.
  pose proof (parse_line_cases float py_float line uid) as H. cbv zeta in H.
  split.
  - destruct H as [(_ & E) | [(_ & _ & E)
      | (_ & _ & [(p & _ & E) | (ve & _ & E)])]]; eauto.
  - intros e Hlen He.
    destruct H as [(Hb & _) | [(_ & Hs & _)
      | (_ & _ & [(p & Hp & _) | (ve & Hve & E)])]].
    + rewrite Hb in Hlen. simpl in Hlen. lia.
    + lia.
    + congruence.
    + exists ve. split; [congruence | exact E].
Qed.

Lemma parse_line_classified_witness :
  parse_line decimal_float (txt "abc,1.0,0,10,2008-10-23,02:53:04") (txt "000")
  = Ok (Skip (value_error_raised
                (txt "abc,1.0,0,10,2008-10-23,02:53:04")
                (could_not_convert_to_float (txt "abc")))).
Proof.
  destruct (parse_line_classified decimal decimal_float
              (txt "abc,1.0,0,10,2008-10-23,02:53:04") (txt "000"))
    as [_ H].
  destruct (H (ValueError (could_not_convert_to_float (txt "abc"))))
    as (ve & Hve & Hp).
  - vm_compute. lia.
  - vm_compute. reflexivity.
  - injection Hve as <-. exact Hp.
Defined.

(** C7, as stated, fails on a blank line: it has no field at all, and it
    is skipped as empty, without a sample, not as a line with too few
    fields. *)
Lemma short_line_claim_fails_on_blank_line :
  ~ (forall (float : Type) (py_float : str -> option float) (line uid : str),
        length (split_fields (strip line)) < 6 ->
        exists raw,
          parse_line py_float line uid = Ok (Skip (insufficient_fields raw))).
Proof.
  intros H.
  destruct (H decimal decimal_float ["010"%char] (txt "000")) as (raw & Hraw).
  - vm_compute. lia.
  - vm_compute in Hraw. discriminate.
Qed.

(** C7, amended.  A line with fewer than 6 fields (split on commas,
    trimmed, empty pieces dropped) is never a point record; when the
    trimmed line is not empty it is a skip for insufficient fields that
    carries the trimmed text, and when it is empty it is a skip for an
    empty line; a line with exactly 5 fields is always a skip for
    insufficient fields. *)
Theorem short_line_skipped :
  forall (float : Type) (py_float : str -> option float) (line uid : str),
    length (split_fields (strip line)) < 6 ->
    (forall p, parse_line py_float line uid <> Ok (PointRecord p))
    /\ (strip line <> [] ->
        parse_line py_float line uid
        = Ok (Skip (insufficient_fields (strip line))))
    /\ (strip line = [] -> parse_line py_float line uid = Ok (Skip empty))
    /\ (length (split_fields (strip line)) = 5 ->
        parse_line py_float line uid
        = Ok (Skip (insufficient_fields (strip line)))).
Proof.
  intros float py_float line uid Hshort.
  pose proof (parse_line_cases float py_float line uid) as H. cbv zeta in H.
  destruct H as [(Hb & E) | [(Hne & _ & E) | (_ & Hlen & _)]]; [| |lia].
  - rewrite E. repeat split; try congruence.
    rewrite Hb. simpl. discriminate.
  - rewrite E. repeat split; congruence.
Qed.

Lemma short_line_skipped_witness :
  parse_line decimal_float (txt "39.9,116.3,0,492,39744.1") (txt "000")
  = Ok (Skip (insufficient_fields (txt "39.9,116.3,0,492,39744.1"))).
Proof.
  destruct (short_line_skipped decimal decimal_float
              (txt "39.9,116.3,0,492,39744.1") (txt "000"))
    as (_ & _ & _ & H).
  - vm_compute. lia.
  - apply H. vm_compute. reflexivity.
Defined.

(** C10.  With at least 6 fields, the test [len(parts) > 3] holds, so the
    altitude is computed by the first branch and the branch for 3 fields
    or fewer is not taken; the six positions read by the extraction, 0, 1,
    3, -3, -2 and -1, all exist; and neither the altitude nor the whole
    extraction ends with an [IndexError]. *)
Theorem extraction_in_bounds :
  forall (float : Type) (py_float : str -> option float)
         (parts : list str) (uid : str),
    6 <= length parts ->
    (3 <? length parts) = true
    /\ extract_altitude py_float parts
       = try_except (p3 <- py_index parts 3 ;; float_of py_float p3)
                    (fun _ => q <- py_index parts (-3) ;; float_of py_float q)
    /\ (exists p0 p1 p3 q3 q2 q1,
           py_index parts 0 = Ok p0 /\ py_index parts 1 = Ok p1
           /\ py_index parts 3 = Ok p3 /\ py_index parts (-3) = Ok q3
           /\ py_index parts (-2) = Ok q2 /\ py_index parts (-1) = Ok q1)
    /\ extract_altitude py_float parts <> Raise IndexError
    /\ extract py_float parts uid <> Raise IndexError.
Proof.
  intros float py_float parts uid Hlen.
  assert (Hgt : (3 <? length parts) = true) by (apply Nat.ltb_lt; lia).
  split; [exact Hgt|]. split.
  { unfold extract_altitude. rewrite Hgt. reflexivity. }
  split.
  { destruct (py_index_in_bounds _ parts 0%Z) as [p0 H0]; [lia|].
    destruct (py_index_in_bounds _ parts 1%Z) as [p1 H1]; [lia|].
    destruct (py_index_in_bounds _ parts 3%Z) as [p3 H3]; [lia|].
    destruct (py_index_in_bounds _ parts (-3)%Z) as [q3 H4]; [lia|].
    destruct (py_index_in_bounds _ parts (-2)%Z) as [q2 H5]; [lia|].
    destruct (py_index_in_bounds _ parts (-1)%Z) as [q1 H6]; [lia|].
    exists p0, p1, p3, q3, q2, q1. auto 10. }
  split.
  - destruct (extract_altitude_result float py_float parts)
      as [(x & ->) | (ve & ->)]; [lia | discriminate | discriminate].
  - destruct (extract_result float py_float parts uid)
      as [(x & ->) | (ve & ->)]; [lia | discriminate | discriminate].
Qed.

Lemma extraction_in_bounds_witness :
  extract decimal_float
    (split_fields (txt "39.9,116.3,0,492,39744.1,2008-10-23,02:53:04"))
    (txt "000")
  <> Raise IndexError.
Proof.
  apply (extraction_in_bounds decimal decimal_float
           (split_fields (txt "39.9,116.3,0,492,39744.1,2008-10-23,02:53:04"))
           (txt "000")).
  vm_compute. lia.
Defined.

(** C3.  With more than 3 fields the altitude is the float read from
    field 3, and when that conversion fails it is what the conversion of
    the third field from the end gives; with 3 fields or fewer it is
    taken from the third field from the end directly.  The altitude of a
    point record is the one so computed.  For a line of 7 fields whose
    field 3 is not a number and whose third field from the end is, the
    altitude of the point record is the float read from that field, and
    the line is such a record as soon as its coordinates and its
    timestamp are read. *)
Theorem altitude_field_and_fallback :
  forall (float : Type) (py_float : str -> option float) (parts : list str),
    (forall a, 3 < length parts -> py_float (nth 3 parts []) = Some a ->
               extract_altitude py_float parts = Ok a)
    /\ (3 < length parts -> py_float (nth 3 parts []) = None ->
        extract_altitude py_float parts
        = (q <- py_index parts (-3) ;; float_of py_float q))
    /\ (length parts <= 3 ->
        extract_altitude py_float parts
        = (q <- py_index parts (-3) ;; float_of py_float q))
    /\ (forall line uid p,
          split_fields (strip line) = parts ->
          parse_line py_float line uid = Ok (PointRecord p) ->
          extract_altitude py_float parts = Ok (altitude p))
    /\ (forall line uid a,
          split_fields (strip line) = parts ->
          length parts = 7 ->
          py_float (nth 3 parts []) = None ->
          py_float (nth 4 parts []) = Some a ->
          (forall p, parse_line py_float line uid = Ok (PointRecord p) ->
                     altitude p = a)
          /\ (forall lat lon ts,
                py_float (nth 0 parts []) = Some lat ->
                py_float (nth 1 parts []) = Some lon ->
                try_parse_datetime (nth 5 parts []) (nth 6 parts []) = Ok ts ->
                parse_line py_float line uid
                = Ok (PointRecord (mk_point uid lat lon a ts)))).
Proof.
  intros float py_float parts.
  assert (Hfail : 3 < length parts -> py_float (nth 3 parts []) = None ->
                  extract_altitude py_float parts
                  = (q <- py_index parts (-3) ;; float_of py_float q)).
  { intros Hlen Hnone. unfold extract_altitude.
    apply Nat.ltb_lt in Hlen as Hlt. rewrite Hlt.
    rewrite (py_index_front _ parts 3 3%Z []); [|reflexivity|lia]. simpl.
    rewrite (float_of_none _ py_float _ Hnone). reflexivity. }
  assert (Hpoint : forall line uid p,
             split_fields (strip line) = parts ->
             parse_line py_float line uid = Ok (PointRecord p) ->
             extract_altitude py_float parts = Ok (altitude p)).
  { intros line uid p <- Hp.
    apply parse_line_point_inv in Hp as (_ & _ & Hex).
    apply extract_ok_inv in Hex as (p0 & p1 & d & t & H). tauto. }
  split; [|split; [exact Hfail | split; [|split; [exact Hpoint|]]]].
  - intros a Hlen Hsome. unfold extract_altitude.
    apply Nat.ltb_lt in Hlen as Hlt. rewrite Hlt.
    rewrite (py_index_front _ parts 3 3%Z []); [|reflexivity|lia]. simpl.
    rewrite (float_of_some _ py_float _ _ Hsome). reflexivity.
  - intros Hlen. unfold extract_altitude.
    assert (Hlt : (3 <? length parts) = false) by (apply Nat.ltb_ge; lia).
    rewrite Hlt. reflexivity.
  - intros line uid a Hparts Hlen H3 H4.
    assert (Halt : extract_altitude py_float parts = Ok a).
    { rewrite Hfail; [|lia|exact H3].
      rewrite (py_index_back _ parts 3 (-3)%Z []); [|reflexivity|lia].
      rewrite Hlen. simpl. apply float_of_some. exact H4. }
    split.
    + intros p Hp. pose proof (Hpoint line uid p Hparts Hp) as E.
      rewrite Halt in E. congruence.
    + intros lat lon ts Hlat Hlon Hts.
      unfold parse_line. rewrite Hparts.
      destruct (strip line) as [|c r] eqn:Eraw.
      { rewrite <- Hparts in Hlen. simpl in Hlen. discriminate. }
      simpl is_empty. cbv iota.
      assert (Hge : (length parts <? 6) = false) by (apply Nat.ltb_ge; lia).
      rewrite Hge. unfold extract.
      rewrite (py_index_front _ parts 0 0%Z []); [|reflexivity|lia]. simpl.
      rewrite (float_of_some _ py_float _ _ Hlat). simpl.
      rewrite (py_index_front _ parts 1 1%Z []); [|reflexivity|lia]. simpl.
      rewrite (float_of_some _ py_float _ _ Hlon). simpl.
      rewrite Halt. simpl.
      rewrite (py_index_back _ parts 2 (-2)%Z []); [|reflexivity|lia].
      rewrite (py_index_back _ parts 1 (-1)%Z []); [|reflexivity|lia].
      rewrite Hlen. simpl. rewrite Hts. reflexivity.
Qed.

Lemma altitude_field_and_fallback_witness :
  parse_line decimal_float
    (txt "39.9,116.3,0,n/a,492,2008-10-23,02:53:04") (txt "000")
  = Ok (PointRecord
          (mk_point (txt "000") (mk_decimal 399 1) (mk_decimal 1163 1)
                    (mk_decimal 492 0) (mk_datetime 2008 10 23 2 53 4))).
Proof.
  destruct (altitude_field_and_fallback decimal decimal_float
              (split_fields (txt "39.9,116.3,0,n/a,492,2008-10-23,02:53:04")))
    as (_ & _ & _ & _ & H).
  destruct (H (txt "39.9,116.3,0,n/a,492,2008-10-23,02:53:04") (txt "000")
              (mk_decimal 492 0)) as [_ H'];
    [vm_compute; reflexivity ..|].
  apply H'; vm_compute; reflexivity.
Defined.

(* ================================================================= *)
(** ** The timestamp *)

Lemma first_match_some_inv A B (k : A -> option B) (l : list A) (b : B) :
  first_match k l = Some b -> exists a, In a l /\ k a = Some b.
Proof.
  induction l as [|a l IH]; simpl; [discriminate|].
  destruct (k a) eqn:E.
  - intros [= <-]. eauto.
  - intros H. destruct (IH H) as (a' & Hin & Ha'). eauto.
Qed.

(** A directive that is not in the format is not in the dictionary of the
    match, so its default is used. *)
Lemma group_default items :
  forall s found rest d default,
    re_match items s = Some (found, rest) ->
    ~ In (Dir d) items ->
    group d found default = default.
Proof.
  induction items as [|it items IH]; intros s found rest d default Hm Hnot.
  - simpl in Hm. injection Hm as <- _. reflexivity.
  - assert (Hnot' : ~ In (Dir d) items) by (intros Hin; apply Hnot; now right).
    destruct it as [d'|c|]; simpl in Hm.
    + apply first_match_some_inv in Hm as ([v s'] & _ & Hk).
      unfold capture in Hk. simpl in Hk.
      destruct (re_match items s') as [[found' rest']|] eqn:E; [|discriminate].
      injection Hk as <- <-. simpl.
      destruct (directive_eqb d d') eqn:Ed.
      * exfalso. apply Hnot. left. destruct d, d'; try discriminate; reflexivity.
      * eapply IH; eauto.
    + destruct s as [|c' s']; [discriminate|].
      destruct (Ascii.eqb (lower c') (lower c)); [|discriminate].
      eapply IH; eauto.
    + apply first_match_some_inv in Hm as (s' & _ & Hk). eapply IH; eauto.
Qed.

Lemma strptime_without_seconds ts t :
  strptime ts (txt "%Y-%m-%d %H:%M") = Ok t -> second t = 0%N.
Proof.
  unfold strptime.
  change (compile (txt "%Y-%m-%d %H:%M"))
    with (Some [Dir dY; Lit "-"; Dir dm; Lit "-"; Dir dd; Spaces;
                Dir dH; Lit ":"; Dir dM]).
  cbv iota beta.
  set (items := [Dir dY; Lit "-"; Dir dm; Lit "-"; Dir dd; Spaces;
                 Dir dH; Lit ":"; Dir dM]%char).
  destruct (re_match items ts) as [[found rest]|] eqn:E; [|discriminate].
  destruct (is_empty rest); [|discriminate].
  rewrite (group_default _ _ _ _ dS 0%N E).
  - unfold datetime_new.
    repeat match goal with
           | |- context [if ?b then _ else _] => destruct b; try discriminate
           end.
    intros [= <-]. reflexivity.
  - simpl. intros H. repeat (destruct H as [H|H]; [discriminate|]). exact H.
Qed.

(** C2.  The text tried is the date, one blank and the time.  The layouts
    are the four of [candidates], in that order.  The result is what the
    first layout that parses the whole text gives, and when none does the
    function raises its own [ValueError]; the fourth layout leaves the
    seconds at 0.  A line with 6 fields or more whose last two fields no
    layout parses is not a point record, and when its coordinates and
    altitude are numbers it is a skip carrying that [ValueError]. *)
Theorem first_matching_layout_wins :
  forall (date_str time_str : str),
    let ts := date_str ++ txt " " ++ time_str in
    let parses := fun fmt => is_ok (strptime ts fmt) in
    candidates = [ txt "%Y-%m-%d %H:%M:%S"; txt "%Y/%m/%d %H:%M:%S";
                   txt "%d-%m-%Y %H:%M:%S"; txt "%Y-%m-%d %H:%M" ]
    /\ match find parses candidates with
       | Some fmt => try_parse_datetime date_str time_str = strptime ts fmt
       | None => try_parse_datetime date_str time_str
                 = Raise (ValueError (unknown_datetime_format ts))
       end
    /\ (forall t, strptime ts (txt "%Y-%m-%d %H:%M") = Ok t -> second t = 0%N)
    /\ (forall (float : Type) (py_float : str -> option float)
               (line uid : str),
          let parts := split_fields (strip line) in
          6 <= length parts ->
          py_index parts (-2) = Ok date_str ->
          py_index parts (-1) = Ok time_str ->
          find parses candidates = None ->
          (forall p, parse_line py_float line uid <> Ok (PointRecord p))
          /\ (forall lat lon alt,
                py_float (nth 0 parts []) = Some lat ->
                py_float (nth 1 parts []) = Some lon ->
                extract_altitude py_float parts = Ok alt ->
                parse_line py_float line uid
                = Ok (Skip (value_error_raised (strip line)
                              (unknown_datetime_format ts))))).
Proof.
  intros date_str time_str ts parses.
  pose proof (try_formats_find ts candidates) as Hfind.
  fold parses in Hfind.
  split; [reflexivity|]. split; [exact Hfind|].
  split; [apply strptime_without_seconds|].
  intros float py_float line uid parts Hlen Hd Ht Hnone.
  rewrite Hnone in Hfind.
  assert (Hraise : try_parse_datetime date_str time_str
                   = Raise (ValueError (unknown_datetime_format ts)))
    by exact Hfind.
  split.
  - intros p Hp.
    apply parse_line_point_inv in Hp as (_ & _ & Hex).
    apply extract_ok_inv in Hex
      as (p0 & p1 & d & t & _ & _ & _ & _ & _ & Hd' & Ht' & Hts & _).
    fold parts in Hd', Ht'.
    assert (d = date_str) by congruence.
    assert (t = time_str) by congruence. subst d t.
    rewrite Hraise in Hts. discriminate.
  - intros lat lon alt Hlat Hlon Halt.
    unfold parse_line. fold parts.
    destruct (strip line) as [|c r] eqn:Eraw.
    { subst parts. simpl in Hlen. lia. }
    simpl is_empty. cbv iota.
    assert (Hge : (length parts <? 6) = false) by (apply Nat.ltb_ge; lia).
    rewrite Hge. unfold extract.
    rewrite (py_index_front _ parts 0 0%Z []); [|reflexivity|lia]. simpl.
    rewrite (float_of_some _ py_float _ _ Hlat). simpl.
    rewrite (py_index_front _ parts 1 1%Z []); [|reflexivity|lia]. simpl.
    rewrite (float_of_some _ py_float _ _ Hlon). simpl.
    rewrite Halt. simpl. rewrite Hd, Ht. simpl.
    rewrite Hraise. reflexivity.
Qed.

Lemma first_matching_layout_wins_witness :
  parse_line decimal_float
    (txt "39.9,116.3,0,492,39744.1,2008-13-23,02:53:04") (txt "000")
  = Ok (Skip (value_error_raised
                (txt "39.9,116.3,0,492,39744.1,2008-13-23,02:53:04")
                (unknown_datetime_format (txt "2008-13-23 02:53:04")))).
Proof.
  destruct (first_matching_layout_wins (txt "2008-13-23") (txt "02:53:04"))
    as (_ & _ & _ & H).
  destruct (H decimal decimal_float
              (txt "39.9,116.3,0,492,39744.1,2008-13-23,02:53:04")
              (txt "000")) as [_ H'].
  - vm_compute. lia.
  - vm_compute. reflexivity.
  - vm_compute. reflexivity.
  - vm_compute. reflexivity.
  - apply (H' (mk_decimal 399 1) (mk_decimal 1163 1) (mk_decimal 492 0));
      vm_compute; reflexivity.
Defined.

(* ================================================================= *)
(** ** One file *)

Section FileFacts.

Variable float : Type.
Variable py_float : str -> option float.

Lemma step_total uid st line :
  exists o, parse_line py_float line uid = Ok o
            /\ step py_float uid st line = Ok (record_outcome st o).
Proof.
  assert (Hc : exists o, parse_line py_float line uid = Ok o).
  { pose proof (parse_line_cases float py_float line uid) as H.
    cbv zeta in H.
    destruct H as [(_ & E) | [(_ & _ & E)
      | (_ & _ & [(p & _ & E) | (ve & _ & E)])]]; eauto. }
  destruct Hc as (o & Ho).
  exists o. split; [exact Ho|]. unfold step. rewrite Ho. reflexivity.
Qed.

Lemma sample_appends bl (b : bad_line) :
  length bl <= 5 ->
  length (sample bl b) <= 5 /\ exists added, sample bl b = bl ++ added.
Proof.
  intros Hlen. unfold sample. destruct (Nat.ltb_spec (length bl) 5).
  - split; [rewrite length_app; simpl; lia | eauto].
  - split; [lia | exists []; now rewrite app_nil_r].
Qed.

Lemma record_outcome_sample (st : state float) o :
  length (bad_lines st) <= 5 ->
  length (bad_lines (record_outcome st o)) <= 5
  /\ exists added, bad_lines (record_outcome st o) = bad_lines st ++ added.
Proof.
  intros Hlen.
  assert (Hsame : length (bad_lines st) <= 5
                  /\ exists added, bad_lines st = bad_lines st ++ added).
  { split; [lia | exists []; now rewrite app_nil_r]. }
  destruct o as [p|[|raw|raw ve]]; simpl; auto using sample_appends.
Qed.

(** The loop over lines that are all read without failure never raises,
    keeps the sample within 5 entries and only appends to it. *)
Lemma read_lines_sample uid ls :
  forall st : state float,
    length (bad_lines st) <= 5 ->
    exists st',
      read_lines py_float uid (lines_then ls EOF) st = Ok st'
      /\ length (bad_lines st') <= 5
      /\ exists added, bad_lines st' = bad_lines st ++ added.
Proof.
  induction ls as [|l ls IH]; intros st Hlen; simpl.
  - exists st. repeat split; [lia | exists []; now rewrite app_nil_r].
  - destruct (step_total uid st l) as (o & _ & ->). simpl.
    destruct (record_outcome_sample st o Hlen) as (Hlen1 & added1 & E1).
    destruct (IH _ Hlen1) as (st' & Hrun & Hlen' & added2 & E2).
    exists st'. repeat split; [exact Hrun | exact Hlen' |].
    exists (added1 ++ added2). rewrite E2, E1, app_assoc. reflexivity.
Qed.

Lemma read_lines_total uid ls (st : state float) :
  exists st', read_lines py_float uid (lines_then ls EOF) st = Ok st'.
Proof.
  revert st. induction ls as [|l ls IH]; intros st; simpl; [eauto|].
  destruct (step_total uid st l) as (o & _ & ->). simpl. apply IH.
Qed.

Lemma read_lines_then uid ls r :
  forall st : state float,
    read_lines py_float uid (lines_then ls r) st
    = (st' <- read_lines py_float uid (lines_then ls EOF) st ;;
       read_lines py_float uid r st').
Proof.
  induction ls as [|l ls IH]; intros st; simpl.
  - reflexivity.
  - destruct (step py_float uid st l) as [st1|e]; simpl; [apply IH|reflexivity].
Qed.

Lemma lines_then_app ls1 ls2 r :
  lines_then (ls1 ++ ls2) r = lines_then ls1 (lines_then ls2 r).
Proof. induction ls1 as [|l ls1 IH]; simpl; [|rewrite IH]; reflexivity. Qed.

Lemma read_lines_fails uid ls e (st : state float) :
  e <> StopIteration ->
  read_lines py_float uid (lines_then ls (ReadFails e)) st = Raise e.
Proof.
  intros He. rewrite read_lines_then.
  destruct (read_lines_total uid ls st) as (st' & ->). simpl.
  destruct e; try reflexivity. congruence.
Qed.

End FileFacts.

Lemma skip_header_eof n :
  forall ls, skip_header n (lines_then ls EOF) = Ok (lines_then (skipn n ls) EOF).
Proof.
  induction n as [|n IH]; intros ls; simpl; [reflexivity|].
  destruct ls as [|l ls]; simpl; [reflexivity | apply IH].
Qed.

Lemma skip_header_fails n e :
  e <> StopIteration ->
  forall ls,
    skip_header n (lines_then ls (ReadFails e))
    = if length ls <? n then Raise e
      else Ok (lines_then (skipn n ls) (ReadFails e)).
Proof.
  intros He. induction n as [|n IH]; intros ls; simpl.
  - reflexivity.
  - destruct ls as [|l ls]; simpl.
    + destruct e; try reflexivity. congruence.
    + rewrite IH. reflexivity.
Qed.

(** C8.  From the start of a file, after any number of lines the sample
    of bad lines holds at most 5 entries, and the lines that follow only
    append to it: the sample after more lines is the earlier sample
    followed by the new entries.  The sample a whole file ends with has at
    most 5 entries too. *)
Theorem bad_lines_sample_bounded :
  forall (float : Type) (py_float : str -> option float) (uid : str)
         (ls more : list str),
    (exists st st',
        read_lines py_float uid (lines_then ls EOF) initial = Ok st
        /\ read_lines py_float uid (lines_then (ls ++ more) EOF) initial
           = Ok st'
        /\ length (bad_lines st) <= 5
        /\ length (bad_lines st') <= 5
        /\ exists added, bad_lines st' = bad_lines st ++ added)
    /\ (exists st,
           read_file py_float (Opened (lines_then ls EOF)) uid = Ok st
           /\ length (bad_lines st) <= 5).
Proof.
  intros float py_float uid ls more. split.
  - destruct (read_lines_sample float py_float uid ls initial)
      as (st & Hst & Hlen & _); [simpl; lia|].
    destruct (read_lines_sample float py_float uid more st Hlen)
      as (st' & Hst' & Hlen' & Hadd).
    exists st, st'. repeat split; auto.
    rewrite lines_then_app, read_lines_then, Hst. simpl. exact Hst'.
  - unfold read_file. rewrite skip_header_eof. simpl.
    destruct (read_lines_sample float py_float uid (skipn 6 ls) initial)
      as (st & Hst & Hlen & _); [simpl; lia|].
    exists st. auto.
Qed.

(** C9.  When the file cannot be opened, or a read fails after any number
    of lines were read, whatever those lines hold, or the body of the outer
    [try] raises in any other way, [parse_plt_file] prints the error and
    returns the empty list: the records parsed before the failure are not
    returned. *)
Theorem file_error_gives_no_records :
  forall (float : Type) (py_float : str -> option float)
         (filepath uid : str) (verbose : bool) (e : exn),
    parse_plt_file py_float (OpenFails e) filepath uid verbose
    = ([error_processing_file filepath e], [])
    /\ (forall ls,
          e <> StopIteration ->
          parse_plt_file py_float (Opened (lines_then ls (ReadFails e)))
                         filepath uid verbose
          = ([error_processing_file filepath e], []))
    /\ (forall f,
          read_file py_float f uid = Raise e ->
          parse_plt_file py_float f filepath uid verbose
          = ([error_processing_file filepath e], [])).
Proof.
  intros float py_float filepath uid verbose e.
  assert (Hany : forall f,
             read_file py_float f uid = Raise e ->
             parse_plt_file py_float f filepath uid verbose
             = ([error_processing_file filepath e], [])).
  { intros f Hf. unfold parse_plt_file. rewrite Hf. reflexivity. }
  split; [reflexivity|]. split; [|exact Hany].
  intros ls He. apply Hany. unfold read_file.
  rewrite (skip_header_fails 6 e He).
  destruct (length ls <? 6); simpl; [reflexivity|].
  apply read_lines_fails. exact He.
Qed.

Lemma file_error_gives_no_records_witness :
  parse_plt_file decimal_float
    (Opened (lines_then
               [ txt "Geolife trajectory"; txt "WGS 84"; txt "Altitude is in Feet";
                 txt "Reserved 3"; txt "0,2,255,My Track,0,0,2,8421376";
                 txt "0";
                 txt "39.9,116.3,0,492,39744.1,2008-10-23,02:53:04" ]
               (ReadFails (OSError (txt "Input/output error")))))
    (txt "Data/000/Trajectory/20081023025304.plt") (txt "000") true
  = ([error_processing_file (txt "Data/000/Trajectory/20081023025304.plt")
        (OSError (txt "Input/output error"))], []).
Proof.
  destruct (file_error_gives_no_records decimal decimal_float
              (txt "Data/000/Trajectory/20081023025304.plt") (txt "000") true
              (OSError (txt "Input/output error"))) as (_ & H & _).
  apply H. discriminate.
Defined.

(** The same lines, read to the end without failure, give one record. *)
Example file_read_to_the_end :
  snd (parse_plt_file decimal_float
         (Opened (lines_then
                    [ txt "Geolife trajectory"; txt "WGS 84";
                      txt "Altitude is in Feet"; txt "Reserved 3";
                      txt "0,2,255,My Track,0,0,2,8421376"; txt "0";
                      txt "39.9,116.3,0,492,39744.1,2008-10-23,02:53:04" ]
                    EOF))
         (txt "Data/000/Trajectory/20081023025304.plt") (txt "000") true)
  = [ mk_point (txt "000") (mk_decimal 399 1) (mk_decimal 1163 1)
               (mk_decimal 492 0) (mk_datetime 2008 10 23 2 53 4) ].
Proof. vm_compute. reflexivity. Qed.

(* ================================================================= *)
(** ** Sorting *)

Lemma lex_leb_refl a : lex_leb a a = true.
Proof.
  induction a as [|x a IH]; simpl; [reflexivity|].
  rewrite N.ltb_irrefl. exact IH.
Qed.

Lemma lex_leb_total a : forall b, lex_leb a b = true \/ lex_leb b a = true.
Proof.
  induction a as [|x a IH]; intros [|y b]; simpl; auto.
  destruct (N.ltb_spec x y), (N.ltb_spec y x); auto; lia.
Qed.

Lemma lex_leb_trans a :
  forall b c, lex_leb a b = true -> lex_leb b c = true -> lex_leb a c = true.
Proof.
  induction a as [|x a IH]; intros [|y b] [|z c]; simpl; auto;
    try discriminate.
  destruct (N.ltb_spec x y), (N.ltb_spec y x), (N.ltb_spec y z),
    (N.ltb_spec z y), (N.ltb_spec x z), (N.ltb_spec z x);
    try discriminate; try lia; auto.
  apply IH.
Qed.

Section StableSortFacts.

Variable A : Type.
Variable leb : A -> A -> bool.

Let R := holds leb.

Lemma insert_perm x l : Permutation (insert leb x l) (x :: l).
Proof.
  induction l as [|y l IH]; simpl; [reflexivity|].
  destruct (leb x y); [reflexivity|].
  rewrite IH. apply perm_swap.
Qed.

Lemma stable_sort_perm l : Permutation (stable_sort leb l) l.
Proof.
  induction l as [|x l IH]; simpl; [reflexivity|].
  rewrite insert_perm. now constructor.
Qed.

(** A filter that keeps only elements that tie with one another sees the
    insertion as an addition in front. *)
Lemma insert_filter (f : A -> bool) x l :
  (forall a b, f a = true -> f b = true -> leb a b = true) ->
  filter f (insert leb x l) = filter f (x :: l).
Proof.
  intros Hties. induction l as [|y l IH]; [reflexivity|].
  simpl insert. destruct (leb x y) eqn:Exy; [reflexivity|].
  change (filter f (y :: insert leb x l))
    with (if f y then y :: filter f (insert leb x l)
          else filter f (insert leb x l)).
  rewrite IH. simpl.
  destruct (f x) eqn:Ex, (f y) eqn:Ey; try reflexivity.
  rewrite (Hties x y Ex Ey) in Exy. discriminate.
Qed.

Lemma stable_sort_filter (f : A -> bool) l :
  (forall a b, f a = true -> f b = true -> leb a b = true) ->
  filter f (stable_sort leb l) = filter f l.
Proof.
  intros Hties. induction l as [|x l IH]; [reflexivity|].
  simpl stable_sort. rewrite (insert_filter f x _ Hties).
  simpl. rewrite IH. reflexivity.
Qed.

Hypothesis leb_total : forall x y, leb x y = true \/ leb y x = true.
Hypothesis leb_trans :
  forall x y z, leb x y = true -> leb y z = true -> leb x z = true.

Lemma insert_sorted x l :
  StronglySorted R l -> StronglySorted R (insert leb x l).
Proof.
  induction 1 as [|y l Hl IH Hy]; simpl.
  - constructor; constructor.
  - destruct (leb x y) eqn:Exy.
    + constructor; [constructor; assumption|].
      constructor; [exact Exy|].
      eapply Forall_impl; [|exact Hy]. intros z Hz. exact (leb_trans _ _ _ Exy Hz).
    + constructor; [exact IH|].
      eapply Permutation_Forall; [symmetry; apply insert_perm|].
      constructor; [|exact Hy].
      destruct (leb_total x y) as [H|H]; [congruence | exact H].
Qed.

Lemma stable_sort_sorted l : StronglySorted R (stable_sort leb l).
Proof.
  induction l as [|x l IH]; simpl; [constructor | now apply insert_sorted].
Qed.

End StableSortFacts.

Lemma StronglySorted_filter A (R : A -> A -> Prop) (f : A -> bool) l :
  StronglySorted R l -> StronglySorted R (filter f l).
Proof.
  induction 1 as [|x l Hl IH Hx]; simpl; [constructor|].
  destruct (f x); [|exact IH].
  constructor; [exact IH|].
  apply Forall_forall. intros y Hy. apply filter_In in Hy as [Hy _].
  rewrite Forall_forall in Hx. auto.
Qed.

Lemma str_eqb_eq a b : str_eqb a b = true <-> a = b.
Proof.
  unfold str_eqb. destruct (list_eq_dec ascii_dec a b); split;
    congruence || auto.
Qed.

Lemma datetime_eqb_eq a b : datetime_eqb a b = true <-> a = b.
Proof.
  unfold datetime_eqb. split.
  - intros H. repeat (apply andb_prop in H as [H ?]).
    repeat match goal with E : (_ =? _)%N = true |- _ =>
                             apply N.eqb_eq in E end.
    destruct a, b; simpl in *. congruence.
  - intros ->. rewrite !N.eqb_refl. reflexivity.
Qed.

Section RowOrder.

Variable float : Type.

Let row := point float.

Lemma by_user_id_total (p q : row) :
  by_user_id p q = true \/ by_user_id q p = true.
Proof. apply lex_leb_total. Qed.

Lemma by_user_id_trans (p q r : row) :
  by_user_id p q = true -> by_user_id q r = true -> by_user_id p r = true.
Proof. apply lex_leb_trans. Qed.

Lemma by_timestamp_total (p q : row) :
  by_timestamp p q = true \/ by_timestamp q p = true.
Proof. apply lex_leb_total. Qed.

Lemma by_timestamp_trans (p q r : row) :
  by_timestamp p q = true -> by_timestamp q r = true -> by_timestamp p r = true.
Proof. apply lex_leb_trans. Qed.

Lemma sort_values_passes (l : list row) :
  sort_values l = stable_sort (@by_user_id float)
                              (stable_sort (@by_timestamp float) l).
Proof. reflexivity. Qed.

Lemma sort_values_perm (l : list row) : Permutation (sort_values l) l.
Proof.
  rewrite sort_values_passes.
  rewrite stable_sort_perm. apply stable_sort_perm.
Qed.

(** The pass on the owners keeps the rows of each owner in the order the
    pass on the timestamps left them. *)
Lemma sort_values_owner (u : str) (l : list row) :
  filter (owned_by u) (sort_values l)
  = filter (owned_by u) (stable_sort (@by_timestamp float) l).
Proof.
  rewrite sort_values_passes. apply stable_sort_filter.
  intros a b Ha Hb. apply str_eqb_eq in Ha, Hb.
  unfold by_user_id, str_leb. rewrite Ha, Hb. apply lex_leb_refl.
Qed.

Lemma sort_values_ties (p : row) (l : list row) :
  filter (ties_with p) (sort_values l) = filter (ties_with p) l.
Proof.
  rewrite sort_values_passes.
  rewrite stable_sort_filter.
  - apply stable_sort_filter.
    intros a b Ha Hb. unfold ties_with in Ha, Hb.
    apply andb_prop in Ha as [_ Ha]. apply andb_prop in Hb as [_ Hb].
    apply datetime_eqb_eq in Ha, Hb.
    unfold by_timestamp, datetime_leb. rewrite Ha, Hb. apply lex_leb_refl.
  - intros a b Ha Hb. unfold ties_with in Ha, Hb.
    apply andb_prop in Ha as [Ha _]. apply andb_prop in Hb as [Hb _].
    apply str_eqb_eq in Ha, Hb.
    unfold by_user_id, str_leb. rewrite Ha, Hb. apply lex_leb_refl.
Qed.

(** Rows sorted on the owner, and on the timestamp for each owner, are in
    order. *)
Lemma in_order_of_passes (l : list row) :
  StronglySorted (holds (@by_user_id float)) l ->
  (forall u, StronglySorted (holds (@by_timestamp float))
                            (filter (owned_by u) l)) ->
  StronglySorted (@in_order float) l.
Proof.
  induction l as [|p l IH]; intros Hu Ht; [constructor|].
  inversion Hu as [|? ? Hu' Hp]; subst.
  constructor.
  - apply IH; [exact Hu'|].
    intros u. specialize (Ht u). simpl in Ht.
    destruct (owned_by u p); [|exact Ht].
    now inversion Ht.
  - apply Forall_forall. intros q Hq. split.
    + rewrite Forall_forall in Hp. exact (Hp q Hq).
    + intros Heq. specialize (Ht (user_id p)). simpl in Ht.
      assert (Hpp : owned_by (user_id p) p = true) by now apply str_eqb_eq.
      rewrite Hpp in Ht. inversion Ht as [|? ? _ Hall]; subst.
      rewrite Forall_forall in Hall. apply Hall.
      apply filter_In. split; [exact Hq|].
      apply str_eqb_eq. now symmetry.
Qed.

Lemma sort_values_in_order (l : list row) :
  StronglySorted (@in_order float) (sort_values l).
Proof.
  apply in_order_of_passes.
  - rewrite sort_values_passes.
    apply stable_sort_sorted;
      [apply by_user_id_total | apply by_user_id_trans].
  - intros u. rewrite sort_values_owner.
    apply StronglySorted_filter.
    apply stable_sort_sorted;
      [apply by_timestamp_total | apply by_timestamp_trans].
Qed.

End RowOrder.

(* ================================================================= *)
(** ** The written table *)

Lemma process_finalize float (py_float : str -> option float)
  (listing : list (str * entry)) (base_path out : str) (verbose : bool)
  (limit : option nat) :
  exists msgs users,
    process_geolife_dataset py_float listing base_path out verbose limit
    = finalize msgs (collect py_float listing base_path verbose limit)
               users out.
Proof.
  unfold process_geolife_dataset, collect.
  destruct (read_users py_float (sorted_by_name listing) base_path verbose limit)
    as [[msgs all_data] users].
  exists msgs, users. reflexivity.
Qed.

Lemma finalize_written float (msgs : list message)
  (all_data : list (point float)) (users : nat) (out : str) :
  all_data <> [] ->
  written (finalize msgs all_data users out)
  = Some (out, to_csv (sort_values all_data)).
Proof. destruct all_data; [congruence | reflexivity]. Qed.

(** Reading the row of a record back gives the record, and a row that
    reads back as a record holds its five values and nothing else. *)
Lemma read_row_csv_row float (p : point float) :
  read_row (csv_row p) = Some p.
Proof. destruct p. reflexivity. Qed.

Lemma read_row_inv float (r : list (cell float)) (p : point float) :
  read_row r = Some p ->
  r = [ cell_text (user_id p); cell_float (latitude p);
        cell_float (longitude p); cell_float (altitude p);
        cell_datetime (timestamp p) ].
Proof.
  destruct r as [|[u|x|t] [|[u1|la|t1] [|[u2|lo|t2] [|[u3|al|t3]
                 [|[u4|x4|ts] [|c r]]]]]]; try discriminate.
  intros [= <-]. reflexivity.
Qed.

Lemma read_rows_of_records float (l : list (point float)) :
  map read_row (map (@csv_row float) l) = map Some l.
Proof.
  rewrite map_map. apply map_ext. intros p. apply read_row_csv_row.
Qed.

Lemma rows_of_records_in_order float (l : list (point float)) :
  StronglySorted (@in_order float) l ->
  StronglySorted (@rows_in_order float) (map (@csv_row float) l).
Proof.
  induction 1 as [|p l Hs IH Hall]; cbn [map]; constructor; [exact IH|].
  apply Forall_forall. intros r Hr.
  apply in_map_iff in Hr as (q & <- & Hq).
  unfold rows_in_order. rewrite !read_row_csv_row.
  rewrite Forall_forall in Hall. exact (Hall q Hq).
Qed.

Lemma rows_of_records_ties float (p : point float) (l : list (point float)) :
  filter (row_ties_with p) (map (@csv_row float) l)
  = map (@csv_row float) (filter (ties_with p) l).
Proof.
  induction l as [|q l IH]; [reflexivity|].
  cbn [map filter]. unfold row_ties_with at 1. rewrite read_row_csv_row.
  destruct (ties_with p q); cbn [map]; rewrite IH; reflexivity.
Qed.

(** C4.  When [all_data] is not empty, a table is written.  It holds the
    header row [user_id, latitude, longitude, altitude, timestamp] and as
    many rows as there are collected records; read back, the rows are the
    collected records, each one once, in another order; and the rows are
    in order as they stand in the table: any row reads back as a record
    that comes before the records of the rows after it, by owner and, for
    one owner, by timestamp.  This holds of the finalization of any
    collection and so of a whole run. *)
Theorem written_rows_sorted :
  forall (float : Type) (msgs : list message) (all_data : list (point float))
         (users : nat) (out : str),
    all_data <> [] ->
    (exists rows : list (list (cell float)),
        written (finalize msgs all_data users out)
        = Some (out,
                mk_csv [ txt "user_id"; txt "latitude"; txt "longitude";
                         txt "altitude"; txt "timestamp" ]
                       rows)
        /\ Permutation (map read_row rows) (map Some all_data)
        /\ length rows = length all_data
        /\ StronglySorted (@rows_in_order float) rows)
    /\ (forall py_float listing base_path verbose limit,
          collect py_float listing base_path verbose limit = all_data ->
          written (process_geolife_dataset py_float listing base_path out
                                           verbose limit)
          = written (finalize msgs all_data users out)).
Proof.
  intros float msgs all_data users out Hne. split.
  - exists (map (@csv_row float) (sort_values all_data)).
    split; [exact (finalize_written float msgs all_data users out Hne)|].
    split; [|split].
    + rewrite read_rows_of_records.
      apply Permutation_map, sort_values_perm.
    + rewrite length_map. apply Permutation_length, sort_values_perm.
    + apply rows_of_records_in_order, sort_values_in_order.
  - intros py_float listing base_path verbose limit Hc.
    destruct (process_finalize float py_float listing base_path out verbose limit)
      as (msgs' & users' & ->).
    rewrite Hc. rewrite !finalize_written by exact Hne. reflexivity.
Qed.

Lemma written_rows_sorted_witness :
  exists rows : list (list (cell decimal)),
    written
      (finalize []
         [ mk_point (txt "001") (mk_decimal 399 1) (mk_decimal 1163 1)
                    (mk_decimal 492 0) (mk_datetime 2008 10 23 2 53 4);
           mk_point (txt "000") (mk_decimal 400 1) (mk_decimal 1164 1)
                    (mk_decimal 492 0) (mk_datetime 2008 10 24 2 53 4);
           mk_point (txt "000") (mk_decimal 401 1) (mk_decimal 1165 1)
                    (mk_decimal 492 0) (mk_datetime 2008 10 23 2 53 4) ]
         2 (txt "geolife_trajectories_cleaned.csv"))
    = Some (txt "geolife_trajectories_cleaned.csv",
            mk_csv [ txt "user_id"; txt "latitude"; txt "longitude";
                     txt "altitude"; txt "timestamp" ]
                   rows)
    /\ rows
       = [ [ cell_text (txt "000"); cell_float (mk_decimal 401 1);
             cell_float (mk_decimal 1165 1); cell_float (mk_decimal 492 0);
             cell_datetime (mk_datetime 2008 10 23 2 53 4) ];
           [ cell_text (txt "000"); cell_float (mk_decimal 400 1);
             cell_float (mk_decimal 1164 1); cell_float (mk_decimal 492 0);
             cell_datetime (mk_datetime 2008 10 24 2 53 4) ];
           [ cell_text (txt "001"); cell_float (mk_decimal 399 1);
             cell_float (mk_decimal 1163 1); cell_float (mk_decimal 492 0);
             cell_datetime (mk_datetime 2008 10 23 2 53 4) ] ]
    /\ StronglySorted (@rows_in_order decimal) rows.
Proof.
  destruct (written_rows_sorted decimal []
    [ mk_point (txt "001") (mk_decimal 399 1) (mk_decimal 1163 1)
               (mk_decimal 492 0) (mk_datetime 2008 10 23 2 53 4);
      mk_point (txt "000") (mk_decimal 400 1) (mk_decimal 1164 1)
               (mk_decimal 492 0) (mk_datetime 2008 10 24 2 53 4);
      mk_point (txt "000") (mk_decimal 401 1) (mk_decimal 1165 1)
               (mk_decimal 492 0) (mk_datetime 2008 10 23 2 53 4) ]
    2 (txt "geolife_trajectories_cleaned.csv"))
    as [(rows & Hw & _ & _ & Hs) _].
  - discriminate.
  - exists rows. split; [exact Hw|]. split; [|exact Hs].
    vm_compute in Hw. injection Hw as <-. reflexivity.
Defined.

(** C5.  When [all_data] is not empty, a table is written whose rows read
    back as the collected records, and for any record, the rows of the
    table that tie with it on owner and timestamp, taken in the order of
    the table, read back as the collected records that tie with it, taken
    in the order of [all_data]: ties keep the order in which the traversal
    met them. *)
Theorem ties_keep_encounter_order :
  forall (float : Type) (msgs : list message) (all_data : list (point float))
         (users : nat) (out : str),
    all_data <> [] ->
    (forall p q : point float,
        ties_with p q = true
        <-> user_id q = user_id p /\ timestamp q = timestamp p)
    /\ (exists rows : list (list (cell float)),
           written (finalize msgs all_data users out)
           = Some (out,
                   mk_csv [ txt "user_id"; txt "latitude"; txt "longitude";
                            txt "altitude"; txt "timestamp" ]
                          rows)
           /\ Permutation (map read_row rows) (map Some all_data)
           /\ forall p,
                map read_row (filter (row_ties_with p) rows)
                = map Some (filter (ties_with p) all_data))
    /\ (forall py_float listing base_path verbose limit,
          collect py_float listing base_path verbose limit = all_data ->
          written (process_geolife_dataset py_float listing base_path out
                                           verbose limit)
          = written (finalize msgs all_data users out)).
Proof.
  intros float msgs all_data users out Hne. split; [|split].
  - intros p q. unfold ties_with. rewrite andb_true_iff.
    rewrite str_eqb_eq, datetime_eqb_eq. reflexivity.
  - exists (map (@csv_row float) (sort_values all_data)).
    split; [exact (finalize_written float msgs all_data users out Hne)|].
    split.
    + rewrite read_rows_of_records.
      apply Permutation_map, sort_values_perm.
    + intros p. rewrite rows_of_records_ties, read_rows_of_records.
      f_equal. apply sort_values_ties.
  - intros py_float listing base_path verbose limit Hc.
    destruct (process_finalize float py_float listing base_path out verbose limit)
      as (msgs' & users' & ->).
    rewrite Hc. rewrite !finalize_written by exact Hne. reflexivity.
Qed.

Lemma ties_keep_encounter_order_witness :
  exists rows : list (list (cell decimal)),
    written
      (finalize []
         [ mk_point (txt "001") (mk_decimal 399 1) (mk_decimal 1163 1)
                    (mk_decimal 492 0) (mk_datetime 2008 10 23 2 53 4);
           mk_point (txt "000") (mk_decimal 401 1) (mk_decimal 1165 1)
                    (mk_decimal 500 0) (mk_datetime 2008 10 23 2 53 4);
           mk_point (txt "000") (mk_decimal 400 1) (mk_decimal 1164 1)
                    (mk_decimal 492 0) (mk_datetime 2008 10 23 2 53 4) ]
         2 (txt "geolife_trajectories_cleaned.csv"))
    = Some (txt "geolife_trajectories_cleaned.csv",
            mk_csv [ txt "user_id"; txt "latitude"; txt "longitude";
                     txt "altitude"; txt "timestamp" ]
                   rows)
    /\ rows
       = [ [ cell_text (txt "000"); cell_float (mk_decimal 401 1);
             cell_float (mk_decimal 1165 1); cell_float (mk_decimal 500 0);
             cell_datetime (mk_datetime 2008 10 23 2 53 4) ];
           [ cell_text (txt "000"); cell_float (mk_decimal 400 1);
             cell_float (mk_decimal 1164 1); cell_float (mk_decimal 492 0);
             cell_datetime (mk_datetime 2008 10 23 2 53 4) ];
           [ cell_text (txt "001"); cell_float (mk_decimal 399 1);
             cell_float (mk_decimal 1163 1); cell_float (mk_decimal 492 0);
             cell_datetime (mk_datetime 2008 10 23 2 53 4) ] ]
    /\ map read_row
         (filter
            (row_ties_with
               (mk_point (txt "000") (mk_decimal 400 1) (mk_decimal 1164 1)
                         (mk_decimal 492 0) (mk_datetime 2008 10 23 2 53 4)))
            rows)
       = [ Some (mk_point (txt "000") (mk_decimal 401 1) (mk_decimal 1165 1)
                          (mk_decimal 500 0) (mk_datetime 2008 10 23 2 53 4));
           Some (mk_point (txt "000") (mk_decimal 400 1) (mk_decimal 1164 1)
                          (mk_decimal 492 0) (mk_datetime 2008 10 23 2 53 4)) ].
Proof.
  destruct (ties_keep_encounter_order decimal []
    [ mk_point (txt "001") (mk_decimal 399 1) (mk_decimal 1163 1)
               (mk_decimal 492 0) (mk_datetime 2008 10 23 2 53 4);
      mk_point (txt "000") (mk_decimal 401 1) (mk_decimal 1165 1)
               (mk_decimal 500 0) (mk_datetime 2008 10 23 2 53 4);
      mk_point (txt "000") (mk_decimal 400 1) (mk_decimal 1164 1)
               (mk_decimal 492 0) (mk_datetime 2008 10 23 2 53 4) ]
    2 (txt "geolife_trajectories_cleaned.csv"))
    as (_ & (rows & Hw & _ & Ht) & _).
  - discriminate.
  - exists rows. split; [exact Hw|]. split.
    + vm_compute in Hw. injection Hw as <-. reflexivity.
    + rewrite Ht. reflexivity.
Defined.

(** The run of the table on three records, two of them tied. *)
Example sort_values_example :
  map (@latitude decimal)
    (sort_values
       [ mk_point (txt "001") (mk_decimal 399 1) (mk_decimal 1163 1)
                  (mk_decimal 492 0) (mk_datetime 2008 10 23 2 53 4);
         mk_point (txt "000") (mk_decimal 400 1) (mk_decimal 1164 1)
                  (mk_decimal 492 0) (mk_datetime 2008 10 23 2 53 4);
         mk_point (txt "000") (mk_decimal 401 1) (mk_decimal 1165 1)
                  (mk_decimal 500 0) (mk_datetime 2008 10 23 2 53 4);
         mk_point (txt "000") (mk_decimal 402 1) (mk_decimal 1165 1)
                  (mk_decimal 500 0) (mk_datetime 2008 10 22 2 53 4) ])
  = [ mk_decimal 402 1; mk_decimal 400 1; mk_decimal 401 1; mk_decimal 399 1 ].
Proof. vm_compute. reflexivity. Qed.

(* ================================================================= *)
(** ** Rendered instants *)

Ltac div_lia := zify; Z.to_euclidean_division_equations; lia.

(** A property of the numbers below [k], checked one number at a time. *)
Lemma N_below (P : N -> Prop) (k : nat) :
  Forall P (map N.of_nat (seq 0 k)) -> forall n, (n < N.of_nat k)%N -> P n.
Proof.
  intros H n Hn. rewrite Forall_forall in H. apply H.
  apply in_map_iff. exists (N.to_nat n). split; [lia|].
  apply in_seq. lia.
Qed.

Ltac each_below k tac :=
  match goal with
  | |- forall n : N, (n < _)%N -> @?P n => apply (N_below P k)
  end;
  cbv [map seq N.of_nat Pos.of_succ_nat Pos.succ];
  repeat (apply Forall_cons; [once tac|]); apply Forall_nil.

Lemma digit_val_digit a : (a < 10)%N -> digit_val (digit a) = Some a.
Proof.
  revert a. each_below 10 ltac:(vm_compute; reflexivity).
Qed.

Lemma digit_not_space a : (a < 10)%N -> isspace (digit a) = false.
Proof.
  revert a. each_below 10 ltac:(vm_compute; reflexivity).
Qed.

Lemma digit_not_separator a c :
  (a < 10)%N -> In c ["-"; "/"; ":"]%char ->
  Ascii.eqb (lower (digit a)) (lower c) = false.
Proof.
  intros Ha Hc. revert a Ha.
  destruct Hc as [<-|[<-|[<-|[]]]];
    each_below 10 ltac:(vm_compute; reflexivity).
Qed.

Lemma four_digits_pad4 y r :
  (y <= 9999)%N -> four_digits (pad4 y ++ r) = [(y, r)].
Proof.
  intros Hy. unfold pad4, four_digits. cbn [app].
  rewrite !digit_val_digit by div_lia.
  f_equal. f_equal. div_lia.
Qed.

(** A zero-padded number in the range of its directive is read whole by
    the first alternative that applies; the alternatives after it stop
    after its first digit. *)
Lemma dir_alts_pad2 D n r :
  D <> dY -> in_range D n ->
  dir_alts D (pad2 n ++ r) = (n, r) :: tl (dir_alts D (pad2 n ++ r))
  /\ Forall (fun alt => snd alt = digit (n mod 10) :: r)
            (tl (dir_alts D (pad2 n ++ r))).
Proof.
  intros HD Hn.
  assert (Hlt : (n < 60)%N) by (destruct D; simpl in Hn; try lia; congruence).
  revert n Hlt Hn r.
  destruct D; [congruence | ..];
    each_below 60
      ltac:(intros Hn r;
            first [ simpl in Hn; lia
                  | split; [vm_compute; reflexivity
                           | vm_compute;
                             repeat (apply Forall_cons; [reflexivity|]);
                             apply Forall_nil] ]).
Qed.

(** After two digits, every alternative of a two-digit directive stops
    after the first digit or after the second. *)
Lemma dir_alts_two_digits D a b r :
  D <> dY -> (a < 10)%N -> (b < 10)%N ->
  Forall (fun alt => snd alt = r \/ snd alt = digit b :: r)
         (dir_alts D (digit a :: digit b :: r)).
Proof.
  intros HD Ha Hb. revert b Hb r. revert a Ha.
  destruct D; [congruence | ..];
    each_below 10
      ltac:(each_below 10
              ltac:(intros r; vm_compute;
                    repeat (apply Forall_cons;
                            [first [left; reflexivity | right; reflexivity]|]);
                    apply Forall_nil)).
Qed.

Lemma first_match_none A B (k : A -> option B) l :
  Forall (fun a => k a = None) l -> first_match k l = None.
Proof. induction 1 as [|a l Ha _ IH]; simpl; [|rewrite Ha]; auto. Qed.

Lemma first_match_head A B (k : A -> option B) a l :
  Forall (fun a' => k a' = None) l -> first_match k (a :: l) = k a.
Proof.
  intros H. simpl. rewrite (first_match_none _ _ k l H).
  destruct (k a); reflexivity.
Qed.

Lemma re_match_lit c items r : re_match (Lit c :: items) (c :: r) = re_match items r.
Proof. simpl. rewrite Ascii.eqb_refl. reflexivity. Qed.

Lemma re_match_lit_digit c items a r :
  (a < 10)%N -> In c ["-"; "/"; ":"]%char ->
  re_match (Lit c :: items) (digit a :: r) = None.
Proof. intros Ha Hc. simpl. rewrite digit_not_separator; auto. Qed.

Lemma re_match_spaces_digit items a r :
  (a < 10)%N -> re_match (Spaces :: items) (digit a :: r) = None.
Proof. intros Ha. simpl. rewrite digit_not_space; auto. Qed.

(** One blank before a digit is the whole run of whitespace. *)
Lemma re_match_one_space items a r :
  (a < 10)%N ->
  re_match (Spaces :: items) (" "%char :: digit a :: r)
  = re_match items (digit a :: r).
Proof.
  intros Ha. cbn [re_match space_alts].
  change (isspace " ") with true. cbv iota.
  rewrite digit_not_space by exact Ha. cbn [app first_match].
  destruct (re_match items (digit a :: r)); reflexivity.
Qed.

Lemma re_match_year y items r :
  (y <= 9999)%N ->
  re_match (Dir dY :: items) (pad4 y ++ r) = capture dY y (re_match items r).
Proof.
  intros Hy. cbn [re_match dir_alts]. rewrite four_digits_pad4 by exact Hy.
  cbn [first_match fst snd]. destruct (capture dY y (re_match items r)); reflexivity.
Qed.

(** A padded field followed by its separator. *)
Lemma re_match_field_lit D n c items r :
  D <> dY -> in_range D n -> In c ["-"; "/"; ":"]%char ->
  re_match (Dir D :: Lit c :: items) (pad2 n ++ c :: r)
  = capture D n (re_match items r).
Proof.
  intros HD Hn Hc. cbn [re_match].
  destruct (dir_alts_pad2 D n (c :: r) HD Hn) as [-> Htail].
  rewrite first_match_head.
  - cbn [fst snd]. rewrite Ascii.eqb_refl. reflexivity.
  - eapply Forall_impl; [|exact Htail]. intros [v s'] Halt. cbn [fst snd] in Halt |- *.
    subst s'. cbn [re_match].
    rewrite digit_not_separator; [reflexivity | div_lia | exact Hc].
Qed.

(** A padded field followed by one blank and another padded field. *)
Lemma re_match_field_space D n items k r :
  D <> dY -> in_range D n -> (k <= 99)%N ->
  re_match (Dir D :: Spaces :: items) (pad2 n ++ " "%char :: pad2 k ++ r)
  = capture D n (re_match items (pad2 k ++ r)).
Proof.
  intros HD Hn Hk.
  change (re_match (Dir D :: Spaces :: items)
                   (pad2 n ++ " "%char :: pad2 k ++ r))
    with (first_match
            (fun alt => capture D (fst alt) (re_match (Spaces :: items) (snd alt)))
            (dir_alts D (pad2 n ++ " "%char :: pad2 k ++ r))).
  destruct (dir_alts_pad2 D n (" "%char :: pad2 k ++ r) HD Hn) as [-> Htail].
  rewrite first_match_head.
  - cbn [fst snd]. unfold pad2 at 1. cbn [app].
    rewrite re_match_one_space by div_lia. reflexivity.
  - eapply Forall_impl; [|exact Htail]. intros [v s'] Halt.
    cbn [fst snd] in Halt |- *. subst s'.
    rewrite re_match_spaces_digit; [reflexivity | div_lia].
Qed.

Lemma re_match_space_field items k r :
  (k <= 99)%N ->
  re_match (Spaces :: items) (" "%char :: pad2 k ++ r)
  = re_match items (pad2 k ++ r).
Proof. intros Hk. apply re_match_one_space. div_lia. Qed.

(** A padded field at the end of the format and of the text. *)
Lemma re_match_field_end D n :
  D <> dY -> in_range D n ->
  re_match [Dir D] (pad2 n) = Some ([(D, n)], []).
Proof.
  intros HD Hn. cbn [re_match].
  destruct (dir_alts_pad2 D n [] HD Hn) as [E _].
  rewrite app_nil_r in E. rewrite E. reflexivity.
Qed.

(** Two digits at the end of the text, where the format goes on with a
    separator. *)
Lemma re_match_field_lit_missing D n c items :
  D <> dY -> (n <= 99)%N -> In c ["-"; "/"; ":"]%char ->
  re_match (Dir D :: Lit c :: items) (pad2 n) = None.
Proof.
  intros HD Hn Hc. cbn [re_match]. apply first_match_none.
  eapply Forall_impl;
    [|apply (dir_alts_two_digits D (n / 10) (n mod 10) [] HD); div_lia].
  intros [v s'] Halt; cbn [fst snd] in Halt |- *;
    destruct Halt as [Halt | Halt]; subst s'; cbn [re_match];
    [reflexivity|].
  rewrite digit_not_separator; [reflexivity | div_lia | exact Hc].
Qed.

(** The digits of a year where the format has a two-digit field and a
    separator. *)
Lemma re_match_field_lit_year D y sep items r :
  D <> dY -> (y <= 9999)%N -> In sep ["-"; "/"; ":"]%char ->
  re_match (Dir D :: Lit sep :: items) (pad4 y ++ r) = None.
Proof.
  intros HD Hy Hsep. cbn [re_match]. apply first_match_none.
  eapply Forall_impl;
    [|apply (dir_alts_two_digits D (y / 1000) (y / 100 mod 10)
               (digit (y / 10 mod 10) :: digit (y mod 10) :: r) HD); div_lia].
  intros [v s'] Halt; cbn [fst snd] in Halt |- *;
    destruct Halt as [Halt | Halt]; subst s'; cbn [re_match];
    (rewrite digit_not_separator; [reflexivity | div_lia | exact Hsep]).
Qed.

(** Two digits and a dash where the format has the four digits of a
    year. *)
Lemma re_match_year_short n items r :
  (n <= 99)%N ->
  re_match (Dir dY :: items) (pad2 n ++ "-"%char :: r) = None.
Proof.
  intros Hn. cbn [re_match dir_alts]. unfold four_digits, pad2. cbn [app].
  destruct r as [|c4 r]; [reflexivity|].
  rewrite !digit_val_digit by div_lia.
  change (digit_val "-") with (@None N). reflexivity.
Qed.

Lemma days_in_month_max y m : (days_in_month y m <= 31)%N.
Proof.
  unfold days_in_month.
  repeat match goal with
         | |- context [match ?p with _ => _ end] => destruct p
         end; lia.
Qed.

Lemma datetime_new_valid t :
  valid_instant t ->
  datetime_new (year t) (month t) (day t) (hour t) (minute t) (second t)
  = Ok t.
Proof.
  intros (Hy & Hm & Hd & HH & HM & HS). unfold datetime_new.
  assert (E1 : ((1 <=? year t) && (year t <=? 9999))%N = true)
    by (apply andb_true_intro; split; apply N.leb_le; lia).
  assert (E2 : ((1 <=? month t) && (month t <=? 12))%N = true)
    by (apply andb_true_intro; split; apply N.leb_le; lia).
  assert (E3 : ((1 <=? day t)
                && (day t <=? days_in_month (year t) (month t)))%N = true)
    by (apply andb_true_intro; split; apply N.leb_le; lia).
  rewrite E1, E2, E3.
  rewrite (proj2 (N.leb_le _ _) HH), (proj2 (N.leb_le _ _) HM),
    (proj2 (N.leb_le _ _) HS).
  simpl. destruct t; reflexivity.
Qed.

Lemma valid_in_range t :
  valid_instant t ->
  in_range dY (year t) /\ in_range dm (month t) /\ in_range dd (day t)
  /\ in_range dH (hour t) /\ in_range dM (minute t) /\ in_range dS (second t).
Proof.
  intros (Hy & Hm & Hd & HH & HM & HS).
  pose proof (days_in_month_max (year t) (month t)).
  simpl. repeat split; lia.
Qed.

Lemma compile_candidates :
  map compile candidates
  = [ Some [Dir dY; Lit "-"; Dir dm; Lit "-"; Dir dd; Spaces;
            Dir dH; Lit ":"; Dir dM; Lit ":"; Dir dS];
      Some [Dir dY; Lit "/"; Dir dm; Lit "/"; Dir dd; Spaces;
            Dir dH; Lit ":"; Dir dM; Lit ":"; Dir dS];
      Some [Dir dd; Lit "-"; Dir dm; Lit "-"; Dir dY; Spaces;
            Dir dH; Lit ":"; Dir dM; Lit ":"; Dir dS];
      Some [Dir dY; Lit "-"; Dir dm; Lit "-"; Dir dd; Spaces;
            Dir dH; Lit ":"; Dir dM] ]%char.
Proof. reflexivity. Qed.

Lemma joined_ymd_dash t :
  joined ymd_dash t
  = pad4 (year t) ++ "-"%char :: pad2 (month t) ++ "-"%char :: pad2 (day t)
    ++ " "%char :: pad2 (hour t) ++ ":"%char :: pad2 (minute t)
    ++ ":"%char :: pad2 (second t).
Proof. reflexivity. Qed.

Lemma joined_ymd_slash t :
  joined ymd_slash t
  = pad4 (year t) ++ "/"%char :: pad2 (month t) ++ "/"%char :: pad2 (day t)
    ++ " "%char :: pad2 (hour t) ++ ":"%char :: pad2 (minute t)
    ++ ":"%char :: pad2 (second t).
Proof. reflexivity. Qed.

Lemma joined_dmy_dash t :
  joined dmy_dash t
  = pad2 (day t) ++ "-"%char :: pad2 (month t) ++ "-"%char :: pad4 (year t)
    ++ " "%char :: pad2 (hour t) ++ ":"%char :: pad2 (minute t)
    ++ ":"%char :: pad2 (second t).
Proof. reflexivity. Qed.

Lemma joined_ymd_dash_hm t :
  joined ymd_dash_hm t
  = pad4 (year t) ++ "-"%char :: pad2 (month t) ++ "-"%char :: pad2 (day t)
    ++ " "%char :: pad2 (hour t) ++ ":"%char :: pad2 (minute t).
Proof. reflexivity. Qed.

Lemma re_match_lit_other c c' items r :
  Ascii.eqb (lower c') (lower c) = false ->
  re_match (Lit c :: items) (c' :: r) = None.
Proof. intros E. simpl. rewrite E. reflexivity. Qed.

Ltac side :=
  first [ discriminate | assumption | reflexivity
        | simpl; tauto | simpl in *; lia ].

Section Rendered.

Variable t : datetime.
Hypothesis V : valid_instant t.

Let fmt1 := Eval cbv in txt "%Y-%m-%d %H:%M:%S".
Let fmt2 := Eval cbv in txt "%Y/%m/%d %H:%M:%S".
Let fmt3 := Eval cbv in txt "%d-%m-%Y %H:%M:%S".
Let fmt4 := Eval cbv in txt "%Y-%m-%d %H:%M".

Lemma strptime_ymd_dash : strptime (joined ymd_dash t) fmt1 = Ok t.
Proof.
  destruct (valid_in_range t V) as (RY & Rm & Rd & RH & RM & RS).
  unfold strptime.
  change (compile fmt1) with (nth 0 (map compile candidates) None).
  rewrite compile_candidates. cbn [nth]. rewrite joined_ymd_dash.
  rewrite re_match_year by side. rewrite re_match_lit.
  rewrite re_match_field_lit by side.
  rewrite re_match_field_space by side.
  rewrite !re_match_field_lit by side.
  rewrite re_match_field_end by side.
  cbn [capture is_empty group directive_eqb].
  apply datetime_new_valid. exact V.
Qed.

Ltac compiled k :=
  unfold strptime;
  match goal with
  | |- context [compile ?f] =>
      change (compile f) with (nth k (map compile candidates) None)
  end;
  rewrite compile_candidates; cbn [nth].

Lemma strptime_ymd_slash_1 :
  exists e, strptime (joined ymd_slash t) fmt1 = Raise e.
Proof.
  destruct (valid_in_range t V) as (RY & Rm & Rd & RH & RM & RS).
  compiled 0. rewrite joined_ymd_slash.
  rewrite re_match_year by side. rewrite re_match_lit_other by reflexivity.
  cbn [capture]. eauto.
Qed.

Lemma strptime_ymd_slash_2 : strptime (joined ymd_slash t) fmt2 = Ok t.
Proof.
  destruct (valid_in_range t V) as (RY & Rm & Rd & RH & RM & RS).
  compiled 1. rewrite joined_ymd_slash.
  rewrite re_match_year by side. rewrite re_match_lit.
  rewrite re_match_field_lit by side.
  rewrite re_match_field_space by side.
  rewrite !re_match_field_lit by side.
  rewrite re_match_field_end by side.
  cbn [capture is_empty group directive_eqb].
  apply datetime_new_valid. exact V.
Qed.

Lemma strptime_dmy_dash_1 :
  exists e, strptime (joined dmy_dash t) fmt1 = Raise e.
Proof.
  destruct (valid_in_range t V) as (RY & Rm & Rd & RH & RM & RS).
  compiled 0. rewrite joined_dmy_dash.
  rewrite re_match_year_short by side. eauto.
Qed.

Lemma strptime_dmy_dash_2 :
  exists e, strptime (joined dmy_dash t) fmt2 = Raise e.
Proof.
  destruct (valid_in_range t V) as (RY & Rm & Rd & RH & RM & RS).
  compiled 1. rewrite joined_dmy_dash.
  rewrite re_match_year_short by side. eauto.
Qed.

Lemma strptime_dmy_dash_3 : strptime (joined dmy_dash t) fmt3 = Ok t.
Proof.
  destruct (valid_in_range t V) as (RY & Rm & Rd & RH & RM & RS).
  compiled 2. rewrite joined_dmy_dash.
  rewrite !re_match_field_lit by side.
  rewrite re_match_year by side.
  rewrite re_match_space_field by side.
  rewrite !re_match_field_lit by side.
  rewrite re_match_field_end by side.
  cbn [capture is_empty group directive_eqb].
  apply datetime_new_valid. exact V.
Qed.

Lemma strptime_ymd_dash_hm_1 :
  exists e, strptime (joined ymd_dash_hm t) fmt1 = Raise e.
Proof.
  destruct (valid_in_range t V) as (RY & Rm & Rd & RH & RM & RS).
  compiled 0. rewrite joined_ymd_dash_hm.
  rewrite re_match_year by side. rewrite re_match_lit.
  rewrite re_match_field_lit by side.
  rewrite re_match_field_space by side.
  rewrite re_match_field_lit by side.
  rewrite re_match_field_lit_missing by side.
  cbn [capture]. eauto.
Qed.

Lemma strptime_ymd_dash_hm_2 :
  exists e, strptime (joined ymd_dash_hm t) fmt2 = Raise e.
Proof.
  destruct (valid_in_range t V) as (RY & Rm & Rd & RH & RM & RS).
  compiled 1. rewrite joined_ymd_dash_hm.
  rewrite re_match_year by side. rewrite re_match_lit_other by reflexivity.
  cbn [capture]. eauto.
Qed.

Lemma strptime_ymd_dash_hm_3 :
  exists e, strptime (joined ymd_dash_hm t) fmt3 = Raise e.
Proof.
  destruct (valid_in_range t V) as (RY & Rm & Rd & RH & RM & RS).
  compiled 2. rewrite joined_ymd_dash_hm.
  rewrite re_match_field_lit_year by side. eauto.
Qed.

Lemma valid_on_the_minute : valid_instant (on_the_minute t).
Proof.
  destruct V as (Hy & Hm & Hd & HH & HM & HS).
  unfold valid_instant, on_the_minute. simpl. repeat split; lia.
Qed.

Lemma strptime_ymd_dash_hm_4 :
  strptime (joined ymd_dash_hm t) fmt4 = Ok (on_the_minute t).
Proof.
  destruct (valid_in_range t V) as (RY & Rm & Rd & RH & RM & RS).
  compiled 3. rewrite joined_ymd_dash_hm.
  rewrite re_match_year by side. rewrite re_match_lit.
  rewrite re_match_field_lit by side.
  rewrite re_match_field_space by side.
  rewrite re_match_field_lit by side.
  rewrite re_match_field_end by side.
  cbn [capture is_empty group directive_eqb].
  apply (datetime_new_valid (on_the_minute t)). exact valid_on_the_minute.
Qed.

(** What each layout parses to. *)
Lemma parse_rendered_result (l : layout) :
  parse_rendered l t
  = Ok (match l with ymd_dash_hm => on_the_minute t | _ => t end).
Proof.
  unfold parse_rendered, try_parse_datetime.
  change (fst (render l t) ++ txt " " ++ snd (render l t)) with (joined l t).
  change candidates with [fmt1; fmt2; fmt3; fmt4]. cbn [try_formats].
  destruct l.
  - rewrite strptime_ymd_dash. reflexivity.
  - destruct strptime_ymd_slash_1 as [e ->]. cbn [try_except].
    rewrite strptime_ymd_slash_2. reflexivity.
  - destruct strptime_dmy_dash_1 as [e1 ->]. cbn [try_except].
    destruct strptime_dmy_dash_2 as [e2 ->]. cbn [try_except].
    rewrite strptime_dmy_dash_3. reflexivity.
  - destruct strptime_ymd_dash_hm_1 as [e1 ->]. cbn [try_except].
    destruct strptime_ymd_dash_hm_2 as [e2 ->]. cbn [try_except].
    destruct strptime_ymd_dash_hm_3 as [e3 ->]. cbn [try_except].
    rewrite strptime_ymd_dash_hm_4. reflexivity.
Qed.

End Rendered.

(** C6, as stated, fails on an instant whose seconds are not 0: written
    without its seconds in the fourth layout, 2008-10-23 02:53:04 is read
    as 02:53:00, while the first layout gives 02:53:04 back. *)
Lemma layouts_disagree_on_seconds :
  parse_rendered ymd_dash (mk_datetime 2008 10 23 2 53 4)
  = Ok (mk_datetime 2008 10 23 2 53 4)
  /\ parse_rendered ymd_dash_hm (mk_datetime 2008 10 23 2 53 4)
     = Ok (mk_datetime 2008 10 23 2 53 0)
  /\ ~ (forall t, valid_instant t ->
                  forall l l', parse_rendered l t = parse_rendered l' t).
Proof.
  split; [vm_compute; reflexivity|]. split; [vm_compute; reflexivity|].
  intros H.
  specialize (H (mk_datetime 2008 10 23 2 53 4)).
  assert (Hv : valid_instant (mk_datetime 2008 10 23 2 53 4))
    by (unfold valid_instant; simpl; lia).
  specialize (H Hv ymd_dash ymd_dash_hm).
  vm_compute in H. discriminate.
Qed.

(** C6, amended.  A valid calendar instant written zero-padded in one of
    the three layouts that have seconds, year-month-day with dashes, with
    slashes, or day-month-year with dashes, is read back as that instant;
    written in the layout without seconds it is read back as that instant
    with its seconds set to 0.  So the four layouts give the identical
    instant when the seconds of the instant are 0. *)
Theorem layouts_agree_up_to_seconds :
  forall t : datetime,
    valid_instant t ->
    parse_rendered ymd_dash t = Ok t
    /\ parse_rendered ymd_slash t = Ok t
    /\ parse_rendered dmy_dash t = Ok t
    /\ parse_rendered ymd_dash_hm t = Ok (on_the_minute t)
    /\ (second t = 0%N ->
        forall l l', parse_rendered l t = parse_rendered l' t).
Proof.
  intros t V.
  repeat split; try (rewrite (parse_rendered_result t V); reflexivity).
  intros Hs l l'. rewrite !(parse_rendered_result t V).
  assert (E : on_the_minute t = t).
  { unfold on_the_minute. rewrite <- Hs. destruct t; reflexivity. }
  destruct l, l'; rewrite ?E; reflexivity.
Qed.

Lemma layouts_agree_up_to_seconds_witness :
  parse_rendered dmy_dash (mk_datetime 2008 10 23 2 53 4)
  = Ok (mk_datetime 2008 10 23 2 53 4).
Proof.
  destruct (layouts_agree_up_to_seconds (mk_datetime 2008 10 23 2 53 4))
    as (_ & _ & H & _).
  - unfold valid_instant. simpl. lia.
  - exact H.
Defined.

(** A few texts and what [try_parse_datetime] makes of them. *)
Example try_parse_datetime_dashes :
  try_parse_datetime (txt "2008-10-23") (txt "02:53:04")
  = Ok (mk_datetime 2008 10 23 2 53 4).
Proof. vm_compute. reflexivity. Qed.

Example try_parse_datetime_day_first :
  try_parse_datetime (txt "23-10-2008") (txt "02:53:04")
  = Ok (mk_datetime 2008 10 23 2 53 4).
Proof. vm_compute. reflexivity. Qed.

Example try_parse_datetime_no_such_day :
  try_parse_datetime (txt "2008-2-30") (txt "02:53")
  = Raise (ValueError (unknown_datetime_format (txt "2008-2-30 02:53"))).
Proof. vm_compute. reflexivity. Qed.

Example try_parse_datetime_unpadded :
  try_parse_datetime (txt "2008-2-9") (txt "2:5")
  = Ok (mk_datetime 2008 2 9 2 5 0).
Proof. vm_compute. reflexivity. Qed.

(* ================================================================= *)
(** * Further properties *)

(** ** Lines with six fields or more *)

Section LongLines.

Variable float : Type.
Variable py_float : str -> option float.

(** The altitude of a line with more than three fields. *)
Lemma extract_altitude_long parts :
  3 < length parts ->
  extract_altitude py_float parts
  = match py_float (nth 3 parts []) with
    | Some a => Ok a
    | None => float_of py_float (nth (length parts - 3) parts [])
    end.
Proof.
  intros Hlen. unfold extract_altitude.
  apply Nat.ltb_lt in Hlen as Hlt. rewrite Hlt.
  rewrite (py_index_front _ parts 3 3%Z []); [|reflexivity|lia].
  rewrite (py_index_back _ parts 3 (-3)%Z []); [|reflexivity|lia].
  simpl. unfold float_of at 1.
  destruct (py_float (nth 3 parts [])); reflexivity.
Qed.

(** The extraction of a line with six fields or more, position by
    position. *)
Lemma extract_long parts uid :
  6 <= length parts ->
  extract py_float parts uid
  = (lat <- float_of py_float (nth 0 parts []) ;;
     lon <- float_of py_float (nth 1 parts []) ;;
     alt <- match py_float (nth 3 parts []) with
            | Some a => Ok a
            | None => float_of py_float (nth (length parts - 3) parts [])
            end ;;
     ts <- try_parse_datetime (nth (length parts - 2) parts [])
                              (nth (length parts - 1) parts []) ;;
     Ok (mk_point uid lat lon alt ts)).
Proof.
  intros Hlen. unfold extract.
  rewrite (py_index_front _ parts 0 0%Z []); [|reflexivity|lia].
  rewrite (py_index_front _ parts 1 1%Z []); [|reflexivity|lia].
  rewrite (py_index_back _ parts 2 (-2)%Z []); [|reflexivity|lia].
  rewrite (py_index_back _ parts 1 (-1)%Z []); [|reflexivity|lia].
  rewrite extract_altitude_long by lia. reflexivity.
Qed.

Lemma parse_line_long line uid :
  6 <= length (split_fields (strip line)) ->
  parse_line py_float line uid
  = try_except_ValueError
      (p <- extract py_float (split_fields (strip line)) uid ;;
       Ok (PointRecord p))
      (fun ve => Ok (Skip (value_error_raised (strip line) ve))).
Proof.
  intros Hlen. unfold parse_line.
  destruct (strip line) as [|c r] eqn:E.
  - simpl in Hlen. lia.
  - simpl is_empty. cbv iota.
    assert (Hge : (length (split_fields (c :: r)) <? 6) = false)
      by (apply Nat.ltb_ge; lia).
    rewrite Hge. reflexivity.
Qed.

End LongLines.

Lemma parse_line_point_iff float (py_float : str -> option float)
  (line uid : str) (p : point float) :
  let parts := split_fields (strip line) in
  parse_line py_float line uid = Ok (PointRecord p)
  <-> (6 <= length parts
       /\ user_id p = uid
       /\ py_float (nth 0 parts []) = Some (latitude p)
       /\ py_float (nth 1 parts []) = Some (longitude p)
       /\ (py_float (nth 3 parts []) = Some (altitude p)
           \/ (py_float (nth 3 parts []) = None
               /\ py_float (nth (length parts - 3) parts [])
                  = Some (altitude p)))
       /\ try_parse_datetime (nth (length parts - 2) parts [])
                             (nth (length parts - 1) parts [])
          = Ok (timestamp p)).
Proof.
  intros parts. split.
  - intros H. apply parse_line_point_inv in H as (_ & Hlen & Hex).
    fold parts in Hlen, Hex. split; [exact Hlen|].
    rewrite extract_long in Hex by exact Hlen.
    bind_inv Hex. bind_inv Hex. bind_inv Hex. bind_inv Hex.
    injection Hex as <-. simpl.
    apply float_of_ok_inv in Hv, Hv0.
    repeat split; auto.
    destruct (py_float (nth 3 parts [])) as [a|].
    + left. congruence.
    + right. split; [reflexivity|]. apply float_of_ok_inv. exact Hv1.
  - intros (Hlen & Hu & Hlat & Hlon & Halt & Hts).
    rewrite parse_line_long by exact Hlen. fold parts.
    rewrite extract_long by exact Hlen.
    rewrite (float_of_some _ py_float _ _ Hlat). simpl.
    rewrite (float_of_some _ py_float _ _ Hlon). simpl.
    assert (E : match py_float (nth 3 parts []) with
                | Some a => Ok a
                | None => float_of py_float (nth (length parts - 3) parts [])
                end = Ok (altitude p)).
    { destruct Halt as [-> | [-> Hback]]; [reflexivity|].
      apply float_of_some. exact Hback. }
    rewrite E. simpl. rewrite Hts. simpl.
    subst uid. destruct p; reflexivity.
Qed.

(** X1.  A line is a point record exactly when it has six fields or
    more, its fields 0 and 1 are numbers, its field 3 is a number or else
    its third field from the end is, and its last two fields make a
    timestamp; the record then holds the owner given to the parser and
    these four values. *)
Theorem point_record_iff :
  forall (float : Type) (py_float : str -> option float)
         (line uid : str) (p : point float),
    let parts := split_fields (strip line) in
    parse_line py_float line uid = Ok (PointRecord p)
    <-> (6 <= length parts
         /\ user_id p = uid
         /\ py_float (nth 0 parts []) = Some (latitude p)
         /\ py_float (nth 1 parts []) = Some (longitude p)
         /\ (py_float (nth 3 parts []) = Some (altitude p)
             \/ (py_float (nth 3 parts []) = None
                 /\ py_float (nth (length parts - 3) parts [])
                    = Some (altitude p)))
         /\ try_parse_datetime (nth (length parts - 2) parts [])
                               (nth (length parts - 1) parts [])
            = Ok (timestamp p)).
Proof. exact parse_line_point_iff. Qed.

Lemma point_record_iff_witness :
  parse_line decimal_float
    (txt "39.984702,116.318417,0,492,39744.1201851852,2008-10-23,02:53:04")
    (txt "000")
  = Ok (PointRecord
          (mk_point (txt "000") (mk_decimal 39984702 6)
                    (mk_decimal 116318417 6) (mk_decimal 492 0)
                    (mk_datetime 2008 10 23 2 53 4))).
Proof.
  apply (point_record_iff decimal decimal_float).
  vm_compute. repeat split; auto.
Defined.

(** X2.  On a line with six fields or more, a field 0 that is not a
    number makes the line a skip carrying the failed conversion of that
    field, whatever the other fields hold; with a numeric field 0, a field
    1 that is not a number does the same for field 1.  No other field is
    tried in their place. *)
Theorem bad_coordinate_is_skipped :
  forall (float : Type) (py_float : str -> option float) (line uid : str),
    let raw := strip line in
    let parts := split_fields raw in
    6 <= length parts ->
    (py_float (nth 0 parts []) = None ->
     parse_line py_float line uid
     = Ok (Skip (value_error_raised raw
                   (could_not_convert_to_float (nth 0 parts [])))))
    /\ (forall lat,
          py_float (nth 0 parts []) = Some lat ->
          py_float (nth 1 parts []) = None ->
          parse_line py_float line uid
          = Ok (Skip (value_error_raised raw
                        (could_not_convert_to_float (nth 1 parts []))))).
Proof.
  intros float py_float line uid raw parts Hlen. split.
  - intros H0. rewrite parse_line_long by exact Hlen. fold raw parts.
    rewrite extract_long by exact Hlen.
    rewrite (float_of_none _ py_float _ H0). reflexivity.
  - intros lat H0 H1. rewrite parse_line_long by exact Hlen. fold raw parts.
    rewrite extract_long by exact Hlen.
    rewrite (float_of_some _ py_float _ _ H0). simpl.
    rewrite (float_of_none _ py_float _ H1). reflexivity.
Qed.

Lemma bad_coordinate_is_skipped_witness :
  parse_line decimal_float (txt "abc,1.0,0,10,2008-10-23,02:53:04") (txt "000")
  = Ok (Skip (value_error_raised
                (txt "abc,1.0,0,10,2008-10-23,02:53:04")
                (could_not_convert_to_float (txt "abc")))).
Proof.
  destruct (bad_coordinate_is_skipped decimal decimal_float
              (txt "abc,1.0,0,10,2008-10-23,02:53:04") (txt "000")) as [H _].
  - vm_compute. lia.
  - apply H. vm_compute. reflexivity.
Defined.

(** X3.  On a line with exactly six fields the third field from the end
    is field 3 itself, so the fallback reads the same text again: when
    field 3 is not a number the altitude fails with the conversion error
    of field 3, the line is never a point record, and with numeric
    coordinates it is a skip carrying that error. *)
Theorem six_fields_fallback_is_field_3 :
  forall (float : Type) (py_float : str -> option float) (line uid : str),
    let raw := strip line in
    let parts := split_fields raw in
    length parts = 6 ->
    py_float (nth 3 parts []) = None ->
    py_index parts (-3) = py_index parts 3
    /\ extract_altitude py_float parts
       = Raise (ValueError (could_not_convert_to_float (nth 3 parts [])))
    /\ (forall p, parse_line py_float line uid <> Ok (PointRecord p))
    /\ (forall lat lon,
          py_float (nth 0 parts []) = Some lat ->
          py_float (nth 1 parts []) = Some lon ->
          parse_line py_float line uid
          = Ok (Skip (value_error_raised raw
                        (could_not_convert_to_float (nth 3 parts []))))).
Proof.
  intros float py_float line uid raw parts Hlen H3.
  assert (Halt : extract_altitude py_float parts
                 = Raise (ValueError
                            (could_not_convert_to_float (nth 3 parts [])))).
  { rewrite extract_altitude_long by lia. rewrite H3, Hlen. simpl.
    apply float_of_none. exact H3. }
  split; [|split; [exact Halt | split]].
  - rewrite (py_index_front _ parts 3 3%Z []); [|reflexivity|lia].
    rewrite (py_index_back _ parts 3 (-3)%Z []); [|reflexivity|lia].
    rewrite Hlen. reflexivity.
  - intros p Hp. apply parse_line_point_iff in Hp.
    fold raw parts in Hp.
    destruct Hp as (_ & _ & _ & _ & [Hp | [_ Hp]] & _).
    + congruence.
    + rewrite Hlen in Hp. simpl in Hp. congruence.
  - intros lat lon H0 H1.
    rewrite parse_line_long by (fold raw parts; lia). fold raw parts.
    rewrite extract_long by lia.
    rewrite (float_of_some _ py_float _ _ H0). simpl.
    rewrite (float_of_some _ py_float _ _ H1). simpl.
    rewrite H3, Hlen. simpl.
    rewrite (float_of_none _ py_float _ H3). reflexivity.
Qed.

Lemma six_fields_fallback_is_field_3_witness :
  parse_line decimal_float
    (txt "39.9,116.3,0,n/a,2008-10-23,02:53:04") (txt "000")
  = Ok (Skip (value_error_raised
                (txt "39.9,116.3,0,n/a,2008-10-23,02:53:04")
                (could_not_convert_to_float (txt "n/a")))).
Proof.
  destruct (six_fields_fallback_is_field_3 decimal decimal_float
              (txt "39.9,116.3,0,n/a,2008-10-23,02:53:04") (txt "000"))
    as (_ & _ & _ & H).
  - vm_compute. reflexivity.
  - vm_compute. reflexivity.
  - apply (H (mk_decimal 399 1) (mk_decimal 1163 1)); vm_compute; reflexivity.
Defined.

(* ================================================================= *)
(** ** Trimming and splitting *)

Lemma lstrip_spaces_app ws t :
  forallb isspace ws = true -> lstrip (ws ++ t) = lstrip t.
Proof.
  induction ws as [|c ws IH]; simpl; [reflexivity|].
  intros H. apply andb_prop in H as [Hc Hws]. rewrite Hc. auto.
Qed.

Lemma lstrip_app s t :
  forallb isspace s = false -> lstrip (s ++ t) = lstrip s ++ t.
Proof.
  induction s as [|c s IH]; simpl; [discriminate|].
  destruct (isspace c); simpl; [exact IH | reflexivity].
Qed.

Lemma lstrip_spaces ws : forallb isspace ws = true -> lstrip ws = [].
Proof.
  intros H. rewrite <- (app_nil_r ws). rewrite lstrip_spaces_app by exact H.
  reflexivity.
Qed.

Lemma forallb_rev A (f : A -> bool) l : forallb f (rev l) = forallb f l.
Proof.
  destruct (forallb f l) eqn:E.
  - rewrite forallb_forall in *. intros x Hx. apply E. now apply in_rev.
  - destruct (forallb f (rev l)) eqn:E'; [|reflexivity].
    rewrite <- E. symmetry. rewrite forallb_forall in *.
    intros x Hx. apply E'. now apply in_rev in Hx.
Qed.

Lemma rstrip_app_spaces s ws :
  forallb isspace ws = true -> rstrip (s ++ ws) = rstrip s.
Proof.
  intros H. unfold rstrip. rewrite rev_app_distr.
  rewrite lstrip_spaces_app; [reflexivity|]. now rewrite forallb_rev.
Qed.

(** What [lstrip] leaves starts with a character that is not whitespace,
    and what it removes is whitespace. *)
Lemma lstrip_split s :
  exists ws, s = ws ++ lstrip s /\ forallb isspace ws = true
             /\ match lstrip s with
                | c :: _ => isspace c = false
                | [] => True
                end.
Proof.
  induction s as [|c s (ws & E & Hws & Hhd)]; simpl.
  - exists []. auto.
  - destruct (isspace c) eqn:Ec.
    + exists (c :: ws). simpl. rewrite Ec, Hws. repeat split; auto.
      now f_equal.
    + exists []. auto.
Qed.

Lemma lstrip_fixed s :
  match s with c :: _ => isspace c = false | [] => True end -> lstrip s = s.
Proof. destruct s as [|c s]; simpl; [reflexivity|]. now intros ->. Qed.

Lemma lstrip_idempotent s : lstrip (lstrip s) = lstrip s.
Proof.
  apply lstrip_fixed. destruct (lstrip_split s) as (_ & _ & _ & H). exact H.
Qed.

Lemma rstrip_split s :
  exists ws, s = rstrip s ++ ws /\ forallb isspace ws = true.
Proof.
  destruct (lstrip_split (rev s)) as (ws & E & Hws & _).
  exists (rev ws). split; [|now rewrite forallb_rev].
  unfold rstrip. rewrite <- rev_app_distr, <- E. now rewrite rev_involutive.
Qed.

Lemma rstrip_idempotent s : rstrip (rstrip s) = rstrip s.
Proof.
  unfold rstrip. rewrite rev_involutive, lstrip_idempotent. reflexivity.
Qed.

Lemma rstrip_keeps_head s :
  match s with c :: _ => isspace c = false | [] => True end ->
  match rstrip s with c :: _ => isspace c = false | [] => True end.
Proof.
  intros H. destruct (rstrip_split s) as (ws & E & _).
  destruct (rstrip s) as [|c r]; [exact I|].
  rewrite E in H. exact H.
Qed.

Lemma strip_head s :
  match strip s with c :: _ => isspace c = false | [] => True end.
Proof.
  unfold strip. apply rstrip_keeps_head.
  destruct (lstrip_split s) as (_ & _ & _ & H). exact H.
Qed.

Lemma strip_idempotent s : strip (strip s) = strip s.
Proof.
  unfold strip at 1. rewrite (lstrip_fixed _ (strip_head s)).
  unfold strip. apply rstrip_idempotent.
Qed.

(** Whitespace around a text does not change what [strip] gives. *)
Lemma strip_surrounded ws1 s ws2 :
  forallb isspace ws1 = true -> forallb isspace ws2 = true ->
  strip (ws1 ++ s ++ ws2) = strip s.
Proof.
  intros H1 H2. unfold strip. rewrite lstrip_spaces_app by exact H1.
  destruct (forallb isspace s) eqn:Es.
  - rewrite (lstrip_spaces s Es).
    rewrite lstrip_spaces; [reflexivity|].
    rewrite forallb_app, Es, H2. reflexivity.
  - rewrite lstrip_app by exact Es. apply rstrip_app_spaces. exact H2.
Qed.

Lemma last_rev A (l : list A) (d : A) : last (rev l) d = hd d l.
Proof.
  destruct l as [|x l]; [reflexivity|]. simpl. apply last_last.
Qed.

Lemma strip_trimmed s : trimmed (strip s).
Proof.
  pose proof (strip_head s) as Hhd. unfold trimmed.
  destruct (strip s) as [|c r] eqn:E; [exact I|]. split; [exact Hhd|].
  unfold strip, rstrip in E.
  destruct (lstrip_split (rev (lstrip s))) as (_ & _ & _ & Hlast).
  rewrite <- E. rewrite last_rev.
  destruct (lstrip (rev (lstrip s))) as [|c' r']; [discriminate|].
  exact Hlast.
Qed.

Lemma lstrip_incl s c : In c (lstrip s) -> In c s.
Proof.
  destruct (lstrip_split s) as (ws & E & _). intros H.
  rewrite E. apply in_or_app. now right.
Qed.

Lemma strip_incl s c : In c (strip s) -> In c s.
Proof.
  unfold strip, rstrip. intros H. apply in_rev in H.
  apply lstrip_incl in H. apply in_rev in H. now apply lstrip_incl.
Qed.

Lemma split_not_nil sep s : split sep s <> [].
Proof.
  destruct s as [|c s]; simpl; [discriminate|].
  destruct (Ascii.eqb c sep); [discriminate|].
  destruct (split sep s); discriminate.
Qed.

Lemma split_pieces sep s : Forall (fun p => ~ In sep p) (split sep s).
Proof.
  induction s as [|c s IH]; simpl.
  - constructor; [intros []|constructor].
  - destruct (Ascii.eqb_spec c sep) as [->|Hne].
    + constructor; [intros []|exact IH].
    + destruct (split sep s) as [|p ps]; [repeat constructor; intros [|[]]; auto|].
      inversion IH as [|? ? Hp Hps]; subst.
      constructor; [|exact Hps]. intros [H|H]; auto.
Qed.

(** Splitting a text at one of its separators. *)
Lemma split_app sep a b :
  split sep (a ++ sep :: b) = split sep a ++ split sep b.
Proof.
  induction a as [|c a IH]; simpl.
  - rewrite Ascii.eqb_refl. reflexivity.
  - destruct (Ascii.eqb c sep); [now rewrite IH|].
    rewrite IH. pose proof (split_not_nil sep a) as Hne.
    destruct (split sep a) as [|p ps]; [congruence | reflexivity].
Qed.

Lemma split_fields_app a b :
  split_fields (a ++ ","%char :: b) = split_fields a ++ split_fields b.
Proof.
  unfold split_fields. rewrite split_app, filter_app, map_app. reflexivity.
Qed.

Lemma split_no_sep sep s : ~ In sep s -> split sep s = [s].
Proof.
  induction s as [|c s IH]; simpl; [reflexivity|]. intros H.
  destruct (Ascii.eqb_spec c sep) as [->|_]; [exfalso; auto|].
  rewrite IH by auto. reflexivity.
Qed.

Lemma spaces_no_comma ws : forallb isspace ws = true -> ~ In ","%char ws.
Proof.
  intros H Hin. rewrite forallb_forall in H. specialize (H _ Hin).
  discriminate.
Qed.

Lemma strip_spaces ws : forallb isspace ws = true -> strip ws = [].
Proof. intros H. unfold strip. now rewrite lstrip_spaces. Qed.

Lemma split_fields_spaces ws : forallb isspace ws = true -> split_fields ws = [].
Proof.
  intros H. unfold split_fields.
  rewrite split_no_sep by now apply spaces_no_comma.
  simpl. rewrite (strip_spaces ws H). reflexivity.
Qed.

(** Whitespace after a text goes to its last piece. *)
Lemma split_app_spaces sep s ws :
  ~ In sep ws ->
  exists ps p, split sep s = ps ++ [p] /\ split sep (s ++ ws) = ps ++ [p ++ ws].
Proof.
  intros Hws. induction s as [|c s (ps & p & E & E')]; simpl.
  - exists [], []. split; [reflexivity|]. now apply split_no_sep.
  - destruct (Ascii.eqb c sep).
    + exists ([] :: ps), p. rewrite E, E'. auto.
    + rewrite E, E'. destruct ps as [|q ps]; simpl.
      * exists [], (c :: p). auto.
      * exists ((c :: q) :: ps), p. auto.
Qed.

Lemma split_fields_trailing_spaces s ws :
  forallb isspace ws = true -> split_fields (s ++ ws) = split_fields s.
Proof.
  intros H. unfold split_fields.
  destruct (split_app_spaces ","%char s ws (spaces_no_comma ws H))
    as (ps & p & -> & ->).
  rewrite !filter_app, !map_app. f_equal. simpl.
  assert (E : strip (p ++ ws) = strip p)
    by (apply (strip_surrounded [] p ws); auto).
  rewrite E. destruct (is_empty (strip p)); simpl; [reflexivity|].
  now rewrite E.
Qed.

(** X4.  Every field of a line is a piece of it between commas with the
    whitespace around it removed: it is not empty, it has no whitespace
    at either end (trimming it again changes nothing) and it holds no
    comma. *)
Theorem fields_are_clean :
  forall (raw f : str),
    In f (split_fields raw) ->
    f <> [] /\ strip f = f /\ trimmed f /\ ~ In ","%char f.
Proof.
  intros raw f H. unfold split_fields in H.
  apply in_map_iff in H as (p & <- & Hp).
  apply filter_In in Hp as [Hp Hne].
  repeat split.
  - intros E. rewrite E in Hne. discriminate.
  - apply strip_idempotent.
  - apply strip_trimmed.
  - intros Hc. apply strip_incl in Hc.
    pose proof (split_pieces ","%char raw) as Hall.
    rewrite Forall_forall in Hall. exact (Hall p Hp Hc).
Qed.

Lemma fields_are_clean_witness :
  ~ In ","%char (txt "116.3").
Proof.
  apply (fields_are_clean (txt " 39.9 ,, 116.3 ,") (txt "116.3")).
  vm_compute. auto.
Defined.

(** X5.  The fields of a text cut at a comma are the fields of the part
    before it followed by the fields of the part after it.  So a comma at
    the start or at the end adds no field, a doubled comma counts as one,
    and commas with only whitespace between them count as one;
    whitespace after the text adds nothing either. *)
Theorem commas_are_tolerated :
  forall (a b ws : str),
    forallb isspace ws = true ->
    split_fields (a ++ ","%char :: b) = split_fields a ++ split_fields b
    /\ split_fields (a ++ [","%char]) = split_fields a
    /\ split_fields (","%char :: b) = split_fields b
    /\ split_fields (a ++ ","%char :: ","%char :: b)
       = split_fields (a ++ ","%char :: b)
    /\ split_fields (a ++ ","%char :: ws ++ ","%char :: b)
       = split_fields (a ++ ","%char :: b)
    /\ split_fields (a ++ ws) = split_fields a.
Proof.
  intros a b ws Hws.
  assert (Hnil : split_fields [] = []) by reflexivity.
  assert (Hfront : forall t, split_fields (","%char :: t) = split_fields t)
    by (intros t; exact (split_fields_app [] t)).
  split; [apply split_fields_app|].
  split; [rewrite split_fields_app, Hnil, app_nil_r; reflexivity|].
  split; [apply Hfront|]. split; [|split].
  - rewrite (split_fields_app a (","%char :: b)), (split_fields_app a b).
    rewrite Hfront. reflexivity.
  - rewrite (split_fields_app a (ws ++ ","%char :: b)), (split_fields_app a b).
    rewrite (split_fields_app ws b), (split_fields_spaces ws Hws).
    reflexivity.
  - apply split_fields_trailing_spaces. exact Hws.
Qed.

Lemma commas_are_tolerated_witness :
  split_fields (txt "39.9,116.3" ++ ","%char :: txt "  " ++ ","%char :: txt "492")
  = split_fields (txt "39.9,116.3" ++ ","%char :: txt "492").
Proof.
  destruct (commas_are_tolerated (txt "39.9,116.3") (txt "492") (txt "  "))
    as (_ & _ & _ & _ & H & _).
  - reflexivity.
  - exact H.
Defined.

(** X6.  Whitespace before and after a line, its indentation and its
    newline, does not change what the line parser returns; in particular
    a line and its trimmed text are classified alike. *)
Theorem surrounding_whitespace_is_ignored :
  forall (float : Type) (py_float : str -> option float)
         (ws1 line ws2 uid : str),
    forallb isspace ws1 = true ->
    forallb isspace ws2 = true ->
    parse_line py_float (ws1 ++ line ++ ws2) uid = parse_line py_float line uid
    /\ parse_line py_float (strip line) uid = parse_line py_float line uid.
Proof.
  intros float py_float ws1 line ws2 uid H1 H2. unfold parse_line.
  rewrite strip_surrounded by assumption.
  rewrite strip_idempotent. auto.
Qed.

Lemma surrounding_whitespace_is_ignored_witness :
  parse_line decimal_float
    (txt "  " ++ txt "39.9,116.3,0,492,39744.1,2008-10-23,02:53:04"
         ++ ["013"; "010"]%char)
    (txt "000")
  = parse_line decimal_float
      (txt "39.9,116.3,0,492,39744.1,2008-10-23,02:53:04") (txt "000").
Proof.
  apply (surrounding_whitespace_is_ignored decimal decimal_float);
    reflexivity.
Defined.

(** X7.  The point record of a line depends on the line through its
    fields only: two lines with the same fields are the same point record
    or neither is one.  So a comma added at the end of a line changes
    nothing to its record. *)
Theorem record_depends_on_fields_only :
  forall (float : Type) (py_float : str -> option float)
         (line1 line2 uid : str) (p : point float),
    split_fields (strip line1) = split_fields (strip line2) ->
    (parse_line py_float line1 uid = Ok (PointRecord p)
     <-> parse_line py_float line2 uid = Ok (PointRecord p))
    /\ (parse_line py_float (line1 ++ [","%char]) uid = Ok (PointRecord p)
        <-> parse_line py_float line1 uid = Ok (PointRecord p)).
Proof.
  intros float py_float line1 line2 uid p Hsame.
  assert (Hdep : forall l l',
             split_fields (strip l) = split_fields (strip l') ->
             parse_line py_float l uid = Ok (PointRecord p)
             <-> parse_line py_float l' uid = Ok (PointRecord p)).
  { intros l l' E.
    rewrite (parse_line_point_iff float py_float l uid p).
    rewrite (parse_line_point_iff float py_float l' uid p).
    cbv zeta. rewrite E. reflexivity. }
  split; [apply Hdep; exact Hsame|].
  apply Hdep.
  assert (Hstrip : strip (line1 ++ [","%char]) = lstrip line1 ++ [","%char]).
  { unfold strip.
    assert (Hl : lstrip (line1 ++ [","%char]) = lstrip line1 ++ [","%char]).
    { destruct (forallb isspace line1) eqn:E.
      - rewrite lstrip_spaces_app by exact E.
        rewrite (lstrip_spaces line1 E). reflexivity.
      - apply lstrip_app. exact E. }
    rewrite Hl. unfold rstrip. rewrite rev_app_distr. simpl.
    rewrite rev_involutive. reflexivity. }
  rewrite Hstrip.
  rewrite split_fields_app.
  change (split_fields []) with (@nil str). rewrite app_nil_r.
  destruct (rstrip_split (lstrip line1)) as (ws & E & Hws).
  unfold strip. rewrite E at 1.
  apply split_fields_trailing_spaces. exact Hws.
Qed.

Lemma record_depends_on_fields_only_witness :
  parse_line decimal_float
    (txt "39.9,116.3,0,492,39744.1,2008-10-23,02:53:04" ++ [","%char])
    (txt "000")
  = Ok (PointRecord
          (mk_point (txt "000") (mk_decimal 399 1) (mk_decimal 1163 1)
                    (mk_decimal 492 0) (mk_datetime 2008 10 23 2 53 4))).
Proof.
  destruct (record_depends_on_fields_only decimal decimal_float
              (txt "39.9,116.3,0,492,39744.1,2008-10-23,02:53:04")
              (txt "39.9,116.3,0,492,39744.1,2008-10-23,02:53:04")
              (txt "000")
              (mk_point (txt "000") (mk_decimal 399 1) (mk_decimal 1163 1)
                        (mk_decimal 492 0) (mk_datetime 2008 10 23 2 53 4)))
    as [_ H].
  - reflexivity.
  - apply H. vm_compute. reflexivity.
Defined.

(* ================================================================= *)
(** ** What a file gives *)

Lemma sample_firstn (X : list bad_line) (b : bad_line) :
  sample (firstn 5 X) b = firstn 5 (X ++ [b]).
Proof.
  unfold sample. destruct (Nat.ltb_spec (length (firstn 5 X)) 5) as [H|H].
  - rewrite length_firstn in H.
    assert (HX : length X < 5) by lia.
    rewrite (firstn_all2 X) by lia.
    rewrite firstn_all2; [reflexivity|]. rewrite length_app. simpl. lia.
  - rewrite length_firstn in H.
    rewrite firstn_app.
    replace (5 - length X) with 0 by lia. simpl.
    now rewrite app_nil_r.
Qed.

Section FileContents.

Variable float : Type.
Variable py_float : str -> option float.
Variable uid : str.

(** One line: what it adds to the record list, what it offers to the
    sample, and what it does to the counters. *)
Lemma step_contents (st : state float) (X : list bad_line) line :
  bad_lines st = firstn 5 X ->
  exists st',
    step py_float uid st line = Ok st'
    /\ data st' = data st ++ line_points py_float uid line
    /\ bad_lines st' = firstn 5 (X ++ line_samples py_float uid line)
    /\ total_lines st' = S (total_lines st)
    /\ skipped st' + length (data st') = S (skipped st + length (data st))
    /\ skipped st' = skipped st + (1 - length (line_points py_float uid line))
    /\ length (line_samples py_float uid line)
       <= 1 - length (line_points py_float uid line).
Proof.
  intros HX.
  destruct (step_total float py_float uid st line) as (o & Ho & Hstep).
  exists (record_outcome st o). split; [exact Hstep|].
  unfold line_points, line_samples. rewrite Ho.
  destruct o as [p|[|raw|raw ve]]; simpl;
    rewrite ?app_nil_r, ?length_app, ?HX, ?sample_firstn; simpl;
    repeat split; auto; lia.
Qed.

(** All the lines of a stream that is read to its end. *)
Lemma read_lines_contents ls :
  forall (st : state float) (X : list bad_line),
    bad_lines st = firstn 5 X ->
    exists st',
      read_lines py_float uid (lines_then ls EOF) st = Ok st'
      /\ data st' = data st ++ flat_map (line_points py_float uid) ls
      /\ bad_lines st'
         = firstn 5 (X ++ flat_map (line_samples py_float uid) ls)
      /\ total_lines st' = total_lines st + length ls
      /\ skipped st' + length (data st')
         = skipped st + length (data st) + length ls
      /\ skipped st'
         = skipped st
           + (length ls - length (flat_map (line_points py_float uid) ls))
      /\ length (flat_map (line_samples py_float uid) ls)
         <= length ls - length (flat_map (line_points py_float uid) ls)
      /\ length (flat_map (line_points py_float uid) ls) <= length ls.
Proof.
  induction ls as [|l ls IH]; intros st X HX.
  - exists st. simpl. rewrite !app_nil_r. repeat split; auto; lia.
  - destruct (step_contents st X l HX)
      as (st1 & Hstep & Hd1 & Hb1 & Ht1 & Hs1 & Hk1 & Hl1).
    destruct (IH st1 _ Hb1)
      as (st' & Hrun & Hd & Hb & Ht & Hs & Hk & Hl & Hp).
    exists st'. cbn [lines_then read_lines flat_map length].
    rewrite Hstep. cbn [bind].
    assert (Hone : length (line_points py_float uid l) <= 1).
    { unfold line_points.
      destruct (parse_line py_float l uid) as [[p|r]|e]; simpl; lia. }
    rewrite !length_app.
    split; [exact Hrun|].
    split; [rewrite Hd, Hd1, app_assoc; reflexivity|].
    split; [rewrite Hb, app_assoc; reflexivity|].
    repeat split; lia.
Qed.

Lemma read_file_contents ls :
  exists st,
    read_file py_float (Opened (lines_then ls EOF)) uid = Ok st
    /\ data st = flat_map (line_points py_float uid) (skipn 6 ls)
    /\ bad_lines st
       = firstn 5 (flat_map (line_samples py_float uid) (skipn 6 ls))
    /\ total_lines st = length ls - 6
    /\ skipped st + length (data st) = total_lines st
    /\ length (bad_lines st) <= skipped st.
Proof.
  unfold read_file. rewrite skip_header_eof. simpl.
  destruct (read_lines_contents (skipn 6 ls) initial [])
    as (st & Hrun & Hd & Hb & Ht & Hs & Hk & Hl & Hp); [reflexivity|].
  exists st. unfold initial in *.
  cbn [data bad_lines total_lines skipped app length] in *.
  pose proof (length_skipn 6 ls) as Hskip.
  repeat split; auto; try lia.
  rewrite Hb, length_firstn. lia.
Qed.

End FileContents.

(** X8.  For a file that is read to its end: the lines counted are those
    after the first six; each of them is either kept as a record or
    counted as skipped, so records and skips add up to the lines counted;
    and the sample of bad lines never holds more entries than there are
    skipped lines. *)
Theorem counters_add_up :
  forall (float : Type) (py_float : str -> option float) (uid : str)
         (ls : list str),
    exists st,
      read_file py_float (Opened (lines_then ls EOF)) uid = Ok st
      /\ total_lines st = length ls - 6
      /\ length (data st) + skipped st = total_lines st
      /\ length (bad_lines st) <= skipped st.
Proof.
  intros float py_float uid ls.
  destruct (read_file_contents float py_float uid ls)
    as (st & Hrun & _ & _ & Ht & Hs & Hb).
  exists st. repeat split; auto. lia.
Qed.

(** X9.  For a file that is read to its end, the list returned holds the
    records of the lines after the first six, one for each line that is a
    point record, in the order of the lines; and the sample of bad lines
    is made of the first five entries that the skipped lines offer, in
    the order of the lines (a blank line offers none). *)
Theorem records_follow_the_lines :
  forall (float : Type) (py_float : str -> option float)
         (filepath uid : str) (verbose : bool) (ls : list str),
    snd (parse_plt_file py_float (Opened (lines_then ls EOF))
                        filepath uid verbose)
    = flat_map (line_points py_float uid) (skipn 6 ls)
    /\ exists st,
         read_file py_float (Opened (lines_then ls EOF)) uid = Ok st
         /\ data st = flat_map (line_points py_float uid) (skipn 6 ls)
         /\ bad_lines st
            = firstn 5 (flat_map (line_samples py_float uid) (skipn 6 ls)).
Proof.
  intros float py_float filepath uid verbose ls.
  destruct (read_file_contents float py_float uid ls)
    as (st & Hrun & Hd & Hb & _).
  split; [|exists st; auto].
  unfold parse_plt_file. rewrite Hrun. simpl. exact Hd.
Qed.

Lemma skip_header_lines hdr :
  forall ls r,
    skip_header (length hdr) (lines_then (hdr ++ ls) r) = Ok (lines_then ls r).
Proof.
  induction hdr as [|h hdr IH]; intros ls r; simpl; [reflexivity|apply IH].
Qed.

(** X10.  What the first six lines of a file hold plays no part: two
    files that differ in their first six lines only give the same
    messages and the same records, whether the reading comes to the end
    of the file or fails later. *)
Theorem header_lines_are_ignored :
  forall (float : Type) (py_float : str -> option float)
         (filepath uid : str) (verbose : bool)
         (hdr hdr' ls : list str) (r : reads),
    length hdr = 6 -> length hdr' = 6 ->
    parse_plt_file py_float (Opened (lines_then (hdr ++ ls) r))
                   filepath uid verbose
    = parse_plt_file py_float (Opened (lines_then (hdr' ++ ls) r))
                     filepath uid verbose.
Proof.
  intros float py_float filepath uid verbose hdr hdr' ls r H H'.
  unfold parse_plt_file, read_file.
  rewrite <- H at 1. rewrite <- H'.
  rewrite !skip_header_lines. reflexivity.
Qed.

Lemma header_lines_are_ignored_witness :
  parse_plt_file decimal_float
    (Opened (lines_then
               ([ txt "Geolife trajectory"; txt "WGS 84";
                  txt "Altitude is in Feet"; txt "Reserved 3";
                  txt "0,2,255,My Track,0,0,2,8421376"; txt "0" ]
                ++ [ txt "39.9,116.3,0,492,39744.1,2008-10-23,02:53:04" ])
               EOF))
    (txt "a.plt") (txt "000") true
  = parse_plt_file decimal_float
      (Opened (lines_then
                 ([ txt "1,2,3,4,5,2008-10-23,02:53:04"; []; []; []; []; [] ]
                  ++ [ txt "39.9,116.3,0,492,39744.1,2008-10-23,02:53:04" ])
                 EOF))
      (txt "a.plt") (txt "000") true.
Proof.
  apply (header_lines_are_ignored decimal decimal_float); reflexivity.
Defined.

(** X11.  A file of six lines or fewer that is read to its end gives no
    record, raises nothing and prints nothing, even when [verbose] is
    set: the header takes all its lines. *)
Theorem short_file_gives_nothing :
  forall (float : Type) (py_float : str -> option float)
         (filepath uid : str) (verbose : bool) (ls : list str),
    length ls <= 6 ->
    parse_plt_file py_float (Opened (lines_then ls EOF)) filepath uid verbose
    = ([], []).
Proof.
  intros float py_float filepath uid verbose ls Hlen.
  unfold parse_plt_file, read_file. rewrite skip_header_eof.
  rewrite skipn_all2 by exact Hlen. simpl.
  rewrite andb_false_r. reflexivity.
Qed.

Lemma short_file_gives_nothing_witness :
  parse_plt_file decimal_float
    (Opened (lines_then
               [ txt "Geolife trajectory"; txt "WGS 84";
                 txt "39.9,116.3,0,492,39744.1,2008-10-23,02:53:04" ]
               EOF))
    (txt "a.plt") (txt "000") true
  = ([], []).
Proof.
  apply (short_file_gives_nothing decimal decimal_float). simpl. lia.
Defined.

(* ================================================================= *)
(** ** Timestamps are calendar instants *)

Lemma datetime_new_ok_inv y m d H M S t :
  datetime_new y m d H M S = Ok t -> valid_instant t.
Proof.
  unfold datetime_new.
  destruct ((1 <=? y) && (y <=? 9999))%N eqn:Ey; [|discriminate].
  destruct ((1 <=? m) && (m <=? 12))%N eqn:Em; [|discriminate].
  destruct ((1 <=? d) && (d <=? days_in_month y m))%N eqn:Ed; [|discriminate].
  destruct (H <=? 23)%N eqn:EH; [|discriminate].
  destruct (M <=? 59)%N eqn:EM; [|discriminate].
  destruct (S <=? 59)%N eqn:ES; [|discriminate].
  simpl. intros [= <-].
  apply andb_prop in Ey as [Ey1 Ey2]. apply andb_prop in Em as [Em1 Em2].
  apply andb_prop in Ed as [Ed1 Ed2].
  apply N.leb_le in Ey1, Ey2, Em1, Em2, Ed1, Ed2, EH, EM, ES.
  unfold valid_instant. simpl. repeat split; assumption.
Qed.

Lemma strptime_ok_valid ts fmt t : strptime ts fmt = Ok t -> valid_instant t.
Proof.
  unfold strptime. destruct (compile fmt) as [items|]; [|discriminate].
  destruct (re_match items ts) as [[found rest]|]; [|discriminate].
  destruct (is_empty rest); [|discriminate].
  apply datetime_new_ok_inv.
Qed.

Lemma try_formats_ok_valid ts fmts t :
  try_formats ts fmts = Ok t -> valid_instant t.
Proof.
  induction fmts as [|fmt rest IH]; simpl; [discriminate|].
  destruct (strptime ts fmt) eqn:E; simpl.
  - intros [= <-]. eapply strptime_ok_valid. exact E.
  - exact IH.
Qed.

(** X12.  Whatever the date and time texts, a timestamp that
    [try_parse_datetime] returns is an instant of the calendar: year 1 to
    9999, a month, a day that this month has in this year, an hour below
    24, minutes and seconds below 60.  When it returns none it raises its
    own [ValueError] with the text tried, never the error of a layout.
    So the timestamp of every point record is such an instant. *)
Theorem timestamps_are_calendar_instants :
  forall (date_str time_str : str),
    ((exists t, try_parse_datetime date_str time_str = Ok t
                /\ valid_instant t)
     \/ try_parse_datetime date_str time_str
        = Raise (ValueError
                   (unknown_datetime_format
                      (date_str ++ txt " " ++ time_str))))
    /\ (forall (float : Type) (py_float : str -> option float)
               (line uid : str) (p : point float),
          nth (length (split_fields (strip line)) - 2)
              (split_fields (strip line)) [] = date_str ->
          nth (length (split_fields (strip line)) - 1)
              (split_fields (strip line)) [] = time_str ->
          parse_line py_float line uid = Ok (PointRecord p) ->
          try_parse_datetime date_str time_str = Ok (timestamp p)
          /\ valid_instant (timestamp p)).
Proof.
  intros date_str time_str. split.
  - unfold try_parse_datetime.
    destruct (try_formats_result (date_str ++ txt " " ++ time_str) candidates)
      as [(t & E) | E]; [left | right; exact E].
    exists t. split; [exact E|]. eapply try_formats_ok_valid. exact E.
  - intros float py_float line uid p Hd Ht Hp.
    apply parse_line_point_iff in Hp.
    destruct Hp as (_ & _ & _ & _ & _ & Hts).
    rewrite Hd, Ht in Hts. split; [exact Hts|].
    unfold try_parse_datetime in Hts. eapply try_formats_ok_valid. exact Hts.
Qed.

Lemma timestamps_are_calendar_instants_witness :
  valid_instant (mk_datetime 2008 10 23 2 53 4).
Proof.
  destruct (timestamps_are_calendar_instants (txt "2008-10-23") (txt "02:53:04"))
    as [_ H].
  apply (H decimal decimal_float
           (txt "39.9,116.3,0,492,39744.1,2008-10-23,02:53:04") (txt "000")
           (mk_point (txt "000") (mk_decimal 399 1) (mk_decimal 1163 1)
                     (mk_decimal 492 0) (mk_datetime 2008 10 23 2 53 4)));
    vm_compute; congruence.
Defined.

(* ================================================================= *)
(** ** The files of an owner *)

Section OwnerFiles.

Variable float : Type.
Variable py_float : str -> option float.
Variable uid : str.

(** The records of a file depend neither on the path printed nor on
    [verbose]. *)
Lemma parse_plt_file_data f filepath verbose :
  snd (parse_plt_file py_float f filepath uid verbose)
  = snd (parse_plt_file py_float f [] uid false).
Proof.
  unfold parse_plt_file. destruct (read_file py_float f uid); reflexivity.
Qed.

Lemma read_user_files_cons filename f rest tp verbose limit k :
  read_user_files py_float ((filename, f) :: rest) tp uid verbose limit k
  = if is_plt filename then
      let '(msgs, file_data) :=
        parse_plt_file py_float f (path_join tp filename) uid verbose in
      if limit_reached limit (S k) then (msgs, file_data, S k)
      else
        let '(msgs', data', n) :=
          read_user_files py_float rest tp uid verbose limit (S k) in
        (msgs ++ msgs', file_data ++ data', n)
    else read_user_files py_float rest tp uid verbose limit k.
Proof.
  cbn [read_user_files]. unfold is_plt.
  destruct (endswith (map lower filename) (txt ".plt")); reflexivity.
Qed.

(** Without a limit every [.plt] file is read. *)
Lemma read_user_files_unlimited limit :
  (forall c, limit_reached limit c = false) ->
  forall files tp verbose k,
    snd (fst (read_user_files py_float files tp uid verbose limit k))
    = flat_map (file_points py_float uid) files
    /\ snd (read_user_files py_float files tp uid verbose limit k)
       = k + length (plt_entries files).
Proof.
  intros Hl. induction files as [|[filename f] rest IH]; intros tp verbose k.
  - simpl. split; [reflexivity|lia].
  - rewrite read_user_files_cons. unfold plt_entries, file_points.
    cbn [flat_map filter fst snd].
    destruct (is_plt filename).
    + destruct (parse_plt_file py_float f (path_join tp filename) uid verbose)
        as [msgs fd] eqn:E.
      rewrite Hl.
      destruct (IH tp verbose (S k)) as [Hd Hc].
      destruct (read_user_files py_float rest tp uid verbose limit (S k))
        as [[msgs' d'] c'].
      cbn [fst snd] in *. subst d' c'. split.
      * f_equal. rewrite <- (parse_plt_file_data f (path_join tp filename) verbose).
        rewrite E. reflexivity.
      * unfold plt_entries. simpl. lia.
    + apply IH.
Qed.

(** With a limit of [n] files, reading stops after the [n]-th [.plt]
    file. *)
Lemma read_user_files_limited n :
  forall files tp verbose k,
    k < n ->
    snd (fst (read_user_files py_float files tp uid verbose (Some n) k))
    = flat_map (file_points py_float uid) (firstn (n - k) (plt_entries files))
    /\ snd (read_user_files py_float files tp uid verbose (Some n) k)
       = k + Nat.min (n - k) (length (plt_entries files)).
Proof.
  induction files as [|[filename f] rest IH]; intros tp verbose k Hk.
  - rewrite firstn_nil. simpl. split; [reflexivity|lia].
  - rewrite read_user_files_cons. unfold plt_entries.
    cbn [filter fst snd].
    destruct (is_plt filename) eqn:Ep; [|apply IH; exact Hk].
    destruct (parse_plt_file py_float f (path_join tp filename) uid verbose)
      as [msgs fd] eqn:E.
    assert (Efd : fd = file_points py_float uid (filename, f)).
    { unfold file_points. cbn [fst snd]. rewrite Ep.
      rewrite <- (parse_plt_file_data f (path_join tp filename) verbose).
      rewrite E. reflexivity. }
    assert (Hlim : limit_reached (Some n) (S k) = (n <=? S k)).
    { destruct n; [lia | reflexivity]. }
    rewrite Hlim.
    destruct (Nat.leb_spec n (S k)) as [Hstop|Hgo].
    + cbn [fst snd]. replace (n - k) with 1 by lia.
      cbn [firstn flat_map length]. rewrite app_nil_r. split; [exact Efd|lia].
    + destruct (IH tp verbose (S k) Hgo) as [Hd Hc].
      destruct (read_user_files py_float rest tp uid verbose (Some n) (S k))
        as [[msgs' d'] c'].
      cbn [fst snd] in *. subst d' c'.
      replace (n - k) with (S (n - S k)) by lia.
      cbn [firstn flat_map length]. fold (plt_entries rest).
      split; [now rewrite Efd | lia].
Qed.

End OwnerFiles.

Lemma limit_cases (limit : option nat) :
  (forall c, limit_reached limit c = false)
  \/ exists n, limit = Some n /\ 0 < n.
Proof.
  destruct limit as [[|n]|]; [left | right | left]; try reflexivity.
  exists (S n). split; [reflexivity | lia].
Qed.

(** What is read of the files of an owner depends neither on the path
    printed nor on [verbose]. *)
Lemma read_user_files_data float (py_float : str -> option float)
  (uid : str) files tp verbose limit :
  snd (fst (read_user_files py_float files tp uid verbose limit 0))
  = snd (fst (read_user_files py_float files [] uid false limit 0))
  /\ snd (read_user_files py_float files tp uid verbose limit 0)
     = snd (read_user_files py_float files [] uid false limit 0).
Proof.
  destruct (limit_cases limit) as [Hl | (n & -> & Hn)].
  - destruct (read_user_files_unlimited float py_float uid limit Hl
                files tp verbose 0) as [-> ->].
    destruct (read_user_files_unlimited float py_float uid limit Hl
                files [] false 0) as [-> ->]. auto.
  - destruct (read_user_files_limited float py_float uid n
                files tp verbose 0 Hn) as [-> ->].
    destruct (read_user_files_limited float py_float uid n
                files [] false 0 Hn) as [-> ->]. auto.
Qed.

(** X13.  Without a limit ([None], or 0, which Python takes as false),
    the records of an owner are those of the entries of the listing, one
    file after the other, and the files counted are the entries whose
    name ends in [.plt] whatever the case of the letters.  An entry with
    another name gives nothing, and neither does a file whose opening or
    reading fails: the records are then those of the other files. *)
Theorem every_plt_file_is_read :
  forall (float : Type) (py_float : str -> option float)
         (uid tp : str) (verbose : bool) (limit : option nat)
         (files : list (str * file)),
    limit = None \/ limit = Some 0 ->
    snd (fst (read_user_files py_float files tp uid verbose limit 0))
    = flat_map (file_points py_float uid) files
    /\ snd (read_user_files py_float files tp uid verbose limit 0)
       = length (plt_entries files)
    /\ (forall name f,
          is_plt name = false -> file_points py_float uid (name, f) = [])
    /\ (forall name f e,
          read_file py_float f uid = Raise e ->
          file_points py_float uid (name, f) = [])
    /\ (forall a name f e b,
          files = a ++ (name, f) :: b ->
          read_file py_float f uid = Raise e ->
          snd (fst (read_user_files py_float files tp uid verbose limit 0))
          = snd (fst (read_user_files py_float (a ++ b) tp uid verbose
                                      limit 0))).
Proof.
  intros float py_float uid tp verbose limit files Hlimit.
  assert (Hl : forall c, limit_reached limit c = false)
    by (destruct Hlimit as [-> | ->]; reflexivity).
  assert (Hfail : forall name f e,
             read_file py_float f uid = Raise e ->
             file_points py_float uid (name, f) = []).
  { intros name f e He. unfold file_points, parse_plt_file. cbn [fst snd].
    rewrite He. destruct (is_plt name); reflexivity. }
  destruct (read_user_files_unlimited float py_float uid limit Hl
              files tp verbose 0) as [Hd Hc].
  split; [exact Hd|]. split; [exact Hc|]. split; [|split; [exact Hfail|]].
  - intros name f Hn. unfold file_points. cbn [fst]. now rewrite Hn.
  - intros a name f e b -> He. rewrite Hd.
    destruct (read_user_files_unlimited float py_float uid limit Hl
                (a ++ b) tp verbose 0) as [-> _].
    rewrite !flat_map_app. cbn [flat_map].
    rewrite (Hfail name f e He). reflexivity.
Qed.

Lemma every_plt_file_is_read_witness :
  snd (fst (read_user_files decimal_float
              [ (txt "a.PLT",
                 Opened (lines_then
                           [ []; []; []; []; []; [];
                             txt "39.9,116.3,0,492,39744.1,2008-10-23,02:53:04" ]
                           EOF));
                (txt "b.plt", OpenFails (OSError (txt "Permission denied")));
                (txt "notes.txt", Opened EOF) ]
              (txt "Data/000/Trajectory") (txt "000") false (Some 0) 0))
  = [ mk_point (txt "000") (mk_decimal 399 1) (mk_decimal 1163 1)
               (mk_decimal 492 0) (mk_datetime 2008 10 23 2 53 4) ].
Proof.
  destruct (every_plt_file_is_read decimal decimal_float
              (txt "000") (txt "Data/000/Trajectory") false (Some 0)
              [ (txt "a.PLT",
                 Opened (lines_then
                           [ []; []; []; []; []; [];
                             txt "39.9,116.3,0,492,39744.1,2008-10-23,02:53:04" ]
                           EOF));
                (txt "b.plt", OpenFails (OSError (txt "Permission denied")));
                (txt "notes.txt", Opened EOF) ]) as [H _].
  - right. reflexivity.
  - rewrite H. vm_compute. reflexivity.
Defined.

Lemma file_points_plt_entries float (py_float : str -> option float)
  (uid : str) (files : list (str * file)) :
  flat_map (file_points py_float uid) files
  = flat_map (file_points py_float uid) (plt_entries files).
Proof.
  unfold plt_entries.
  induction files as [|[name f] rest IH]; [reflexivity|].
  cbn [flat_map filter fst]. destruct (is_plt name) eqn:Ep.
  - cbn [flat_map]. now rewrite IH.
  - rewrite <- IH. unfold file_points at 1. cbn [fst]. now rewrite Ep.
Qed.

(** X14.  With a limit of [n] files, [n] above 0, the records of an owner
    are those of the first [n] entries of the listing whose name ends in
    [.plt]; the files counted are [n] or all of them when there are
    fewer, so never more than [n]; and the records are the beginning of
    the records read without a limit. *)
Theorem file_limit_truncates :
  forall (float : Type) (py_float : str -> option float)
         (uid tp : str) (verbose : bool) (n : nat)
         (files : list (str * file)),
    0 < n ->
    snd (fst (read_user_files py_float files tp uid verbose (Some n) 0))
    = flat_map (file_points py_float uid) (firstn n (plt_entries files))
    /\ snd (read_user_files py_float files tp uid verbose (Some n) 0)
       = Nat.min n (length (plt_entries files))
    /\ snd (read_user_files py_float files tp uid verbose (Some n) 0) <= n
    /\ exists more,
         snd (fst (read_user_files py_float files tp uid verbose None 0))
         = snd (fst (read_user_files py_float files tp uid verbose
                                     (Some n) 0))
           ++ more.
Proof.
  intros float py_float uid tp verbose n files Hn.
  destruct (read_user_files_limited float py_float uid n files tp verbose 0 Hn)
    as [Hd Hc].
  rewrite Nat.sub_0_r in Hd, Hc. simpl in Hc.
  split; [exact Hd|]. split; [exact Hc|]. split; [lia|].
  exists (flat_map (file_points py_float uid) (skipn n (plt_entries files))).
  rewrite Hd, <- flat_map_app, firstn_skipn.
  destruct (read_user_files_unlimited float py_float uid None
              (fun _ => eq_refl) files tp verbose 0) as [-> _].
  apply file_points_plt_entries.
Qed.

Lemma file_limit_truncates_witness :
  snd (read_user_files decimal_float
         [ (txt "a.plt", Opened EOF); (txt "b.plt", Opened EOF);
           (txt "c.plt", Opened EOF) ]
         (txt "Data/000/Trajectory") (txt "000") false (Some 2) 0)
  <= 2.
Proof.
  apply (file_limit_truncates decimal decimal_float). lia.
Defined.

(* ================================================================= *)
(** ** The whole traversal *)

Section Traversal.

Variable float : Type.
Variable py_float : str -> option float.

Lemma read_users_cons name e rest base verbose limit :
  snd (fst (read_users py_float ((name, e) :: rest) base verbose limit))
  = owner_points py_float limit (name, e)
    ++ snd (fst (read_users py_float rest base verbose limit))
  /\ snd (read_users py_float ((name, e) :: rest) base verbose limit)
     = (if is_owner (name, e) then 1 else 0)
       + snd (read_users py_float rest base verbose limit).
Proof.
  cbn [read_users].
  destruct (read_users py_float rest base verbose limit) as [[msgs' d'] u'].
  unfold owner_points, is_owner. cbn [fst snd].
  destruct e as [|[files|]]; cbn [fst snd]; auto.
  destruct (read_user_files_data float py_float name (sorted_by_name files)
              (path_join (path_join base name) (txt "Trajectory"))
              verbose limit) as [Hd _].
  rewrite <- Hd.
  destruct (read_user_files py_float (sorted_by_name files)
              (path_join (path_join base name) (txt "Trajectory"))
              name verbose limit 0) as [[msgs d] c].
  cbn [fst snd]. auto.
Qed.

Lemma read_users_data entries base verbose limit :
  snd (fst (read_users py_float entries base verbose limit))
  = flat_map (owner_points py_float limit) entries
  /\ snd (read_users py_float entries base verbose limit)
     = length (filter is_owner entries).
Proof.
  induction entries as [|[name e] rest [IHd IHu]]; [auto|].
  destruct (read_users_cons name e rest base verbose limit) as [-> ->].
  rewrite IHd, IHu. cbn [flat_map filter].
  destruct (is_owner (name, e)); auto.
Qed.

Lemma collect_by_owner listing base verbose limit :
  collect py_float listing base verbose limit
  = flat_map (owner_points py_float limit) (sorted_by_name listing).
Proof. unfold collect. apply read_users_data. Qed.

Lemma filter_length_perm A (f : A -> bool) l l' :
  Permutation l l' -> length (filter f l) = length (filter f l').
Proof.
  induction 1 as [|x l l' _ IH|x y l|l l' l'' _ IH1 _ IH2]; simpl.
  - reflexivity.
  - destruct (f x); simpl; congruence.
  - destruct (f x), (f y); reflexivity.
  - congruence.
Qed.

Lemma process_by_owner listing base out verbose limit :
  exists msgs,
    process_geolife_dataset py_float listing base out verbose limit
    = finalize msgs (collect py_float listing base verbose limit)
               (length (filter is_owner listing)) out.
Proof.
  unfold process_geolife_dataset, collect.
  destruct (read_users_data (sorted_by_name listing) base verbose limit)
    as [_ Hu].
  rewrite (filter_length_perm _ is_owner _ listing) in Hu
    by apply stable_sort_perm.
  destruct (read_users py_float (sorted_by_name listing) base verbose limit)
    as [[msgs all_data] users].
  cbn [fst snd] in *. subst users. exists msgs. reflexivity.
Qed.

Lemma written_of_finalize msgs (all_data : list (point float)) users out :
  written (finalize msgs all_data users out)
  = match all_data with
    | [] => None
    | _ :: _ => Some (out, to_csv (sort_values all_data))
    end.
Proof. destruct all_data; reflexivity. Qed.

End Traversal.

(** X15.  The records collected are those of the owners of the listing,
    owner after owner in the order of their names, each with the files of
    its [Trajectory] directory taken in the order of their names.  So
    they depend neither on [verbose] nor on the path of the base
    directory, and neither does the table written. *)
Theorem collected_records_by_owner :
  forall (float : Type) (py_float : str -> option float)
         (listing : list (str * entry)) (base base' out : str)
         (verbose verbose' : bool) (limit : option nat),
    collect py_float listing base verbose limit
    = flat_map (owner_points py_float limit) (sorted_by_name listing)
    /\ collect py_float listing base verbose limit
       = collect py_float listing base' verbose' limit
    /\ written (process_geolife_dataset py_float listing base out
                                        verbose limit)
       = written (process_geolife_dataset py_float listing base' out
                                          verbose' limit).
Proof.
  intros float py_float listing base base' out verbose verbose' limit.
  split; [apply collect_by_owner|].
  assert (E : collect py_float listing base verbose limit
              = collect py_float listing base' verbose' limit)
    by (rewrite !collect_by_owner; reflexivity).
  split; [exact E|].
  destruct (process_by_owner float py_float listing base out verbose limit)
    as (msgs & ->).
  destruct (process_by_owner float py_float listing base' out verbose' limit)
    as (msgs' & ->).
  rewrite !written_of_finalize, E. reflexivity.
Qed.

(** X16.  When no entry of the base directory is a directory with a
    [Trajectory] sub-directory, and so when the base directory is empty,
    the run prints that no data was processed and nothing else, and
    writes no file.  More generally no file is written whenever no record
    is collected, and the last message is then that notice. *)
Theorem no_owner_no_output :
  forall (float : Type) (py_float : str -> option float)
         (listing : list (str * entry)) (base out : str)
         (verbose : bool) (limit : option nat),
    ((forall e, In e listing -> is_owner e = false) ->
     process_geolife_dataset py_float listing base out verbose limit
     = mk_run [no_data_processed] None)
    /\ (collect py_float listing base verbose limit = [] ->
        written (process_geolife_dataset py_float listing base out
                                         verbose limit) = None
        /\ exists msgs,
             console (process_geolife_dataset py_float listing base out
                                              verbose limit)
             = msgs ++ [no_data_processed]).
Proof.
  intros float py_float listing base out verbose limit. split.
  - intros Hno.
    assert (Hsorted : forall e, In e (sorted_by_name listing) ->
                                is_owner e = false).
    { intros e He. apply Hno.
      eapply Permutation_in; [apply stable_sort_perm | exact He]. }
    unfold process_geolife_dataset.
    assert (E : read_users py_float (sorted_by_name listing) base verbose limit
                = ([], [], 0)).
    { induction (sorted_by_name listing) as [|[name e] rest IH];
        [reflexivity|].
      cbn [read_users]. rewrite IH by (intros x Hx; apply Hsorted; now right).
      specialize (Hsorted (name, e) (or_introl eq_refl)).
      unfold is_owner in Hsorted. cbn [snd] in Hsorted.
      destruct e as [|[files|]]; [reflexivity | discriminate | reflexivity]. }
    rewrite E. reflexivity.
  - intros Hnone.
    destruct (process_by_owner float py_float listing base out verbose limit)
      as (msgs & ->).
    rewrite Hnone. split; [reflexivity|]. exists msgs. reflexivity.
Qed.

Lemma no_owner_no_output_witness :
  process_geolife_dataset decimal_float
    [ (txt "readme.txt", not_a_directory); (txt "tmp", directory None) ]
    (txt "Data") (txt "out.csv") true (Some 5)
  = mk_run [no_data_processed] None.
Proof.
  destruct (no_owner_no_output decimal decimal_float
              [ (txt "readme.txt", not_a_directory);
                (txt "tmp", directory None) ]
              (txt "Data") (txt "out.csv") true (Some 5)) as [H _].
  apply H. intros e [<- | [<- | []]]; reflexivity.
Defined.

(* ================================================================= *)
(** ** Where a collected record comes from *)

Section Provenance.

Variable float : Type.
Variable py_float : str -> option float.

Lemma skip_header_lines_of n :
  forall r r', skip_header n r = Ok r' -> lines_of r' = skipn n (lines_of r).
Proof.
  induction n as [|n IH]; intros r r' H.
  - injection H as <-. reflexivity.
  - destruct r as [|l more|e]; cbn [skip_header next] in H.
    + injection H as <-. reflexivity.
    + cbn [lines_of skipn]. apply IH. exact H.
    + destruct e; try discriminate. injection H as <-. reflexivity.
Qed.

Lemma read_lines_provenance uid r :
  forall st st' : state float,
    read_lines py_float uid r st = Ok st' ->
    forall p, In p (data st') ->
              In p (data st)
              \/ exists line,
                   In line (lines_of r)
                   /\ parse_line py_float line uid = Ok (PointRecord p).
Proof.
  induction r as [|l more IH|e]; intros st st' H p Hp.
  - injection H as <-. auto.
  - cbn [read_lines] in H. unfold step in H.
    destruct (parse_line py_float l uid) as [o|e] eqn:Eo; [|discriminate].
    cbn [bind] in H. cbn [lines_of].
    destruct (IH _ _ H p Hp) as [Hin | (line & Hl & Hline)].
    + destruct o as [q|[|raw|raw ve]]; cbn [record_outcome data] in Hin; auto.
      apply in_app_or in Hin as [Hin | [<- | []]]; [auto|].
      right. exists l. split; [now left | exact Eo].
    + right. exists line. split; [now right | exact Hline].
  - cbn [read_lines] in H. destruct e; try discriminate.
    injection H as <-. auto.
Qed.

Lemma parse_plt_file_provenance f filepath uid verbose p :
  In p (snd (parse_plt_file py_float f filepath uid verbose)) ->
  exists r line,
    f = Opened r
    /\ In line (skipn 6 (lines_of r))
    /\ parse_line py_float line uid = Ok (PointRecord p).
Proof.
  unfold parse_plt_file.
  destruct (read_file py_float f uid) as [st|e] eqn:E; [|intros []].
  cbn [snd]. intros Hp. unfold read_file in E.
  destruct f as [e|r]; [discriminate|].
  destruct (skip_header 6 r) as [r'|e] eqn:Eh; [|discriminate].
  cbn [bind] in E.
  destruct (read_lines_provenance uid r' _ _ E p Hp)
    as [[] | (line & Hl & Hline)].
  exists r, line. split; [reflexivity|].
  rewrite <- (skip_header_lines_of 6 r r' Eh). auto.
Qed.

Lemma firstn_incl A n (l : list A) x : In x (firstn n l) -> In x l.
Proof.
  intros H. rewrite <- (firstn_skipn n l). apply in_or_app. now left.
Qed.

Lemma owner_points_provenance limit name e p :
  In p (owner_points py_float limit (name, e)) ->
  exists files filename f,
    e = directory (Some files)
    /\ In (filename, f) files
    /\ is_plt filename = true
    /\ In p (snd (parse_plt_file py_float f [] name false)).
Proof.
  unfold owner_points. cbn [fst snd].
  destruct e as [|[files|]]; try (intros []).
  intros Hp.
  assert (Hfrom : exists x, In x (sorted_by_name files)
                            /\ In p (file_points py_float name x)).
  { destruct (limit_cases limit) as [Hl | (n & -> & Hn)].
    - destruct (read_user_files_unlimited float py_float name limit Hl
                  (sorted_by_name files) [] false 0) as [Hd _].
      rewrite Hd in Hp. apply in_flat_map in Hp. exact Hp.
    - destruct (read_user_files_limited float py_float name n
                  (sorted_by_name files) [] false 0 Hn) as [Hd _].
      rewrite Hd in Hp. apply in_flat_map in Hp as (x & Hx & Hpx).
      exists x. split; [|exact Hpx].
      apply firstn_incl in Hx. unfold plt_entries in Hx.
      apply filter_In in Hx. tauto. }
  destruct Hfrom as ([filename f] & Hx & Hpx).
  exists files, filename, f. split; [reflexivity|].
  split; [eapply Permutation_in; [apply stable_sort_perm | exact Hx]|].
  unfold file_points in Hpx. cbn [fst snd] in Hpx.
  destruct (is_plt filename); [auto | destruct Hpx].
Qed.

Lemma owner_points_owner limit name e p :
  In p (owner_points py_float limit (name, e)) -> user_id p = name.
Proof.
  intros Hp.
  apply owner_points_provenance in Hp as (files & filename & f & _ & _ & _ & Hp).
  apply parse_plt_file_provenance in Hp as (r & line & _ & _ & Hline).
  apply parse_line_point_iff in Hline. tauto.
Qed.

End Provenance.

(** X17.  Every record collected comes from a line of a file: the file
    has a name that ends in [.plt], it is listed in the [Trajectory]
    directory of a directory of the base listing, it could be opened, and
    the line is one of those it gives after its first six lines; that line
    parses to the record for the name of the directory, which is the
    owner of the record, and the timestamp of the record is an instant of
    the calendar. *)
Theorem collected_records_provenance :
  forall (float : Type) (py_float : str -> option float)
         (listing : list (str * entry)) (base : str) (verbose : bool)
         (limit : option nat) (p : point float),
    In p (collect py_float listing base verbose limit) ->
    exists name files filename r line,
      In (name, directory (Some files)) listing
      /\ In (filename, Opened r) files
      /\ is_plt filename = true
      /\ In p (snd (parse_plt_file py_float (Opened r) [] name false))
      /\ In line (skipn 6 (lines_of r))
      /\ parse_line py_float line name = Ok (PointRecord p)
      /\ user_id p = name
      /\ valid_instant (timestamp p).
Proof.
  intros float py_float listing base verbose limit p Hp.
  rewrite collect_by_owner in Hp.
  apply in_flat_map in Hp as ([name e] & He & Hp).
  apply owner_points_provenance in Hp
    as (files & filename & f & -> & Hf & Hplt & Hp).
  destruct (parse_plt_file_provenance float py_float f [] name false p Hp)
    as (r & line & -> & Hl & Hline).
  exists name, files, filename, r, line.
  split; [eapply Permutation_in; [apply stable_sort_perm | exact He]|].
  do 5 (split; [assumption|]).
  apply parse_line_point_iff in Hline.
  destruct Hline as (_ & Hu & _ & _ & _ & Hts).
  split; [exact Hu|].
  unfold try_parse_datetime in Hts.
  eapply try_formats_ok_valid. exact Hts.
Qed.

Lemma collected_records_provenance_witness :
  exists name files filename r line,
    In (name, directory (Some files))
       [ (txt "000",
          directory
            (Some [ (txt "20081023.plt",
                     Opened (lines_then
                               [ []; []; []; []; []; [];
                                 txt "39.9,116.3,0,492,39744.1,2008-10-23,02:53:04" ]
                               EOF)) ])) ]
    /\ In (filename, Opened r) files
    /\ is_plt filename = true
    /\ In (mk_point (txt "000") (mk_decimal 399 1) (mk_decimal 1163 1)
                    (mk_decimal 492 0) (mk_datetime 2008 10 23 2 53 4))
          (snd (parse_plt_file decimal_float (Opened r) [] name false))
    /\ In line (skipn 6 (lines_of r))
    /\ parse_line decimal_float line name
       = Ok (PointRecord
               (mk_point (txt "000") (mk_decimal 399 1) (mk_decimal 1163 1)
                         (mk_decimal 492 0) (mk_datetime 2008 10 23 2 53 4)))
    /\ user_id (mk_point (txt "000") (mk_decimal 399 1) (mk_decimal 1163 1)
                         (mk_decimal 492 0) (mk_datetime 2008 10 23 2 53 4))
       = name
    /\ valid_instant (mk_datetime 2008 10 23 2 53 4).
Proof.
  apply (collected_records_provenance decimal decimal_float _ (txt "Data")
           true None).
  vm_compute. auto.
Defined.

(* ================================================================= *)
(** ** The order of the traversal *)

Lemma StronglySorted_app A (R : A -> A -> Prop) l1 l2 :
  StronglySorted R l1 -> StronglySorted R l2 ->
  (forall x y, In x l1 -> In y l2 -> R x y) ->
  StronglySorted R (l1 ++ l2).
Proof.
  induction 1 as [|x l1 Hl1 IH Hx]; intros H2 Hcross; simpl; [exact H2|].
  constructor.
  - apply IH; [exact H2|]. intros a b Ha Hb. apply Hcross; [now right|exact Hb].
  - apply Forall_app. split; [exact Hx|].
    apply Forall_forall. intros y Hy. apply Hcross; [now left|exact Hy].
Qed.

Lemma StronglySorted_all_related A (R : A -> A -> Prop) l :
  (forall x y, In x l -> In y l -> R x y) -> StronglySorted R l.
Proof.
  induction l as [|x l IH]; intros H; constructor.
  - apply IH. intros a b Ha Hb. apply H; now right.
  - apply Forall_forall. intros y Hy. apply H; [now left | now right].
Qed.

Lemma sorted_by_name_sorted B (l : list (str * B)) :
  StronglySorted (fun a b => str_leb (fst a) (fst b) = true)
                 (sorted_by_name l).
Proof.
  apply (stable_sort_sorted _ (fun a b : str * B => str_leb (fst a) (fst b))).
  - intros x y. apply lex_leb_total.
  - intros x y z. apply lex_leb_trans.
Qed.

(** X18.  Before any sorting, the records collected are already grouped
    by owner, the owners in the ascending order of their names, since the
    directories are visited in that order.  The number of users that the
    summary reports is the number of directories of the listing that have
    a [Trajectory] sub-directory, whether or not they gave a record, and
    the number of points it reports is the number of records. *)
Theorem collected_records_grouped_by_owner :
  forall (float : Type) (py_float : str -> option float)
         (listing : list (str * entry)) (base out : str) (verbose : bool)
         (limit : option nat),
    StronglySorted (holds (@by_user_id float))
                   (collect py_float listing base verbose limit)
    /\ (collect py_float listing base verbose limit <> [] ->
        exists msgs,
          console (process_geolife_dataset py_float listing base out
                                           verbose limit)
          = msgs
            ++ [ total_collected
                   (length (collect py_float listing base verbose limit))
                   (length (filter is_owner listing));
                 saved_to out ]).
Proof.
  intros float py_float listing base out verbose limit. split.
  - rewrite collect_by_owner.
    pose proof (sorted_by_name_sorted _ listing) as Hs.
    induction Hs as [|[name e] rest Hrest IH Hhd]; [constructor|].
    cbn [flat_map]. apply StronglySorted_app.
    + apply StronglySorted_all_related. intros x y Hx Hy.
      apply owner_points_owner in Hx, Hy.
      unfold holds, by_user_id, str_leb. rewrite Hx, Hy. apply lex_leb_refl.
    + exact IH.
    + intros x y Hx Hy. apply owner_points_owner in Hx.
      apply in_flat_map in Hy as ([name' e'] & He' & Hy).
      apply owner_points_owner in Hy.
      rewrite Forall_forall in Hhd. specialize (Hhd _ He').
      unfold holds, by_user_id. rewrite Hx, Hy. exact Hhd.
  - intros Hne.
    destruct (process_by_owner float py_float listing base out verbose limit)
      as (msgs & ->).
    exists msgs.
    destruct (collect py_float listing base verbose limit);
      [congruence | reflexivity].
Qed.

Lemma collected_records_grouped_by_owner_witness :
  exists msgs,
    console
      (process_geolife_dataset decimal_float
         [ (txt "001", directory (Some []));
           (txt "000",
            directory
              (Some [ (txt "20081023.plt",
                       Opened (lines_then
                                 [ []; []; []; []; []; [];
                                   txt "39.9,116.3,0,492,39744.1,2008-10-23,02:53:04" ]
                                 EOF)) ])) ]
         (txt "Data") (txt "out.csv") false None)
    = msgs ++ [ total_collected 1 2; saved_to (txt "out.csv") ].
Proof.
  destruct (collected_records_grouped_by_owner decimal decimal_float
              [ (txt "001", directory (Some []));
                (txt "000",
                 directory
                   (Some [ (txt "20081023.plt",
                            Opened (lines_then
                                      [ []; []; []; []; []; [];
                                        txt "39.9,116.3,0,492,39744.1,2008-10-23,02:53:04" ]
                                      EOF)) ])) ]
              (txt "Data") (txt "out.csv") false None) as [_ H].
  apply H. vm_compute. discriminate.
Defined.

Lemma lex_leb_antisym a :
  forall b, lex_leb a b = true -> lex_leb b a = true -> a = b.
Proof.
  induction a as [|x a IH]; intros [|y b]; simpl; try discriminate; auto.
  destruct (N.ltb_spec x y), (N.ltb_spec y x); try discriminate; try lia.
  intros H1 H2. assert (x = y) by lia. subst y. f_equal. now apply IH.
Qed.

Lemma codes_injective a b : codes a = codes b -> a = b.
Proof.
  revert b. induction a as [|x a IH]; intros [|y b]; simpl;
    try discriminate; auto.
  intros [= Hxy Hab]. f_equal; [|now apply IH].
  rewrite <- (ascii_N_embedding x), <- (ascii_N_embedding y). now rewrite Hxy.
Qed.

Lemma str_leb_antisym a b : str_leb a b = true -> str_leb b a = true -> a = b.
Proof.
  intros H1 H2. apply codes_injective. now apply lex_leb_antisym.
Qed.

(** A listing without repeated names has one sorted arrangement only. *)
Lemma sorted_listing_unique B (l1 : list (str * B)) :
  forall l2,
    StronglySorted (fun a b => str_leb (fst a) (fst b) = true) l1 ->
    StronglySorted (fun a b => str_leb (fst a) (fst b) = true) l2 ->
    Permutation l1 l2 -> NoDup (map fst l1) -> l1 = l2.
Proof.
  induction l1 as [|x l1 IH]; intros l2 H1 H2 Hp Hnd.
  - apply Permutation_nil in Hp. now subst.
  - destruct l2 as [|y l2].
    { symmetry in Hp. apply Permutation_nil in Hp. discriminate. }
    inversion H1 as [|? ? H1' Hx]; subst.
    inversion H2 as [|? ? H2' Hy]; subst.
    inversion Hnd as [|? ? Hnx Hnd']; subst.
    rewrite Forall_forall in Hx, Hy.
    assert (Exy : x = y).
    { assert (Hyin : In y (x :: l1))
        by (eapply Permutation_in; [symmetry; exact Hp | now left]).
      destruct Hyin as [E | Hyin]; [exact E|].
      assert (Hxin : In x (y :: l2))
        by (eapply Permutation_in; [exact Hp | now left]).
      destruct Hxin as [E | Hxin]; [now symmetry|].
      exfalso. apply Hnx.
      rewrite (str_leb_antisym (fst x) (fst y) (Hx _ Hyin) (Hy _ Hxin)).
      now apply in_map. }
    subst y. f_equal. apply IH; auto.
    eapply Permutation_cons_inv. exact Hp.
Qed.

Lemma sorted_by_name_perm B (l l' : list (str * B)) :
  Permutation l l' -> NoDup (map fst l) ->
  sorted_by_name l = sorted_by_name l'.
Proof.
  intros Hp Hnd. apply sorted_listing_unique.
  - apply sorted_by_name_sorted.
  - apply sorted_by_name_sorted.
  - unfold sorted_by_name. rewrite !stable_sort_perm. exact Hp.
  - eapply Permutation_NoDup; [|exact Hnd].
    apply Permutation_map. symmetry. apply stable_sort_perm.
Qed.

(** X19.  The order in which the system lists a directory does not
    matter: two listings of the base directory with the same entries,
    no name twice, give the same run, console and table alike; and two
    listings of a [Trajectory] directory with the same entries, no name
    twice, give the same records for the owner. *)
Theorem listing_order_is_irrelevant :
  forall (float : Type) (py_float : str -> option float)
         (base out : str) (verbose : bool) (limit : option nat),
    (forall listing listing' : list (str * entry),
        Permutation listing listing' ->
        NoDup (map fst listing) ->
        process_geolife_dataset py_float listing base out verbose limit
        = process_geolife_dataset py_float listing' base out verbose limit)
    /\ (forall (name : str) (files files' : list (str * file)),
          Permutation files files' ->
          NoDup (map fst files) ->
          owner_points py_float limit (name, directory (Some files))
          = owner_points py_float limit (name, directory (Some files'))).
Proof.
  intros float py_float base out verbose limit. split.
  - intros listing listing' Hp Hnd. unfold process_geolife_dataset.
    rewrite (sorted_by_name_perm _ listing listing' Hp Hnd). reflexivity.
  - intros name files files' Hp Hnd. unfold owner_points. cbn [fst snd].
    rewrite (sorted_by_name_perm _ files files' Hp Hnd). reflexivity.
Qed.

Lemma listing_order_is_irrelevant_witness :
  process_geolife_dataset decimal_float
    [ (txt "001", directory (Some [])); (txt "000", directory None) ]
    (txt "Data") (txt "out.csv") true None
  = process_geolife_dataset decimal_float
      [ (txt "000", directory None); (txt "001", directory (Some [])) ]
      (txt "Data") (txt "out.csv") true None.
Proof.
  destruct (listing_order_is_irrelevant decimal decimal_float
              (txt "Data") (txt "out.csv") true None) as [H _].
  apply H.
  - apply perm_swap.
  - repeat constructor; simpl; intuition discriminate.
Defined.

(* ================================================================= *)
(** ** The reasons of a skip *)

(** X20.  The three kinds of skip are told apart by the line alone: a
    line is skipped as empty exactly when nothing is left of it once
    trimmed; as having too few fields exactly when something is left and
    it has fewer than six fields; and with a [ValueError] exactly when it
    has six fields or more and the extraction raises that error.  The
    error is then the failed conversion of field 0, of field 1 or of the
    third field from the end (also when it is field 3 that was tried
    first), or the unknown format of the last two fields. *)
Theorem skip_reasons_are_decided :
  forall (float : Type) (py_float : str -> option float) (line uid : str),
    let raw := strip line in
    let parts := split_fields raw in
    (parse_line py_float line uid = Ok (Skip empty) <-> raw = [])
    /\ (forall s,
          parse_line py_float line uid = Ok (Skip (insufficient_fields s))
          <-> s = raw /\ raw <> [] /\ length parts < 6)
    /\ (forall s ve,
          parse_line py_float line uid = Ok (Skip (value_error_raised s ve))
          <-> s = raw /\ 6 <= length parts
              /\ extract py_float parts uid = Raise (ValueError ve))
    /\ (forall ve,
          6 <= length parts ->
          extract py_float parts uid = Raise (ValueError ve) ->
          ve = could_not_convert_to_float (nth 0 parts [])
          \/ ve = could_not_convert_to_float (nth 1 parts [])
          \/ ve = could_not_convert_to_float (nth (length parts - 3) parts [])
          \/ ve = unknown_datetime_format
                    (nth (length parts - 2) parts [] ++ txt " "
                     ++ nth (length parts - 1) parts [])).
Proof.
  intros float py_float line uid raw parts.
  pose proof (parse_line_cases float py_float line uid) as H.
  cbv zeta in H. fold raw in H. fold parts in H.
  split; [|split; [|split]].
  - split.
    + intros E.
      destruct H as [(Hb & _) | [(_ & _ & E') | (_ & _ & [(p & _ & E')
        | (ve & _ & E')])]]; [exact Hb | congruence ..].
    + intros Hb.
      destruct H as [(_ & E) | [(Hne & _) | (Hne & _)]];
        [exact E | congruence ..].
  - intros s. split.
    + intros E.
      destruct H as [(_ & E') | [(Hne & Hlen & E') | (_ & _ & [(p & _ & E')
        | (ve & _ & E')])]]; try congruence.
      rewrite E' in E. injection E as <-. auto.
    + intros (-> & Hne & Hlen).
      destruct H as [(Hb & _) | [(_ & _ & E) | (_ & Hge & _)]];
        [congruence | exact E | lia].
  - intros s ve. split.
    + intros E.
      destruct H as [(_ & E') | [(_ & _ & E') | (_ & Hge & [(p & _ & E')
        | (ve' & Hve & E')])]]; try congruence.
      rewrite E' in E. injection E as <- <-. auto.
    + intros (-> & Hge & Hve).
      destruct H as [(Hb & _) | [(_ & Hlt & _) | (_ & _ & [(p & Hp & _)
        | (ve' & Hve' & E)])]].
      * unfold parts in Hge. rewrite Hb in Hge. simpl in Hge. lia.
      * lia.
      * congruence.
      * rewrite Hve in Hve'. injection Hve' as <-. exact E.
  - intros ve Hge Hve. rewrite extract_long in Hve by exact Hge.
    unfold float_of in Hve.
    destruct (py_float (nth 0 parts [])); cbn [bind] in Hve;
      [|injection Hve as <-; auto].
    destruct (py_float (nth 1 parts [])); cbn [bind] in Hve;
      [|injection Hve as <-; auto].
    destruct (py_float (nth 3 parts [])); cbn [bind] in Hve.
    + unfold try_parse_datetime in Hve.
      destruct (try_formats_result
                  (nth (length parts - 2) parts [] ++ txt " "
                   ++ nth (length parts - 1) parts []) candidates)
        as [(t & E) | E]; rewrite E in Hve; cbn [bind] in Hve;
        [discriminate | injection Hve as <-; auto].
    + destruct (py_float (nth (length parts - 3) parts [])); cbn [bind] in Hve;
        [|injection Hve as <-; auto].
      unfold try_parse_datetime in Hve.
      destruct (try_formats_result
                  (nth (length parts - 2) parts [] ++ txt " "
                   ++ nth (length parts - 1) parts []) candidates)
        as [(t & E) | E]; rewrite E in Hve; cbn [bind] in Hve;
        [discriminate | injection Hve as <-; auto].
Qed.

Lemma skip_reasons_are_decided_witness :
  parse_line decimal_float
    (txt "39.9,116.3,0,n/a,492 ft,2008-10-23,02:53:04") (txt "000")
  = Ok (Skip (value_error_raised
                (txt "39.9,116.3,0,n/a,492 ft,2008-10-23,02:53:04")
                (could_not_convert_to_float (txt "492 ft")))).
Proof.
  destruct (skip_reasons_are_decided decimal decimal_float
              (txt "39.9,116.3,0,n/a,492 ft,2008-10-23,02:53:04") (txt "000"))
    as (_ & _ & H & _).
  apply H. vm_compute. repeat split; auto.
Defined.

(* ================================================================= *)
(** ** What is printed without [verbose] *)

Section Quiet.

Variable float : Type.
Variable py_float : str -> option float.

Let quiet (ms : list message) : Prop :=
  Forall (fun m => printed_when_quiet m = true) ms.

Lemma parse_plt_file_quiet f filepath uid :
  quiet (fst (parse_plt_file py_float f filepath uid false)).
Proof.
  unfold parse_plt_file.
  destruct (read_file py_float f uid); cbn [fst andb]; repeat constructor.
Qed.

Lemma read_user_files_quiet files tp uid limit :
  forall k, quiet (fst (fst (read_user_files py_float files tp uid false
                                             limit k))).
Proof.
  induction files as [|[filename f] rest IH]; intros k.
  - constructor.
  - rewrite read_user_files_cons.
    destruct (is_plt filename); [|apply IH].
    pose proof (parse_plt_file_quiet f (path_join tp filename) uid) as Hf.
    destruct (parse_plt_file py_float f (path_join tp filename) uid false)
      as [msgs fd].
    cbn [fst] in Hf.
    destruct (limit_reached limit (S k)); [exact Hf|].
    specialize (IH (S k)).
    destruct (read_user_files py_float rest tp uid false limit (S k))
      as [[msgs' d'] c'].
    cbn [fst] in *. apply Forall_app. auto.
Qed.

Lemma read_users_quiet entries base limit :
  quiet (fst (fst (read_users py_float entries base false limit))).
Proof.
  induction entries as [|[name e] rest IH]; [constructor|].
  cbn [read_users].
  destruct (read_users py_float rest base false limit) as [[msgs' d'] u'].
  cbn [fst] in IH.
  destruct e as [|[files|]]; cbn [fst]; try exact IH.
  pose proof (read_user_files_quiet (sorted_by_name files)
                (path_join (path_join base name) (txt "Trajectory"))
                name limit 0) as Hf.
  destruct (read_user_files py_float (sorted_by_name files)
              (path_join (path_join base name) (txt "Trajectory"))
              name false limit 0) as [[msgs d] c].
  cbn [fst app] in *. apply Forall_app. auto.
Qed.

Lemma process_quiet listing base out limit :
  quiet (console (process_geolife_dataset py_float listing base out
                                          false limit)).
Proof.
  unfold process_geolife_dataset.
  pose proof (read_users_quiet (sorted_by_name listing) base limit) as H.
  destruct (read_users py_float (sorted_by_name listing) base false limit)
    as [[msgs all_data] users].
  cbn [fst] in H. unfold finalize.
  destruct all_data; cbn [console]; apply Forall_app; split; auto;
    repeat constructor.
Qed.

End Quiet.

(** X21.  A file whose opening or reading fails is reported whatever
    [verbose] is, by one message that carries its path and the exception.
    Without [verbose] a run prints nothing else than such reports and the
    final summary: no line for an owner or for a file that was read. *)
Theorem quiet_run_reports_failures_only :
  forall (float : Type) (py_float : str -> option float),
    (forall f filepath uid verbose e,
        read_file py_float f uid = Raise e ->
        parse_plt_file py_float f filepath uid verbose
        = ([error_processing_file filepath e], []))
    /\ (forall f filepath uid st,
          read_file py_float f uid = Ok st ->
          fst (parse_plt_file py_float f filepath uid false) = [])
    /\ (forall listing base out limit,
          Forall (fun m => printed_when_quiet m = true)
                 (console (process_geolife_dataset py_float listing base out
                                                   false limit))).
Proof.
  intros float py_float. split; [|split].
  - intros f filepath uid verbose e He. unfold parse_plt_file.
    rewrite He. reflexivity.
  - intros f filepath uid st Hst. unfold parse_plt_file.
    rewrite Hst. reflexivity.
  - apply process_quiet.
Qed.

Lemma quiet_run_reports_failures_only_witness :
  parse_plt_file decimal_float
    (OpenFails (OSError (txt "Permission denied")))
    (txt "Data/000/Trajectory/a.plt") (txt "000") false
  = ([error_processing_file (txt "Data/000/Trajectory/a.plt")
        (OSError (txt "Permission denied"))], []).
Proof.
  destruct (quiet_run_reports_failures_only decimal decimal_float) as [H _].
  apply (H _ _ _ _ (OSError (txt "Permission denied"))). reflexivity.
Defined.

(* ================================================================= *)
(** ** The table is determined by its order and its ties *)

Section Determined.

Variable float : Type.

Let row := point float.

Lemma ties_with_refl (p : row) : ties_with p p = true.
Proof.
  unfold ties_with. apply andb_true_intro.
  split; [now apply str_eqb_eq | now apply datetime_eqb_eq].
Qed.

Lemma dt_fields_injective a b : dt_fields a = dt_fields b -> a = b.
Proof. destruct a, b. unfold dt_fields. simpl. congruence. Qed.

Lemma in_order_both_ways (p q : row) :
  in_order p q -> in_order q p -> ties_with p q = true.
Proof.
  intros [Hu Ht] [Hu' Ht'].
  assert (Eu : user_id p = user_id q) by now apply str_leb_antisym.
  unfold ties_with. apply andb_true_intro. split.
  - now apply str_eqb_eq.
  - apply datetime_eqb_eq. apply dt_fields_injective.
    apply lex_leb_antisym; [apply Ht' | apply Ht]; congruence.
Qed.

Lemma head_in_ties (x : row) l l' :
  filter (ties_with x) (x :: l) = filter (ties_with x) l' -> In x l'.
Proof.
  cbn [filter]. rewrite ties_with_refl. intros E.
  assert (H : In x (filter (ties_with x) l')) by (rewrite <- E; now left).
  apply filter_In in H. tauto.
Qed.

(** Two lists in order with the same ties in the same order are the same
    list. *)
Lemma ordered_unique (l1 : list row) :
  forall l2,
    StronglySorted (@in_order float) l1 ->
    StronglySorted (@in_order float) l2 ->
    (forall p, filter (ties_with p) l1 = filter (ties_with p) l2) ->
    l1 = l2.
Proof.
  induction l1 as [|x l1 IH]; intros l2 H1 H2 Hties.
  - destruct l2 as [|y l2]; [reflexivity|].
    specialize (Hties y). cbn [filter] in Hties.
    rewrite ties_with_refl in Hties. discriminate.
  - destruct l2 as [|y l2].
    { specialize (Hties x). cbn [filter] in Hties.
      rewrite ties_with_refl in Hties. discriminate. }
    inversion H1 as [|? ? H1' Hx]; subst.
    inversion H2 as [|? ? H2' Hy]; subst.
    rewrite Forall_forall in Hx, Hy.
    assert (Exy : x = y).
    { pose proof (head_in_ties x l1 (y :: l2) (Hties x)) as Hxin.
      pose proof (head_in_ties y l2 (x :: l1) (eq_sym (Hties y))) as Hyin.
      destruct Hxin as [E | Hxin]; [now symmetry|].
      destruct Hyin as [E | Hyin]; [exact E|].
      pose proof (in_order_both_ways x y (Hx _ Hyin) (Hy _ Hxin)) as Ht.
      specialize (Hties x). cbn [filter] in Hties.
      rewrite ties_with_refl, Ht in Hties. congruence. }
    subst y. f_equal. apply IH; auto.
    intros p. specialize (Hties p). cbn [filter] in Hties.
    destruct (ties_with p x); congruence.
Qed.

Lemma sort_values_determined (l l' : list row) :
  StronglySorted (@in_order float) l' ->
  (forall p, filter (ties_with p) l' = filter (ties_with p) l) ->
  l' = sort_values l.
Proof.
  intros Hs Hties. apply ordered_unique.
  - exact Hs.
  - apply sort_values_in_order.
  - intros p. rewrite Hties, sort_values_ties. reflexivity.
Qed.

End Determined.

(** X22.  The sorted table is determined by two facts: it is the one
    arrangement of the records that is in order, by owner and then by
    timestamp, and in which the records that tie keep the order they were
    collected in.  So records that are already in order are left as they
    are, and sorting twice gives what sorting once gives. *)
Theorem sorted_table_is_determined :
  forall (float : Type) (l l' : list (point float)),
    ((StronglySorted (@in_order float) l'
      /\ forall p, filter (ties_with p) l' = filter (ties_with p) l)
     <-> l' = sort_values l)
    /\ (StronglySorted (@in_order float) l -> sort_values l = l)
    /\ sort_values (sort_values l) = sort_values l.
Proof.
  intros float l l'.
  assert (Hfix : forall m : list (point float),
             StronglySorted (@in_order float) m -> sort_values m = m).
  { intros m Hm. symmetry. apply sort_values_determined; auto. }
  split; [|split].
  - split.
    + intros [Hs Hties]. now apply sort_values_determined.
    + intros ->. split; [apply sort_values_in_order|].
      intros p. apply sort_values_ties.
  - apply Hfix.
  - apply Hfix. apply sort_values_in_order.
Qed.

Lemma sorted_table_is_determined_witness :
  sort_values
    [ mk_point (txt "000") (mk_decimal 400 1) (mk_decimal 1164 1)
               (mk_decimal 492 0) (mk_datetime 2008 10 23 2 53 4);
      mk_point (txt "000") (mk_decimal 401 1) (mk_decimal 1165 1)
               (mk_decimal 500 0) (mk_datetime 2008 10 23 2 53 4);
      mk_point (txt "001") (mk_decimal 399 1) (mk_decimal 1163 1)
               (mk_decimal 492 0) (mk_datetime 2008 10 22 2 53 4) ]
  = [ mk_point (txt "000") (mk_decimal 400 1) (mk_decimal 1164 1)
               (mk_decimal 492 0) (mk_datetime 2008 10 23 2 53 4);
      mk_point (txt "000") (mk_decimal 401 1) (mk_decimal 1165 1)
               (mk_decimal 500 0) (mk_datetime 2008 10 23 2 53 4);
      mk_point (txt "001") (mk_decimal 399 1) (mk_decimal 1163 1)
               (mk_decimal 492 0) (mk_datetime 2008 10 22 2 53 4) ].
Proof.
  destruct (sorted_table_is_determined decimal
    [ mk_point (txt "000") (mk_decimal 400 1) (mk_decimal 1164 1)
               (mk_decimal 492 0) (mk_datetime 2008 10 23 2 53 4);
      mk_point (txt "000") (mk_decimal 401 1) (mk_decimal 1165 1)
               (mk_decimal 500 0) (mk_datetime 2008 10 23 2 53 4);
      mk_point (txt "001") (mk_decimal 399 1) (mk_decimal 1163 1)
               (mk_decimal 492 0) (mk_datetime 2008 10 22 2 53 4) ] [])
    as (_ & H & _).
  apply H.
  repeat (apply SSorted_cons; [|repeat (apply Forall_cons;
    [split; [reflexivity | intros E; first [discriminate E | reflexivity]]|]);
    apply Forall_nil]).
  apply SSorted_nil.
Defined.

(* ================================================================= *)
(** ** The four layouts exclude one another *)

Lemma lower_separator x c :
  In c ["-"; "/"; ":"]%char ->
  Ascii.eqb (lower x) (lower c) = Ascii.eqb x c.
Proof.
  intros [<- | [<- | [<- | []]]];
    destruct x as [[] [] [] [] [] [] [] []]; reflexivity.
Qed.

(** What an alternative of a directive reads is made of digits and
    blanks. *)
Lemma dir_alts_consumed d s v s' :
  In (v, s') (dir_alts d s) ->
  exists pre,
    s = pre ++ s'
    /\ Forall (fun x => digit_val x <> None \/ x = " "%char) pre
    /\ (match d with dY => length pre = 4 | _ => 1 <= length pre <= 2 end)
    /\ (d = dY -> Forall (fun x => digit_val x <> None) pre).
Proof.
  assert (H2 : forall p1 p2,
             In (v, s') (two_digits p1 p2 s) ->
             exists c1 c2, s = c1 :: c2 :: s'
                           /\ digit_val c1 <> None /\ digit_val c2 <> None).
  { intros p1 p2. unfold two_digits.
    destruct s as [|c1 [|c2 r]]; try (intros []).
    destruct (digit_val c1) eqn:E1; [|intros []].
    destruct (digit_val c2) eqn:E2; [|intros []].
    destruct (p1 n && p2 n0); [|intros []].
    intros [[= _ <-] | []]. exists c1, c2. rewrite E1, E2.
    repeat split; discriminate. }
  assert (H1 : forall p r,
             In (v, s') (one_digit p r) ->
             exists c1, r = c1 :: s' /\ digit_val c1 <> None).
  { intros p r. unfold one_digit.
    destruct r as [|c1 r']; [intros []|].
    destruct (digit_val c1) eqn:E1; [|intros []].
    destruct (p n); [|intros []].
    intros [[= _ <-] | []]. exists c1. rewrite E1. split; [auto|discriminate]. }
  assert (Two : forall p1 p2,
             In (v, s') (two_digits p1 p2 s) ->
             exists pre,
               s = pre ++ s'
               /\ Forall (fun x => digit_val x <> None \/ x = " "%char) pre
               /\ 1 <= length pre <= 2).
  { intros p1 p2 H. apply H2 in H as (c1 & c2 & -> & D1 & D2).
    exists [c1; c2]. repeat split; auto; simpl; lia. }
  assert (One : In (v, s') (one_digit (between 1 9) s)
                \/ In (v, s') (one_digit any s) ->
                exists pre,
                  s = pre ++ s'
                  /\ Forall (fun x => digit_val x <> None \/ x = " "%char) pre
                  /\ 1 <= length pre <= 2).
  { intros [H | H]; apply H1 in H as (c1 & -> & D1);
      exists [c1]; repeat split; auto; simpl; lia. }
  intros H. destruct d; cbn [dir_alts] in H.
  - unfold four_digits in H.
    destruct s as [|c1 [|c2 [|c3 [|c4 r]]]]; try (destruct H).
    destruct (digit_val c1) eqn:E1; [|destruct H].
    destruct (digit_val c2) eqn:E2; [|destruct H].
    destruct (digit_val c3) eqn:E3; [|destruct H].
    destruct (digit_val c4) eqn:E4; [|destruct H].
    destruct H as [[= _ <-] | []].
    assert (D1 : digit_val c1 <> None) by (rewrite E1; discriminate).
    assert (D2 : digit_val c2 <> None) by (rewrite E2; discriminate).
    assert (D3 : digit_val c3 <> None) by (rewrite E3; discriminate).
    assert (D4 : digit_val c4 <> None) by (rewrite E4; discriminate).
    exists [c1; c2; c3; c4].
    split; [reflexivity|]. split; [auto 6|]. split; [reflexivity|].
    intros _. auto 6.
  - repeat (apply in_app_or in H as [H | H]);
      [ destruct (Two _ _ H) as (pre & ? & ? & ?)
      | destruct (Two _ _ H) as (pre & ? & ? & ?)
      | destruct (One (or_introl H)) as (pre & ? & ? & ?) ];
      exists pre; repeat split; auto; try lia; discriminate.
  - repeat (apply in_app_or in H as [H | H]);
      [ destruct (Two _ _ H) as (pre & ? & ? & ?)
      | destruct (Two _ _ H) as (pre & ? & ? & ?)
      | destruct (Two _ _ H) as (pre & ? & ? & ?)
      | destruct (One (or_introl H)) as (pre & ? & ? & ?)
      | ];
      try (exists pre; repeat split; auto; try lia; discriminate).
    unfold blank_digit in H.
    destruct s as [|c0 r]; [destruct H|].
    destruct (Ascii.eqb_spec c0 " "%char) as [->|]; [|destruct H].
    apply H1 in H as (c1 & -> & D1).
    exists [" "%char; c1]. repeat split; auto; try (simpl; lia); discriminate.
  - repeat (apply in_app_or in H as [H | H]);
      [ destruct (Two _ _ H) as (pre & ? & ? & ?)
      | destruct (Two _ _ H) as (pre & ? & ? & ?)
      | destruct (One (or_intror H)) as (pre & ? & ? & ?) ];
      exists pre; repeat split; auto; try lia; discriminate.
  - repeat (apply in_app_or in H as [H | H]);
      [ destruct (Two _ _ H) as (pre & ? & ? & ?)
      | destruct (One (or_intror H)) as (pre & ? & ? & ?) ];
      exists pre; repeat split; auto; try lia; discriminate.
  - repeat (apply in_app_or in H as [H | H]);
      [ destruct (Two _ _ H) as (pre & ? & ? & ?)
      | destruct (Two _ _ H) as (pre & ? & ? & ?)
      | destruct (One (or_intror H)) as (pre & ? & ? & ?) ];
      exists pre; repeat split; auto; try lia; discriminate.
Qed.

Lemma space_alts_consumed s s' :
  In s' (space_alts s) ->
  exists ws, s = ws ++ s' /\ forallb isspace ws = true.
Proof.
  induction s as [|c r IH]; simpl; [intros []|].
  destruct (isspace c) eqn:Ec; [|intros []].
  intros H. apply in_app_or in H as [H | [<- | []]].
  - destruct (IH H) as (ws & -> & Hws). exists (c :: ws).
    simpl. now rewrite Ec, Hws.
  - exists [c]. simpl. now rewrite Ec.
Qed.

Lemma count_none c pre :
  Forall (fun x => x <> c) pre -> count_occ ascii_dec pre c = 0.
Proof.
  intros H. apply count_occ_not_In. rewrite Forall_forall in H.
  intros Hin. exact (H c Hin eq_refl).
Qed.

Lemma separator_not_read c x :
  In c ["-"; "/"; ":"]%char ->
  digit_val x <> None \/ x = " "%char -> x <> c.
Proof.
  intros [<- | [<- | [<- | []]]] [H | ->] E; subst;
    try discriminate; apply H; reflexivity.
Qed.

Lemma separator_not_space c ws :
  In c ["-"; "/"; ":"]%char -> forallb isspace ws = true ->
  Forall (fun x => x <> c) ws.
Proof.
  intros Hc Hws. rewrite forallb_forall in Hws. apply Forall_forall.
  intros x Hx E. specialize (Hws x Hx). subst x.
  destruct Hc as [<- | [<- | [<- | []]]]; discriminate.
Qed.

(** A separator stands in the text read as often as in the format. *)
Lemma re_match_count c items :
  In c ["-"; "/"; ":"]%char ->
  (forall c', In (Lit c') items -> In c' ["-"; "/"; ":"]%char) ->
  forall s found rest,
    re_match items s = Some (found, rest) ->
    count_occ ascii_dec s c = lits c items + count_occ ascii_dec rest c.
Proof.
  intros Hc. induction items as [|it items IH]; intros Hlit s found rest H.
  - injection H as _ <-. reflexivity.
  - assert (Hlit' : forall c', In (Lit c') items ->
                               In c' ["-"; "/"; ":"]%char)
      by (intros c' Hin; apply Hlit; now right).
    destruct it as [d|c'|]; cbn [re_match] in H.
    + apply first_match_some_inv in H as ([v s'] & Hin & Hk).
      cbn [fst snd] in Hk. unfold capture in Hk.
      destruct (re_match items s') as [[found' rest']|] eqn:E; [|discriminate].
      injection Hk as _ <-.
      apply dir_alts_consumed in Hin as (pre & -> & Hpre & _).
      rewrite count_occ_app, (IH Hlit' _ _ _ E).
      rewrite count_none; [reflexivity|].
      eapply Forall_impl; [|exact Hpre].
      intros x Hx. now apply separator_not_read.
    + destruct s as [|x s']; [discriminate|].
      rewrite lower_separator in H by (apply Hlit; now left).
      destruct (Ascii.eqb_spec x c') as [->|]; [|discriminate].
      cbn [count_occ]. rewrite (IH Hlit' _ _ _ H).
      unfold lits. cbn [filter].
      destruct (ascii_dec c' c) as [->|Hne].
      * rewrite Ascii.eqb_refl. reflexivity.
      * apply Ascii.eqb_neq in Hne. rewrite Hne. reflexivity.
    + apply first_match_some_inv in H as (s' & Hin & Hk).
      apply space_alts_consumed in Hin as (ws & -> & Hws).
      rewrite count_occ_app, (IH Hlit' _ _ _ Hk).
      rewrite count_none; [reflexivity|].
      now apply separator_not_space.
Qed.

Lemma strptime_ok_match ts fmt t :
  strptime ts fmt = Ok t ->
  exists items found,
    compile fmt = Some items /\ re_match items ts = Some (found, []).
Proof.
  unfold strptime. destruct (compile fmt) as [items|]; [|discriminate].
  destruct (re_match items ts) as [[found rest]|] eqn:Em; [|discriminate].
  destruct rest; cbn [is_empty]; [|discriminate]. intros _. eauto.
Qed.

(** A text read by a format that starts with a year starts with four
    digits. *)
Lemma re_match_year_first items s m :
  re_match (Dir dY :: items) s = Some m ->
  exists pre r, s = pre ++ r /\ length pre = 4
                /\ Forall (fun x => digit_val x <> None) pre.
Proof.
  cbn [re_match]. intros H.
  apply first_match_some_inv in H as ([v s'] & Hin & _).
  apply dir_alts_consumed in Hin as (pre & -> & _ & Hlen & Hd).
  exists pre, s'. auto.
Qed.

(** A text read by a format that starts with a day and a dash has a dash
    as its second or third character. *)
Lemma re_match_day_first items s m :
  re_match (Dir dd :: Lit "-" :: items) s = Some m ->
  exists pre r, s = pre ++ "-"%char :: r /\ 1 <= length pre <= 2.
Proof.
  cbn [re_match]. intros H.
  apply first_match_some_inv in H as ([v s'] & Hin & Hk).
  cbn [fst snd] in Hk.
  apply dir_alts_consumed in Hin as (pre & -> & _ & Hlen & _).
  destruct s' as [|x r]; [discriminate|].
  rewrite lower_separator in Hk by (simpl; auto).
  destruct (Ascii.eqb_spec x "-"%char) as [->|]; [|discriminate].
  exists pre, r. auto.
Qed.

Lemma year_first_not_day_first s items items' m m' :
  re_match (Dir dY :: items) s = Some m ->
  re_match (Dir dd :: Lit "-" :: items') s = Some m' ->
  False.
Proof.
  intros HY HD.
  apply re_match_year_first in HY as (pre & r & -> & Hlen & Hdig).
  apply re_match_day_first in HD as (pre' & r' & E & Hlen').
  assert (Hnth : nth_error (pre ++ r) (length pre') = Some "-"%char).
  { rewrite E. rewrite nth_error_app2 by lia.
    rewrite Nat.sub_diag. reflexivity. }
  rewrite nth_error_app1 in Hnth by lia.
  apply nth_error_In in Hnth. rewrite Forall_forall in Hdig.
  apply (Hdig _ Hnth). reflexivity.
Qed.

(** The separators of a text that a candidate format reads, and how the
    text starts. *)
Lemma candidate_signature ts fmt t :
  In fmt candidates ->
  strptime ts fmt = Ok t ->
  exists items found,
    compile fmt = Some items
    /\ re_match items ts = Some (found, [])
    /\ count_occ ascii_dec ts "/"%char = lits "/" items
    /\ count_occ ascii_dec ts ":"%char = lits ":" items.
Proof.
  intros Hin Hok.
  apply strptime_ok_match in Hok as (items & found & Hc & Hm).
  exists items, found. split; [exact Hc|]. split; [exact Hm|].
  assert (Hlit : forall c', In (Lit c') items ->
                            In c' ["-"; "/"; ":"]%char).
  { unfold candidates in Hin. simpl in Hin.
    destruct Hin as [<- | [<- | [<- | [<- | []]]]];
      vm_compute in Hc; injection Hc as <-; intros c' Hc';
      repeat (destruct Hc' as [Hc' | Hc'];
              [first [discriminate Hc' | injection Hc' as <-; simpl; tauto]|]);
      destruct Hc'. }
  split.
  - rewrite (re_match_count "/" items (or_intror (or_introl eq_refl)) Hlit
               _ _ _ Hm). simpl. lia.
  - rewrite (re_match_count ":" items
               (or_intror (or_intror (or_introl eq_refl))) Hlit _ _ _ Hm).
    simpl. lia.
Qed.

Lemma candidates_exclusive ts fmt fmt' t t' :
  In fmt candidates -> In fmt' candidates ->
  strptime ts fmt = Ok t -> strptime ts fmt' = Ok t' -> fmt = fmt'.
Proof.
  intros Hin Hin' Hok Hok'.
  destruct (candidate_signature ts fmt t Hin Hok)
    as (items & found & Hc & Hm & Hs & Hk).
  destruct (candidate_signature ts fmt' t' Hin' Hok')
    as (items' & found' & Hc' & Hm' & Hs' & Hk').
  unfold candidates in Hin, Hin'. simpl in Hin, Hin'.
  destruct Hin as [<- | [<- | [<- | [<- | []]]]];
    destruct Hin' as [<- | [<- | [<- | [<- | []]]]];
    try reflexivity; exfalso;
    vm_compute in Hc; vm_compute in Hc';
    injection Hc as <-; injection Hc' as <-;
    cbv [lits filter length Ascii.eqb Bool.eqb] in Hs, Hk, Hs', Hk';
    try congruence.
  - exact (year_first_not_day_first _ _ _ _ _ Hm Hm').
  - exact (year_first_not_day_first _ _ _ _ _ Hm' Hm).
Qed.

Lemma try_formats_the_one ts fmts :
  (forall f f' t t',
      In f fmts -> In f' fmts ->
      strptime ts f = Ok t -> strptime ts f' = Ok t' -> f = f') ->
  forall f t, In f fmts -> strptime ts f = Ok t -> try_formats ts fmts = Ok t.
Proof.
  induction fmts as [|g rest IH]; intros Huniq f t Hin Hok; [destruct Hin|].
  cbn [try_formats]. destruct (strptime ts g) as [t'|e] eqn:Eg.
  - assert (g = f) by (eapply Huniq; eauto; now left).
    subst g. rewrite Hok in Eg. injection Eg as <-. reflexivity.
  - cbn [try_except]. destruct Hin as [-> | Hin]; [congruence|].
    apply (IH (fun a b x y Ha Hb => Huniq a b x y (or_intror Ha) (or_intror Hb))
              f t Hin Hok).
Qed.

Lemma try_formats_none ts fmts :
  (forall f, In f fmts -> is_ok (strptime ts f) = false) ->
  try_formats ts fmts = Raise (ValueError (unknown_datetime_format ts)).
Proof.
  induction fmts as [|g rest IH]; intros Hnone; [reflexivity|].
  cbn [try_formats]. pose proof (Hnone g (or_introl eq_refl)) as Hg.
  destruct (strptime ts g); [discriminate|]. cbn [try_except].
  apply IH. intros f Hf. apply Hnone. now right.
Qed.

(** X23.  No text is read by two of the four layouts: the formats with
    slashes, with one colon, with a leading year and with a leading day
    exclude one another.  So the order in which the candidates are tried
    plays no part: tried in any other order they give the same
    timestamp or the same error. *)
Theorem layouts_exclude_one_another :
  forall (ts : str),
    (forall fmt fmt' t t',
        In fmt candidates -> In fmt' candidates ->
        strptime ts fmt = Ok t -> strptime ts fmt' = Ok t' -> fmt = fmt')
    /\ (forall fmts,
          Permutation fmts candidates ->
          try_formats ts fmts = try_formats ts candidates).
Proof.
  intros ts. split; [apply candidates_exclusive|].
  intros fmts Hp.
  assert (Huniq : forall l, (forall f, In f l -> In f candidates) ->
                            forall f f' t t',
                              In f l -> In f' l ->
                              strptime ts f = Ok t ->
                              strptime ts f' = Ok t' -> f = f').
  { intros l Hl f f' t t' Hf Hf'. apply candidates_exclusive; auto. }
  destruct (find (fun fmt => is_ok (strptime ts fmt)) candidates)
    as [f|] eqn:Ef.
  - apply find_some in Ef as [Hin Hok].
    destruct (strptime ts f) as [t|e] eqn:Et; [|discriminate].
    rewrite (try_formats_the_one ts candidates
               (Huniq candidates (fun _ H => H)) f t Hin Et).
    apply (try_formats_the_one ts fmts) with (f := f); auto.
    + apply Huniq. intros g Hg. eapply Permutation_in; eauto.
    + eapply Permutation_in; [symmetry; exact Hp | exact Hin].
  - rewrite (try_formats_none ts candidates)
      by (intros f Hf; exact (find_none _ _ Ef f Hf)).
    apply try_formats_none. intros f Hf.
    apply (find_none _ _ Ef). eapply Permutation_in; eauto.
Qed.

Lemma layouts_exclude_one_another_witness :
  try_formats (txt "23-10-2008 02:53:04") (rev candidates)
  = try_formats (txt "23-10-2008 02:53:04") candidates.
Proof.
  destruct (layouts_exclude_one_another (txt "23-10-2008 02:53:04")) as [_ H].
  apply H. symmetry. apply Permutation_rev.
Defined.

(* ================================================================= *)
(** ** Writing fields and reading them back *)

Lemma trimmed_strip f : trimmed f -> strip f = f.
Proof.
  destruct f as [|c r]; [reflexivity|]. intros [Hhd Hlast].
  unfold strip. rewrite lstrip_fixed by exact Hhd.
  unfold rstrip. rewrite lstrip_fixed; [apply rev_involutive|].
  destruct (rev (c :: r)) as [|x l] eqn:E; [exact I|].
  assert (Hx : last (c :: r) c = x).
  { rewrite <- (rev_involutive (c :: r)), E. rewrite last_rev. reflexivity. }
  rewrite <- Hx. exact Hlast.
Qed.

Lemma split_fields_clean f : clean f -> split_fields f = [f].
Proof.
  intros (Hne & Htr & Hc). unfold split_fields.
  rewrite split_no_sep by exact Hc. cbn [filter].
  rewrite (trimmed_strip f Htr).
  destruct f; [congruence|]. cbn [is_empty negb map].
  now rewrite (trimmed_strip _ Htr).
Qed.

Lemma split_fields_join fields :
  Forall clean fields -> split_fields (join_commas fields) = fields.
Proof.
  induction 1 as [|f fields Hf Hfs IH]; [reflexivity|].
  cbn [join_commas]. destruct fields as [|g fields].
  - now apply split_fields_clean.
  - rewrite split_fields_app, (split_fields_clean f Hf), IH. reflexivity.
Qed.

(** X24.  Fields that are not empty, have no whitespace at either end
    and hold no comma, written on one line with commas between them, are
    read back as they were; and the fields read from any text are of
    that kind, so writing them and reading them again changes nothing. *)
Theorem fields_round_trip :
  forall (fields : list str) (raw : str),
    (Forall clean fields -> split_fields (join_commas fields) = fields)
    /\ Forall clean (split_fields raw)
    /\ split_fields (join_commas (split_fields raw)) = split_fields raw.
Proof.
  intros fields raw.
  assert (Hclean : Forall clean (split_fields raw)).
  { apply Forall_forall. intros f Hf.
    unfold split_fields in Hf.
    apply in_map_iff in Hf as (p & <- & Hp).
    apply filter_In in Hp as [Hp Hne].
    repeat split.
    - intros E. rewrite E in Hne. discriminate.
    - apply strip_trimmed.
    - intros Hc. apply strip_incl in Hc.
      pose proof (split_pieces ","%char raw) as Hall.
      rewrite Forall_forall in Hall. exact (Hall p Hp Hc). }
  split; [apply split_fields_join|]. split; [exact Hclean|].
  apply split_fields_join. exact Hclean.
Qed.

Lemma fields_round_trip_witness :
  split_fields (join_commas [txt "39.9"; txt "116.3"; txt "2008-10-23"])
  = [txt "39.9"; txt "116.3"; txt "2008-10-23"].
Proof.
  destruct (fields_round_trip [txt "39.9"; txt "116.3"; txt "2008-10-23"] [])
    as [H _].
  apply H.
  repeat (apply Forall_cons;
          [split; [discriminate|];
           split; [split; reflexivity|];
           simpl; intuition discriminate|]).
  apply Forall_nil.
Defined.

Lemma split_front_spaces sep ws s :
  ~ In sep ws ->
  exists p ps, split sep s = p :: ps /\ split sep (ws ++ s) = (ws ++ p) :: ps.
Proof.
  intros Hws. induction ws as [|c ws IH]; simpl.
  - pose proof (split_not_nil sep s) as Hne.
    destruct (split sep s) as [|p ps]; [congruence|]. eauto.
  - destruct IH as (p & ps & E & E'); [intros H; apply Hws; now right|].
    destruct (Ascii.eqb_spec c sep) as [->|_]; [exfalso; apply Hws; now left|].
    rewrite E'. exists p, ps. auto.
Qed.

Lemma split_fields_leading_spaces ws s :
  forallb isspace ws = true -> split_fields (ws ++ s) = split_fields s.
Proof.
  intros H. unfold split_fields.
  destruct (split_front_spaces ","%char ws s (spaces_no_comma ws H))
    as (p & ps & -> & ->).
  cbn [filter].
  assert (E : strip (ws ++ p) = strip p).
  { rewrite <- (app_nil_r p) at 1. apply (strip_surrounded ws p []); auto. }
  rewrite E. destruct (is_empty (strip p)); cbn [negb map]; [reflexivity|].
  now rewrite E.
Qed.

(** The fields of a text are those of the text once trimmed. *)
Lemma split_fields_strip s : split_fields (strip s) = split_fields s.
Proof.
  destruct (lstrip_split s) as (ws1 & E1 & H1 & _).
  destruct (rstrip_split (lstrip s)) as (ws2 & E2 & H2).
  pose proof (split_fields_leading_spaces ws1 (lstrip s) H1) as T1.
  rewrite <- E1 in T1.
  pose proof (split_fields_trailing_spaces (rstrip (lstrip s)) ws2 H2) as T2.
  rewrite <- E2 in T2.
  unfold strip. congruence.
Qed.

Lemma digit_not_comma a : (a < 10)%N -> digit a <> ","%char.
Proof.
  revert a. each_below 10 ltac:(discriminate).
Qed.

Lemma rendered_clean l t :
  valid_instant t -> clean (fst (render l t)) /\ clean (snd (render l t)).
Proof.
  intros V. destruct (valid_in_range t V) as (RY & Rm & Rd & RH & RM & RS).
  simpl in RY, Rm, Rd, RH, RM, RS.
  destruct l; unfold render, hms, pad2, pad4, txt, clean, trimmed;
    cbn [fst snd app list_ascii_of_string last];
    (split; (split; [discriminate|]);
     (split; [split; apply digit_not_space; div_lia|]);
     cbn [In]; intros H;
     repeat (destruct H as [H | H];
             [first [discriminate H
                    | revert H; apply digit_not_comma; div_lia]|]);
     exact H).
Qed.

(** X25.  A line of the GeoLife kind, seven fields with the latitude, the
    longitude and the altitude as fields 0, 1 and 3 and a valid instant
    written in one of the four layouts as its last two fields, is the
    point record of these values for the owner given; the instant is kept
    whole in the three layouts with seconds and to the minute in the
    fourth. *)
Theorem geolife_line_is_parsed :
  forall (float : Type) (py_float : str -> option float)
         (uid lat lon f2 alt f4 : str) (l : layout) (t : datetime)
         (vlat vlon valt : float),
    valid_instant t ->
    clean lat -> clean lon -> clean f2 -> clean alt -> clean f4 ->
    py_float lat = Some vlat ->
    py_float lon = Some vlon ->
    py_float alt = Some valt ->
    parse_line py_float
      (join_commas [lat; lon; f2; alt; f4;
                    fst (render l t); snd (render l t)])
      uid
    = Ok (PointRecord
            (mk_point uid vlat vlon valt
                      (match l with
                       | ymd_dash_hm => on_the_minute t
                       | _ => t
                       end))).
Proof.
  intros float py_float uid lat lon f2 alt f4 l t vlat vlon valt
         V C0 C1 C2 C3 C4 Hlat Hlon Halt.
  destruct (rendered_clean l t V) as [Cd Ct].
  apply parse_line_point_iff. cbv zeta.
  rewrite split_fields_strip.
  rewrite split_fields_join
    by (repeat (apply Forall_cons; [assumption|]); apply Forall_nil).
  cbn [length nth Nat.sub user_id latitude longitude altitude timestamp].
  split; [lia|]. do 3 (split; [assumption || reflexivity|]).
  split; [left; exact Halt|].
  exact (parse_rendered_result t V l).
Qed.

Lemma geolife_line_is_parsed_witness :
  parse_line decimal_float
    (join_commas [txt "39.984702"; txt "116.318417"; txt "0"; txt "492";
                  txt "39744.1201851852";
                  fst (render ymd_dash (mk_datetime 2008 10 23 2 53 4));
                  snd (render ymd_dash (mk_datetime 2008 10 23 2 53 4))])
    (txt "000")
  = Ok (PointRecord
          (mk_point (txt "000") (mk_decimal 39984702 6)
                    (mk_decimal 116318417 6) (mk_decimal 492 0)
                    (mk_datetime 2008 10 23 2 53 4))).
Proof.
  apply (geolife_line_is_parsed decimal decimal_float (txt "000")
           (txt "39.984702") (txt "116.318417") (txt "0") (txt "492")
           (txt "39744.1201851852") ymd_dash (mk_datetime 2008 10 23 2 53 4));
    try reflexivity;
    try (unfold valid_instant; simpl; lia);
    (split; [discriminate|]; split; [split; reflexivity|];
     simpl; intuition discriminate).
Defined.
